(** * home-calendar: the occurrence materializer of [services/calendarService.js]

    A shallow embedding of [parseIcsData] and [getCalendarEventsFromUrls]
    together with the parts of their collaborators (JavaScript [Date],
    luxon's [DateTime], the rrule iterator) that the code relies on.

    Conventions.
    - A JavaScript [Date] is its epoch-millisecond value, a [Z].  All
      numbers in play are integers far below 2^53, so JavaScript's
      arithmetic on them is exact integer arithmetic.
    - A time zone is its offset function: UTC instant (ms) to offset in
      minutes, the shape of luxon's [Zone.offset].
    - A luxon [DateTime] in a fixed zone is represented by its timestamp:
      the constructor recomputes offset and calendar fields from the zone
      at that timestamp, so they carry no extra information. *)

From Stdlib Require Import ZArith QArith Qround Lia List Bool Ascii String.
From Stdlib Require Import Sorted Permutation Decimal DecimalNat DecimalString.
From stdpp Require Import gmap.
Import ListNotations.
Local Open Scope Z_scope.

(** ** JavaScript [Date]: the proleptic Gregorian calendar in UTC *)

Module JSDate.

Definition msPerDay : Z := 86400000.

(** Day-of-era arithmetic: a 400-year era has 146097 days and starts on
    March 1st, so the leap day is the last day of a year. *)
Definition yearOfEra (doe : Z) : Z :=
  (doe - doe / 1460 + doe / 36524 - doe / 146096) / 365.

Definition dayOfYear (doe : Z) : Z :=
  let yoe := yearOfEra doe in doe - (365 * yoe + yoe / 4 - yoe / 100).

Definition monthIndex (doy : Z) : Z := (5 * doy + 2) / 153.

Definition dayOfEra (yoe mp d : Z) : Z :=
  yoe * 365 + yoe / 4 - yoe / 100 + ((153 * mp + 2) / 5 + d - 1).

(** [civilFromDays n] is (year, month 1..12, day 1..31) of epoch day [n]:
    what [getUTCFullYear], [getUTCMonth() + 1] and [getUTCDate] return. *)
Definition civilFromDays (n : Z) : Z * Z * Z :=
  let z := n + 719468 in
  let era := z / 146097 in
  let doe := z mod 146097 in
  let yoe := yearOfEra doe in
  let doy := dayOfYear doe in
  let mp := monthIndex doy in
  let d := doy - (153 * mp + 2) / 5 + 1 in
  let m := if mp <? 10 then mp + 3 else mp - 9 in
  (yoe + era * 400 + (if m <=? 2 then 1 else 0), m, d).

(** [daysFromCivil y m d]: the epoch day of a calendar date, ECMAScript's
    [MakeDay]; months outside 1..12 carry into the year and days outside
    the month carry over linearly, as [Date.UTC] does. *)
Definition daysFromCivil (y m d : Z) : Z :=
  let ym := y + (m - 1) / 12 in
  let mn := (m - 1) mod 12 + 1 in
  let y' := if mn <=? 2 then ym - 1 else ym in
  let era := y' / 400 in
  let yoe := y' mod 400 in
  let mp := if 2 <? mn then mn - 3 else mn + 9 in
  era * 146097 + dayOfEra yoe mp d - 719468.

(** [Date.UTC(year, month - 1, day, hour, minute, second, millisecond)]. *)
Definition dateUTC (y m d h mi s ms : Z) : Z :=
  daysFromCivil y m d * msPerDay + h * 3600000 + mi * 60000 + s * 1000 + ms.

Definition epochDay (t : Z) : Z := t / msPerDay.
Definition msOfDay (t : Z) : Z := t mod msPerDay.

(** ISO weekday of an epoch day, 1 = Monday .. 7 = Sunday
    (1970-01-01 was a Thursday). *)
Definition isoWeekday (n : Z) : Z := (n + 3) mod 7 + 1.

Definition isLeapYear (y : Z) : bool :=
  (y mod 4 =? 0) && (negb (y mod 100 =? 0) || (y mod 400 =? 0)).

Definition daysInMonth (y m : Z) : Z :=
  let modMonth := (m - 1) mod 12 + 1 in
  let modYear := y + (m - modMonth) / 12 in
  if modMonth =? 2 then (if isLeapYear modYear then 29 else 28)
  else if (modMonth =? 4) || (modMonth =? 6) || (modMonth =? 9) || (modMonth =? 11)
       then 30 else 31.

End JSDate.

(** ** luxon: zones and [DateTime] *)

Module Luxon.
Import JSDate.

(** [Zone.offset(ts)]: minutes east of UTC at a UTC instant. *)
Definition Zone : Type := Z -> Z.

Definition utc : Zone := fun _ => 0.

(** The calendar object [c] of a [DateTime]. *)
Record DateObj : Type := mkObj {
  year : Z; month : Z; day : Z;
  hour : Z; minute : Z; second : Z; millisecond : Z }.

(** [tsToObj(ts, offset)]: shift by the offset and read the UTC fields. *)
Definition tsToObj (ts offset : Z) : DateObj :=
  let t := ts + offset * 60 * 1000 in
  let '(y, m, d) := civilFromDays (epochDay t) in
  let r := msOfDay t in
  mkObj y m d (r / 3600000) (r / 60000 mod 60) (r / 1000 mod 60) (r mod 1000).

(** [objToLocalTS(obj)]: the epoch value "with the offset baked in". *)
Definition objToLocalTS (c : DateObj) : Z :=
  dateUTC (year c) (month c) (day c) (hour c) (minute c) (second c) (millisecond c).

(** [fixOffset(localTS, o, tz)]: find the instant of a local time, starting
    from the guess [o]; in a gap the time is pushed forward. *)
Definition fixOffset (localTS o : Z) (tz : Zone) : Z * Z :=
  let utcGuess := localTS - o * 60 * 1000 in
  let o2 := tz utcGuess in
  if o =? o2 then (utcGuess, o)
  else
    let utcGuess' := utcGuess - (o2 - o) * 60 * 1000 in
    let o3 := tz utcGuess' in
    if o2 =? o3 then (utcGuess', o2)
    else (localTS - Z.min o2 o3 * 60 * 1000, Z.max o2 o3).

Definition objToTS (c : DateObj) (offset : Z) (zone : Zone) : Z * Z :=
  fixOffset (objToLocalTS c) offset zone.

Section InZone.
Variable zone : Zone.

(** [DateTime.fromJSDate(d, { zone })]. *)
Definition fromJSDate (d : Z) : Z := d.
Definition toJSDate (ts : Z) : Z := ts.

Definition offset (ts : Z) : Z := zone ts.
Definition toObject (ts : Z) : DateObj := tsToObj ts (zone ts).

(** The local clock reading of an instant, as an epoch value. *)
Definition localTS (ts : Z) : Z := ts + zone ts * 60 * 1000.

(** [set] leaves the day alone unless it overflows the month. *)
Definition clampDay (c : DateObj) : DateObj :=
  mkObj (year c) (month c) (Z.min (daysInMonth (year c) (month c)) (day c))
        (hour c) (minute c) (second c) (millisecond c).

(** [dt.set({ hour, minute, second })]. *)
Definition setHMS (ts h mi s : Z) : Z :=
  let c := toObject ts in
  let mixed := clampDay (mkObj (year c) (month c) (day c) h mi s (millisecond c)) in
  fst (objToTS mixed (zone ts) zone).

(** [dt.startOf('day')] is [dt.set({ hour: 0, minute: 0, second: 0,
    millisecond: 0 })]. *)
Definition startOfDay (ts : Z) : Z :=
  let c := toObject ts in
  let mixed := clampDay (mkObj (year c) (month c) (day c) 0 0 0 0) in
  fst (objToTS mixed (zone ts) zone).

(** [dt.plus({ days: n })]: calendar arithmetic on the local date. *)
Definition plusDays (ts n : Z) : Z :=
  let c := toObject ts in
  let c' := mkObj (year c) (month c)
                  (Z.min (day c) (daysInMonth (year c) (month c)) + n)
                  (hour c) (minute c) (second c) (millisecond c) in
  fst (fixOffset (objToLocalTS c') (zone ts) zone).

(** [dt.plus({ milliseconds: n })] and [dt.minus(n)]: the calendar part is
    re-resolved, then the milliseconds are added to the timestamp. *)
Definition plusMillis (ts n : Z) : Z :=
  let ts' := fst (fixOffset (objToLocalTS (toObject ts)) (zone ts) zone) in
  if n =? 0 then ts' else ts' + n.

(** [dt.endOf('day')] is [dt.plus({ days: 1 }).startOf('day').minus(1)]. *)
Definition endOfDay (ts : Z) : Z :=
  plusMillis (startOfDay (plusDays ts 1)) (-1).

(** [dt.toISODate()], kept as the (year, month, day) it prints. *)
Definition toISODate (ts : Z) : Z * Z * Z :=
  let c := toObject ts in (year c, month c, day c).

(** [DateTime.fromObject({ year, month, day, hour: 0, minute: 0,
    second: 0 }, { zone })]: the provisional offset is the zone's offset at
    the current time [now]. *)
Definition fromObject (now : Z) (y m d : Z) : Z :=
  fst (objToTS (mkObj y m d 0 0 0 0) (zone now) zone).
End InZone.

(** A JavaScript [Date]'s [getMonth()] reads the month in the host's zone,
    0-indexed. *)
Definition getMonth (host : Zone) (d : Z) : Z := month (toObject host d) - 1.

(** [toFormat('c')] in UTC: ISO weekday number, Monday = 1. *)
Definition utcWeekday (d : Z) : Z := isoWeekday (epochDay d).

End Luxon.

(** ** rrule: the recurrence iterator

    The materializer consumes the iterator through [after] and [between]
    only, so it is kept behind an interface; [RRule.model] is an executable
    model of the package for date-based rules (frequencies YEARLY to DAILY,
    plain weekdays, positive month days), which is what the code passes. *)

Module RRule.
Import JSDate.

(** [RRule.YEARLY] is 0, hence falsy in JavaScript. *)
Inductive Frequency : Type := YEARLY | MONTHLY | WEEKLY | DAILY.

Definition Frequency_eqb (a b : Frequency) : bool :=
  match a, b with
  | YEARLY, YEARLY | MONTHLY, MONTHLY | WEEKLY, WEEKLY | DAILY, DAILY => true
  | _, _ => false
  end.

(** The option keys the code reads and writes; [None] is an absent,
    [undefined] or [null] key.  Weekdays are rrule's numbers, MO = 0. *)
Record Options : Type := mkOptions {
  freq : option Frequency;
  dtstart : Z;
  interval : option Z;
  count : option Z;
  until : option Z;
  byweekday : option (list Z);
  bymonthday : option (list Z);
  bymonth : option (list Z) }.

(** What the code asks of a rule set: [after(dt, true)], the first
    occurrence at or after [dt], and [between(a, b)], the occurrences
    strictly between [a] and [b], ascending. *)
Record RRuleSet : Type := mkSet {
  after : Z -> option Z;
  between : Z -> Z -> list Z }.

(** Iteration over parsed options. *)
Class Iterator : Type := iterate : Options -> RRuleSet.

Definition notEmpty (l : option (list Z)) : bool :=
  match l with Some (_ :: _) => true | _ => false end.

Definition isPresent {A} (x : option A) : bool :=
  match x with Some _ => true | None => false end.

(** rrule's weekday of an epoch day, MO = 0 .. SU = 6. *)
Definition weekdayOf (n : Z) : Z := (n + 3) mod 7.

(** [parseOptions]: a rule without a frequency is rejected ("Invalid
    frequency"); when no by-day, by-month-day rule part is given, the
    missing parts are taken from [dtstart]. *)
Definition parseOptions (o : Options) : option Options :=
  match freq o with
  | None => None
  | Some f =>
    let n0 := epochDay (dtstart o) in
    let '(_, m0, d0) := civilFromDays n0 in
    if notEmpty (bymonthday o) || isPresent (byweekday o) then Some o
    else Some
      match f with
      | YEARLY =>
        mkOptions (freq o) (dtstart o) (interval o) (count o) (until o) (byweekday o)
                  (Some [d0])
                  (match bymonth o with None => Some [m0] | Some l => Some l end)
      | MONTHLY =>
        mkOptions (freq o) (dtstart o) (interval o) (count o) (until o) (byweekday o)
                  (Some [d0]) (bymonth o)
      | WEEKLY =>
        mkOptions (freq o) (dtstart o) (interval o) (count o) (until o)
                  (Some [weekdayOf n0]) (bymonthday o) (bymonth o)
      | DAILY => o
      end
  end.

(** *** The executable model *)

(** A by-part filters only when it lists something. *)
Definition allows (l : option (list Z)) (x : Z) : bool :=
  match l with
  | Some (a :: r) => existsb (Z.eqb x) (a :: r)
  | _ => true
  end.

Definition weekIndex (n : Z) : Z := (n + 3) / 7.

(** Is day [n] in a period the interval selects, counting from the period
    of [n0]? *)
Definition onPeriod (f : Frequency) (iv n0 n : Z) : bool :=
  let '(y, m, _) := civilFromDays n in
  let '(y0, m0, _) := civilFromDays n0 in
  match f with
  | DAILY => (n - n0) mod iv =? 0
  | WEEKLY => (weekIndex n - weekIndex n0) mod iv =? 0
  | MONTHLY => ((y * 12 + m) - (y0 * 12 + m0)) mod iv =? 0
  | YEARLY => (y - y0) mod iv =? 0
  end.

Definition intervalOf (o : Options) : Z :=
  match interval o with Some i => i | None => 1 end.

Definition matches (o : Options) (f : Frequency) (n : Z) : bool :=
  let '(_, m, d) := civilFromDays n in
  onPeriod f (intervalOf o) (epochDay (dtstart o)) n
  && allows (bymonth o) m
  && allows (bymonthday o) d
  && allows (byweekday o) (weekdayOf n).

(** The last day rrule visits: 9999-12-31. *)
Definition maxDay : Z := 2932896.

Inductive Visit : Type := Stop | Skip | Yield (t : Z).

(** One day of the iteration: [left] is what remains of COUNT. *)
Definition visit (o : Options) (f : Frequency) (n : Z) (left : option Z) : Visit :=
  if match left with Some k => k <=? 0 | None => false end then Stop
  else
    let t := n * msPerDay + msOfDay (dtstart o) in
    if match until o with Some u => u <? t | None => false end then Stop
    else if maxDay <? n then Stop
    else if matches o f n then Yield t else Skip.

Definition spend (left : option Z) : option Z :=
  match left with Some k => Some (k - 1) | None => None end.

(** The occurrences on the [fuel] days from day [n] on. *)
Fixpoint scan (o : Options) (f : Frequency) (fuel : nat) (n : Z) (left : option Z)
  : list Z :=
  match fuel with
  | O => []
  | S fuel' =>
    match visit o f n left with
    | Stop => []
    | Skip => scan o f fuel' (n + 1) left
    | Yield t => t :: scan o f fuel' (n + 1) (spend left)
    end
  end.

Definition modelBetween (o : Options) (f : Frequency) (a b : Z) : list Z :=
  let n0 := epochDay (dtstart o) in
  List.filter (fun t => (a <? t) && (t <? b))
         (scan o f (Z.to_nat (epochDay b - n0 + 1)) n0 (count o)).

Inductive Search : Type := Continue (n : Z) (left : option Z) | Done (r : option Z).

Definition searchStep (o : Options) (f : Frequency) (a : Z) (n : Z) (left : option Z)
  : Search :=
  match visit o f n left with
  | Stop => Done None
  | Skip => Continue (n + 1) left
  | Yield t => if a <=? t then Done (Some t) else Continue (n + 1) (spend left)
  end.

(** Up to 2^k steps of the search, stopping at the first answer. *)
Fixpoint searchPow (k : nat) (step : Z -> option Z -> Search) (n : Z) (left : option Z)
  : Search :=
  match k with
  | O => step n left
  | S k' =>
    match searchPow k' step n left with
    | Continue n' left' => searchPow k' step n' left'
    | Done r => Done r
    end
  end.

Definition modelAfter (o : Options) (f : Frequency) (a : Z) : option Z :=
  match searchPow 23 (searchStep o f a) (epochDay (dtstart o)) (count o) with
  | Done r => r
  | Continue _ _ => None
  end.

Definition model : Iterator := fun o =>
  match freq o with
  | Some f => mkSet (modelAfter o f) (modelBetween o f)
  | None => mkSet (fun _ => None) (fun _ _ => [])
  end.

End RRule.

(** ** services/calendarService.js *)

Module Calendar.
Import JSDate Luxon RRule.

(** *** Effects: console output, exceptions, a loop or a request that
    may not end *)

Inductive Error : Type :=
| InvalidFrequency            (* rrule: "Invalid frequency" *)
| RequestFailed (url : string) (* axios.get rejected *)
| DecodeFailed.               (* ical.parseICS threw *)

Inductive LogLine : Type :=
| WarnMissingFreq (summary : option string)
| LogCacheMiss (url : string)
| WarnCacheWrite (url : string)
| LogProcessing (url : string).

Inductive Outcome (A : Type) : Type :=
| Returned (a : A)
| Thrown (e : Error)
| Diverged.
Arguments Returned {A} a.
Arguments Thrown {A} e.
Arguments Diverged {A}.

(** A computation: what it printed and how it ended. *)
Definition M (A : Type) : Type := list LogLine * Outcome A.

Definition ret {A} (a : A) : M A := ([], Returned a).
Definition throw {A} (e : Error) : M A := ([], Thrown e).
Definition warn (l : LogLine) : M unit := ([l], Returned tt).
Definition bind {A B} (m : M A) (k : A -> M B) : M B :=
  match m with
  | (l, Returned a) => let '(l', r) := k a in (l ++ l', r)
  | (l, Thrown e) => (l, Thrown e)
  | (l, Diverged) => (l, Diverged)
  end.

Declare Scope calendar_scope.
Delimit Scope calendar_scope with cal.
Notation "'let!' x ':=' m 'in' k" := (bind m (fun x => k))
  (at level 10, x name, m at level 100, k at level 200) : calendar_scope.
Notation "'run!' m 'in' k" := (bind m (fun _ => k))
  (at level 10, m at level 100, k at level 200) : calendar_scope.
Local Open Scope calendar_scope.

(** *** JavaScript values *)

(** A string-valued property: [None] is [undefined]. *)
Definition truthy (s : option string) : bool :=
  match s with
  | Some EmptyString => false
  | Some _ => true
  | None => false
  end.

(** [a || b]. *)
Definition js_or (a b : option string) : option string :=
  if truthy a then a else b.

(** A key of an object literal: left out, or present with a value. *)
Inductive Field (A : Type) : Type := Absent | Present (v : A).
Arguments Absent {A}.
Arguments Present {A} v.

(** *** The decoder's records (node-ical) *)

Inductive DateType : Type := date | dateTime.

(** A VEVENT with a RECURRENCE-ID, filed under its base event. *)
Module Recurrence.
Record t : Type := mk {
  recurrenceid : Z;
  start : Z;
  end_ : Z;
  summary : option string;
  description : option string;
  location : option string }.
End Recurrence.

(** The pieces of [rule.toString().replace('RRULE:', '').split(';')] by
    key, with [RRule[value]], [parseInt] and [fromISO] already applied. *)
Inductive RulePart : Type :=
| PFREQ (v : option Frequency)
| PCOUNT (v : Z)
| PUNTIL (v : Z)
| PINTERVAL (v : Z)
| POther.

(** [item.rrule]: its [options] object, and the [RRULE:] line of its
    [toString()] when there is one (the [dtstart] of the line is unused,
    the code supplies its own). *)
Record RRuleObj : Type := mkRule {
  options : Options;
  ruleLine : option Options;
  parts : list RulePart }.

Module Item.
Record t : Type := mk {
  summary : option string;
  description : option string;
  location : option string;
  start : Z;
  end_ : Z;
  datetype : DateType;
  rrule : option RRuleObj;
  exdate : list Z;
  recurrences : list Recurrence.t }.
End Item.

Inductive Component : Type :=
| VEVENT (item : Item.t)
| OtherComponent.

(** *** The occurrences handed to the client *)

Module Event.
Record t : Type := mk {
  title : option string;
  description : Field (option string);
  location : Field (option string);
  start : Z;
  end_ : Z;
  allDay : Field bool;
  calendarUrl : string }.
End Event.

Definition adjustEndForAllDayEvents (item : Item.t) : Z :=
  match Item.datetype item with
  | date => Item.end_ item - 1
  | dateTime => Item.end_ item
  end.

(** [rrulestr(text)]: a line without FREQ gets rrule's default, YEARLY. *)
Definition rrulestr `{Iterator} (o : Options) : RRuleSet :=
  let o' := mkOptions (Some (match freq o with Some f => f | None => YEARLY end))
                      (dtstart o) (interval o) (count o) (until o)
                      (byweekday o) (bymonthday o) (bymonth o) in
  match parseOptions o' with
  | Some p => iterate p
  | None => iterate o'
  end.

(** [new RRule(options)]. *)
Definition newRRule `{Iterator} (o : Options) : M RRuleSet :=
  match parseOptions o with
  | Some p => ret (iterate p)
  | None => throw InvalidFrequency
  end.

Section ParseIcsData.
Context {iterator : Iterator}.
Variable timezone : Zone.
(** The zone of the process and [Settings.now()]. *)
Variable hostZone : Zone.
Variable now : Z.
Variables startRange endRange : Z.
Variable url : string.

(** **** Recurring timed events (lines 77-198) *)

(** Steps 1-6: the rule re-anchored at the UTC start, BYDAY replaced by
    the UTC weekday of the start. *)
Definition utcRuleSet (item : Item.t) (r : RRuleObj) : RRuleSet :=
  let correctUtcStart := Item.start item in
  match ruleLine r with
  | Some line =>
    let rruleDay := utcWeekday correctUtcStart - 1 in
    rrulestr (mkOptions (freq line) correctUtcStart (interval line) (count line)
                        (until line)
                        (match byweekday line with
                         | Some _ => Some [rruleDay]
                         | None => None
                         end)
                        (bymonthday line) (bymonth line))
  | None =>
    let o := options r in
    iterate (mkOptions (freq o) correctUtcStart (interval o) (count o) (until o)
                       (byweekday o) (bymonthday o) (bymonth o))
  end.

Definition exdateDatesSet (item : Item.t) : gset (Z * Z * Z) :=
  list_to_set (map (fun ex => toISODate timezone (fromJSDate ex)) (Item.exdate item)).

Definition modifiedRecurrenceIds (item : Item.t) : gset Z :=
  list_to_set (map Recurrence.recurrenceid (Item.recurrences item)).

Definition overrideEvent (item : Item.t) (recurrence : Recurrence.t) : Event.t :=
  Event.mk (js_or (Recurrence.summary recurrence) (Item.summary item))
           (Present (js_or (Recurrence.description recurrence) (Item.description item)))
           (Present (js_or (Recurrence.location recurrence) (Item.location item)))
           (Recurrence.start recurrence)
           (Recurrence.end_ recurrence)
           Absent
           url.

Definition overrideEvents (item : Item.t) : list Event.t :=
  flat_map (fun recurrence =>
              if (startRange <=? Recurrence.start recurrence)
                 && (Recurrence.start recurrence <=? endRange)
              then [overrideEvent item recurrence] else [])
           (Item.recurrences item).

(** The rule's date, with the clock of the original start. *)
Definition correctedStart (item : Item.t) (d : Z) : Z :=
  let originalWallTime := toObject timezone (fromJSDate (Item.start item)) in
  setHMS timezone (fromJSDate d)
         (hour originalWallTime) (minute originalWallTime) (second originalWallTime).

Definition baseEvent (item : Item.t) (d : Z) : Event.t :=
  let duration := adjustEndForAllDayEvents item - Item.start item in
  let cs := correctedStart item d in
  Event.mk (Item.summary item) Absent Absent
           (toJSDate cs) (toJSDate (plusMillis timezone cs duration))
           (Present false) url.

Definition baseEvents (item : Item.t) (dates : list Z) : list Event.t :=
  flat_map (fun d =>
              if decide (d ∈ modifiedRecurrenceIds item) then []
              else if decide (toISODate timezone (correctedStart item d)
                              ∈ exdateDatesSet item) then []
              else [baseEvent item d])
           dates.

Definition timedRecurring (item : Item.t) (r : RRuleObj) : list Event.t :=
  let rruleSet := utcRuleSet item r in
  let pushed := overrideEvents item in
  match after rruleSet startRange with
  | None => pushed
  | Some nextOccurrence =>
    if endRange <? nextOccurrence then pushed
    else pushed ++ baseEvents item (between rruleSet startRange endRange)
  end.

(** **** Recurring all-day events (lines 199-306) *)

(** [!parsedRule.freq] holds for a missing frequency and for YEARLY. *)
Definition falsyFreq (f : option Frequency) : bool :=
  match f with
  | None | Some YEARLY => true
  | Some _ => false
  end.

Definition recoverPart (p : Options) (part : RulePart) : Options :=
  match part with
  | PFREQ v =>
    mkOptions v (dtstart p) (interval p) (count p) (until p)
              (byweekday p) (bymonthday p) (bymonth p)
  | PCOUNT v =>
    mkOptions (freq p) (dtstart p) (interval p) (Some v) (until p)
              (byweekday p) (bymonthday p) (bymonth p)
  | PUNTIL v =>
    mkOptions (freq p) (dtstart p) (interval p) (count p) (Some v)
              (byweekday p) (bymonthday p) (bymonth p)
  | PINTERVAL v =>
    mkOptions (freq p) (dtstart p) (Some v) (count p) (until p)
              (byweekday p) (bymonthday p) (bymonth p)
  | POther => p
  end.

Definition parsedRule (r : RRuleObj) : Options :=
  if falsyFreq (freq (options r))
  then fold_left recoverPart (parts r) (options r)
  else options r.

(** [x && { key: x }] keeps a number only when it is not 0. *)
Definition truthyNumber (x : option Z) : option Z :=
  match x with
  | Some v => if v =? 0 then None else Some v
  | None => None
  end.

Definition ruleOptions (item : Item.t) (r : RRuleObj) : Options :=
  let p := parsedRule r in
  mkOptions (freq p) (Item.start item) (truthyNumber (interval p))
            (truthyNumber (count p)) (until p)
            (byweekday p) (bymonthday p) (bymonth p).

(** The fix for a yearly rule without a month (lines 233-239). *)
Definition normalize (item : Item.t) (o : Options) : Options :=
  match freq o, bymonth o with
  | Some YEARLY, None =>
    mkOptions (freq o) (dtstart o) (interval o) (count o) (until o)
              (byweekday o) (bymonthday o)
              (Some [getMonth hostZone (Item.start item) + 1])
  | _, _ => o
  end.

Definition allDayEvent (item : Item.t) (localOccurrence : Z) : Event.t :=
  let duration := Item.end_ item - Item.start item in
  Event.mk (Item.summary item) Absent Absent
           (toJSDate localOccurrence) (localOccurrence + duration)
           (Present true) url.

(** Local midnight of the UTC calendar date of an iterator date. *)
Definition localOccurrence (d : Z) : Z :=
  let utcOccurrence := toObject utc (fromJSDate d) in
  fromObject timezone now (year utcOccurrence) (month utcOccurrence) (day utcOccurrence).

Definition allDayEvents (item : Item.t) (dates : list Z) : list Event.t :=
  flat_map (fun d =>
              let l := localOccurrence d in
              if (toJSDate l <? startRange) || (endRange <? toJSDate l) then []
              else if decide (toISODate timezone l ∈ exdateDatesSet item) then []
              else [allDayEvent item l])
           dates.

Definition allDayRecurring (item : Item.t) (r : RRuleObj) : M (list Event.t) :=
  let o := normalize item (ruleOptions item r) in
  run! (if isPresent (freq o) then ret tt
        else warn (WarnMissingFreq (Item.summary item))) in
  let! rule := newRRule o in
  match after rule startRange with
  | None => ret []
  | Some nextOccurrence =>
    if endRange <? nextOccurrence then ret []
    else
      let expandedStart := startRange - 24 * 60 * 60 * 1000 in
      let expandedEnd := endRange + 24 * 60 * 60 * 1000 in
      ret (allDayEvents item (between rule expandedStart expandedEnd))
  end.

(** **** Non-recurring events (lines 307-344) *)

Definition dayEvent (item : Item.t) (currentDay : Z) : Event.t :=
  Event.mk (Item.summary item) Absent Absent
           (toJSDate currentDay) (toJSDate (endOfDay timezone currentDay))
           (Present true) url.

(** The [while] loop over the days of the span; [None] when [fuel]
    iterations do not reach its end. *)
Fixpoint splitDays (fuel : nat) (item : Item.t) (currentDay lastDay : Z)
  : option (list Event.t) :=
  if currentDay <=? lastDay then
    match fuel with
    | O => None
    | S fuel' =>
      match splitDays fuel' item (plusDays timezone currentDay 1) lastDay with
      | Some rest =>
        Some ((if (startRange <=? toJSDate currentDay) && (toJSDate currentDay <=? endRange)
               then [dayEvent item currentDay] else []) ++ rest)
      | None => None
      end
    end
  else Some [].

Definition timedEvent (item : Item.t) : Event.t :=
  Event.mk (Item.summary item)
           (Present (Item.description item)) (Present (Item.location item))
           (Item.start item) (adjustEndForAllDayEvents item)
           (Present false) url.

Definition nonRecurring (fuel : nat) (item : Item.t) : M (list Event.t) :=
  let itemStart := Item.start item in
  let adjustedEnd := adjustEndForAllDayEvents item in
  let isAllDay := match Item.datetype item with date => true | dateTime => false end in
  if isAllDay && (itemStart <? adjustedEnd) then
    let currentDay := startOfDay timezone (fromJSDate itemStart) in
    let lastDay := startOfDay timezone (fromJSDate adjustedEnd) in
    match splitDays fuel item currentDay lastDay with
    | Some evs => ret evs
    | None => ([], Diverged)
    end
  else if (itemStart <? endRange) && (startRange <? adjustedEnd) then
    ret [timedEvent item]
  else ret [].

(** **** The loop over the decoded components *)

Definition processItem (fuel : nat) (item : Item.t) : M (list Event.t) :=
  match Item.rrule item, Item.datetype item with
  | Some r, dateTime => ret (timedRecurring item r)
  | Some r, date => allDayRecurring item r
  | None, _ => nonRecurring fuel item
  end.

Fixpoint parseComponents (fuel : nat) (parsedData : list Component)
  : M (list Event.t) :=
  match parsedData with
  | [] => ret []
  | VEVENT item :: rest =>
    let! evs := processItem fuel item in
    let! more := parseComponents fuel rest in
    ret (evs ++ more)
  | OtherComponent :: rest => parseComponents fuel rest
  end.

(** [ical.parseICS], the decoder, is a collaborator. *)
Variable parseICS : string -> Outcome (list Component).

Definition parseIcsData (fuel : nat) (icsData : string) : M (list Event.t) :=
  let! parsedData := ([], parseICS icsData) in
  parseComponents fuel parsedData.
End ParseIcsData.

(** *** Fetching and aggregation (lines 14-40, 350-367) *)

Definition CACHE_TTL_MS : Z := 1000 * 60 * 20.

(** The cache directory: per feed, the file's modification time and text.
    Files are named by a hash of the URL; the URL itself stands for it. *)
(** What becomes of [axios.get(url)]: the promise resolves with the text,
    rejects, or never settles (the request is made without a timeout). *)
Inductive Reply : Type :=
| Resolved (data : string)
| Rejected
| Pending.

Record World : Type := mkWorld {
  clock : Z;                             (* Date.now() *)
  network : string -> Reply;             (* axios.get *)
  diskWritable : bool }.

(** The request after a cache miss, and the attempt to store the answer. *)
Definition fetchFresh (w : World) (url : string) (cache : gmap string (Z * string))
  : M string * gmap string (Z * string) :=
  match network w url with
  | Rejected => (([LogCacheMiss url], Thrown (RequestFailed url)), cache)
  | Pending => (([LogCacheMiss url], Diverged), cache)
  | Resolved data =>
    if diskWritable w
    then (([LogCacheMiss url], Returned data), <[url := (clock w, data)]> cache)
    else (([LogCacheMiss url; WarnCacheWrite url], Returned data), cache)
  end.

Definition getCachedData (w : World) (url : string) (cache : gmap string (Z * string))
  : M string * gmap string (Z * string) :=
  match cache !! url with
  | Some (mtimeMs, data) =>
    if clock w - mtimeMs <? CACHE_TTL_MS then (ret data, cache)
    else fetchFresh w url cache
  | None => fetchFresh w url cache
  end.

Section Aggregation.
Context {iterator : Iterator}.
Variable w : World.
Variable hostZone : Zone.
Variable parseICS : string -> Outcome (list Component).
Variable fuel : nat.

Section Feeds.
Variable timezone : Zone.
Variables startRange endRange : Z.

(** The [for (const url of urls)] loop, threading the cache directory. *)
Fixpoint getCalendarEventsFromUrls (urls : list string) (cache : gmap string (Z * string))
  : M (list Event.t) * gmap string (Z * string) :=
  match urls with
  | [] => (ret [], cache)
  | url :: rest =>
    let '(fetched, cache1) := getCachedData w url cache in
    match bind (warn (LogProcessing url)) (fun _ => fetched) with
    | (l1, Returned icsData) =>
      match parseIcsData timezone hostZone (clock w) startRange endRange url
                         parseICS fuel icsData with
      | (l2, Returned eventsFromUrl) =>
        let '((l3, r), cache2) := getCalendarEventsFromUrls rest cache1 in
        ((l1 ++ l2 ++ l3,
          match r with
          | Returned more => Returned (eventsFromUrl ++ more)
          | Thrown e => Thrown e
          | Diverged => Diverged
          end), cache2)
      | (l2, Thrown e) => ((l1 ++ l2, Thrown e), cache1)
      | (l2, Diverged) => ((l1 ++ l2, Diverged), cache1)
      end
    | (l1, Thrown e) => ((l1, Thrown e), cache1)
    | (l1, Diverged) => ((l1, Diverged), cache1)
    end
  end.
End Feeds.

(** **** server.js, POST /api/calendars/events (lines 67-93) *)

Record RequestBody : Type := mkBody {
  calendarUrls : option (list string);   (* [None]: not an array *)
  timezoneName : option string;
  daysPast : option Z;
  daysFuture : option Z }.

Inductive Response : Type :=
| Json (events : list Event.t)
| Status400
| Status500
| NoResponse.

(** [n || dflt] on a number. *)
Definition orDefault (n : option Z) (dflt : Z) : Z :=
  match n with
  | Some v => if v =? 0 then dflt else v
  | None => dflt
  end.

(** luxon's zone database. *)
Variable zones : string -> Zone.

Definition eventsEndpoint (body : RequestBody) (cache : gmap string (Z * string))
  : Response * gmap string (Z * string) :=
  match calendarUrls body with
  | None => (Status400, cache)
  | Some urls =>
    if truthy (timezoneName body) then
      let tz := zones (match timezoneName body with Some n => n | None => EmptyString end) in
      let clientNow := clock w in
      let startDate := startOfDay tz (plusDays tz clientNow (- orDefault (daysPast body) 90)) in
      let endDate := endOfDay tz (plusDays tz clientNow (orDefault (daysFuture body) 180)) in
      match getCalendarEventsFromUrls tz (toJSDate startDate) (toJSDate endDate) urls cache with
      | ((_, Returned events), cache') => (Json events, cache')
      | ((_, Thrown _), cache') => (Status500, cache')
      | ((_, Diverged), cache') => (NoResponse, cache')
      end
    else (Status400, cache)
  end.
End Aggregation.

End Calendar.

(** ** Concrete zones *)

Module Zones.
Import JSDate Luxon.

Definition sundayOnOrAfter (n : Z) : Z := n + (7 - isoWeekday n) mod 7.

Definition dstStart (y : Z) : Z :=
  (sundayOnOrAfter (daysFromCivil y 3 1) + 7) * msPerDay + 7 * 3600000.

Definition dstEnd (y : Z) : Z :=
  sundayOnOrAfter (daysFromCivil y 11 1) * msPerDay + 6 * 3600000.

(** America/New_York, the United States rule in force since 2007 applied
    to every year: daylight time (UTC-4) from the second Sunday of March,
    07:00 UTC, to the first Sunday of November, 06:00 UTC; standard time
    (UTC-5) otherwise. *)
Definition newYork : Zone := fun t =>
  let '(y, _, _) := civilFromDays (epochDay t) in
  if (dstStart y <=? t) && (t <? dstEnd y) then -240 else -300.

(** A zone whose daylight time starts at local midnight: America/Havana,
    Cuba's rule in force since 2013 applied to every year.  Daylight time
    (UTC-4) from the second Sunday of March, 00:00 standard time, to the
    first Sunday of November, 01:00 daylight time: both at 05:00 UTC. *)
Definition havana : Zone := fun t =>
  let '(y, _, _) := civilFromDays (epochDay t) in
  if ((sundayOnOrAfter (daysFromCivil y 3 1) + 7) * msPerDay + 5 * 3600000 <=? t)
     && (t <? sundayOnOrAfter (daysFromCivil y 11 1) * msPerDay + 5 * 3600000)
  then -240 else -300.

End Zones.

(** ** JavaScript strings

    The strings the code changes the case of are ASCII (printer states,
    weather descriptions): [toUpperCase] and [toLowerCase] act on the
    letters a-z and A-Z. *)

Module JSString.

Definition lowerChar (c : ascii) : ascii :=
  let n := nat_of_ascii c in
  if ((65 <=? n) && (n <=? 90))%nat then ascii_of_nat (n + 32) else c.

Definition upperChar (c : ascii) : ascii :=
  let n := nat_of_ascii c in
  if ((97 <=? n) && (n <=? 122))%nat then ascii_of_nat (n - 32) else c.

Fixpoint toLowerCase (s : string) : string :=
  match s with
  | EmptyString => EmptyString
  | String c r => String (lowerChar c) (toLowerCase r)
  end.

Fixpoint toUpperCase (s : string) : string :=
  match s with
  | EmptyString => EmptyString
  | String c r => String (upperChar c) (toUpperCase r)
  end.

(** [str.split(' ')]. *)
Fixpoint split (s : string) : list string :=
  match s with
  | EmptyString => [EmptyString]
  | String c r =>
    if Ascii.eqb c " "%char then EmptyString :: split r
    else
      match split r with
      | word :: words => String c word :: words
      | [] => [String c EmptyString]
      end
  end.

(** [words.join(' ')]. *)
Fixpoint join (words : list string) : string :=
  match words with
  | [] => EmptyString
  | [word] => word
  | word :: rest => (word ++ String " "%char (join rest))%string
  end.

End JSString.

(** ** services/weatherService.js *)

Module Weather.
Import Calendar.

Definition CACHE_LIFETIME_HOURS : Z := 6.

(** The two errors the service throws: "Weather API key is missing." and
    "Failed to fetch weather data from external API." *)
Inductive Error : Type := ApiKeyMissing | FetchFailed.

Definition message (e : Error) : string :=
  match e with
  | ApiKeyMissing => "Weather API key is missing."%string
  | FetchFailed => "Failed to fetch weather data from external API."%string
  end.

Inductive LogLine : Type :=
| LogLoadedFromFile | LogFileTooOld | LogNoCacheFile | ErrorReadingFile
| ErrorNoApiKey | LogAttempt | LogRequest | LogFetched | ErrorDetails
| LogServingFromMemory | ErrorFallback | WarnOutdated.

Inductive Result (A : Type) : Type :=
| Ok (a : A)
| Fail (e : Error).
Arguments Ok {A} a.
Arguments Fail {A} e.

Section Service.
(** A forecast, the JSON array [response.data.list]; where the code holds
    a forecast, [None] is [null] or [undefined]. *)
Variable Forecast : Type.
(** The module constant read from the environment. *)
Variable OPENWEATHER_API_KEY : option string.

(** [cache/weatherCache.json] as [initializeWeatherService] reads it. *)
Inductive CacheFile : Type :=
| NoFile                      (* readFile fails with ENOENT *)
| Unreadable                  (* another read error, or not JSON *)
| Stored (forecast : option Forecast) (timestamp : option Z).
                              (* [timestamp = None]: no such number in it *)

(** The module's variables, and the file they are saved to. *)
Record State : Type := mkState {
  cachedWeatherData : option Forecast;
  lastFetchTime : Z;
  cacheFile : CacheFile }.

Record World : Type := mkWorld {
  now : Z;                                (* Date.now() when the call starts *)
  response : option (option Forecast);    (* axios.get: [None] rejects *)
  arrival : Z;                            (* Date.now() once the answer is in *)
  diskWritable : bool }.

Definition lifetimeMs : Z := CACHE_LIFETIME_HOURS * 60 * 60 * 1000.

Definition initializeWeatherService (w : World) (s : State) : list LogLine * State :=
  match cacheFile s with
  | Stored forecast (Some timestamp) =>
    if negb (timestamp =? 0) && (now w - timestamp <? lifetimeMs)
    then ([LogLoadedFromFile], mkState forecast timestamp (cacheFile s))
    else ([LogFileTooOld], s)
  | Stored _ None => ([LogFileTooOld], s)
  | NoFile => ([LogNoCacheFile], mkState None 0 (cacheFile s))
  | Unreadable => ([ErrorReadingFile], mkState None 0 (cacheFile s))
  end.

Definition fetchAndCacheWeather (w : World) (s : State)
  : list LogLine * Result (option Forecast) * State :=
  if negb (truthy OPENWEATHER_API_KEY) then ([ErrorNoApiKey], Fail ApiKeyMissing, s)
  else
    match response w with
    | None => ([LogAttempt; LogRequest; ErrorDetails], Fail FetchFailed, s)
    | Some forecast =>
      let timestamp := arrival w in
      (* the variables are assigned before the file is written *)
      if diskWritable w
      then ([LogAttempt; LogRequest; LogFetched], Ok forecast,
            mkState forecast timestamp (Stored forecast (Some timestamp)))
      else ([LogAttempt; LogRequest; ErrorDetails], Fail FetchFailed,
            mkState forecast timestamp (cacheFile s))
    end.

Definition getCachedOrFreshWeather (w : World) (s : State)
  : list LogLine * Result (option Forecast) * State :=
  let cacheExpired := lifetimeMs <? now w - lastFetchTime s in
  if RRule.isPresent (cachedWeatherData s) && negb cacheExpired
  then ([LogServingFromMemory], Ok (cachedWeatherData s), s)
  else
    match fetchAndCacheWeather w s with
    | (l, Ok forecast, s') => (l, Ok forecast, s')
    | (l, Fail e, s') =>
      if RRule.isPresent (cachedWeatherData s')
      then (l ++ [ErrorFallback; WarnOutdated], Ok (cachedWeatherData s'), s')
      else (l ++ [ErrorFallback], Fail e, s')
    end.

(** **** server.js, GET /api/weather (lines 96-106) *)

Inductive Response : Type :=
| Json (forecast : option Forecast)
| Status500 (message : string).

Definition weatherEndpoint (isProduction : bool) (w : World) (s : State)
  : Response * State :=
  match getCachedOrFreshWeather w s with
  | (_, Ok weatherForecast, s') => (Json weatherForecast, s')
  | (_, Fail e, s') =>
    (Status500 (if isProduction then "Failed to retrieve weather data."%string else message e),
     s')
  end.

End Service.

Arguments NoFile {Forecast}.
Arguments Unreadable {Forecast}.
Arguments Stored {Forecast} forecast timestamp.
Arguments mkState {Forecast} _ _ _.
Arguments cachedWeatherData {Forecast} _.
Arguments lastFetchTime {Forecast} _.
Arguments cacheFile {Forecast} _.
Arguments mkWorld {Forecast} _ _ _ _.
Arguments now {Forecast} _.
Arguments response {Forecast} _.
Arguments arrival {Forecast} _.
Arguments diskWritable {Forecast} _.
Arguments initializeWeatherService {Forecast} w s.
Arguments fetchAndCacheWeather {Forecast} OPENWEATHER_API_KEY w s.
Arguments getCachedOrFreshWeather {Forecast} OPENWEATHER_API_KEY w s.
Arguments Json {Forecast} forecast.
Arguments Status500 {Forecast} message.
Arguments weatherEndpoint {Forecast} OPENWEATHER_API_KEY isProduction w s.

End Weather.

(** ** services/octoPrintService.js *)

Module OctoPrint.
Import Calendar JSString.

Definition CACHE_DURATION_MS : Z := 30000.

(** The status object; [state] and [error] are keys that only some of the
    literals have. *)
Record Status : Type := mkStatus {
  printing : bool;
  progress : Z;
  fileName : option string;
  state : Field string;
  error : Field bool;
  enabled : bool }.

(** What the code reads of [response.data]: [state], [progress.completion]
    and [job.file.name]; [None] is [undefined] or [null], and for the
    number also [NaN]. *)
Record JobData : Type := mkJob {
  jobState : option string;
  completion : option Q;
  jobFileName : option string }.

Record State : Type := mkState {
  cachedStatus : option Status;
  lastFetchTime : Z }.

Record World : Type := mkWorld {
  now : Z;                              (* Date.now() *)
  OCTOPRINT_URL : option string;        (* process.env *)
  OCTOPRINT_API_KEY : option string;
  response : option JobData }.          (* axios.get: [None] rejects *)

Inductive LogLine : Type := WarnNotConfigured | ErrorFetching.

(** [Math.round]: the nearest integer, a half rounding up. *)
Definition mathRound (x : Q) : Z := Qfloor (x + (1 # 2))%Q.

(** [x || 0] on a number. *)
Definition orZero (x : option Q) : Q :=
  match x with
  | Some q => q
  | None => 0%Q
  end.

Definition notConfigured : Status :=
  mkStatus false 0 None Absent Absent false.

Definition unreachable : Status :=
  mkStatus false 0 None Absent (Present true) true.

Definition statusOf (jobData : JobData) : Status :=
  let state :=
    match jobState jobData with
    | Some s => if truthy (Some (toLowerCase s)) then toLowerCase s else EmptyString
    | None => EmptyString
    end in
  let isPrinting := String.eqb state "printing" || String.eqb state "paused" in
  mkStatus isPrinting
           (mathRound (orZero (completion jobData)))
           (if truthy (jobFileName jobData) then jobFileName jobData else None)
           (Present state) Absent true.

Definition getOctoPrintStatus (w : World) (s : State)
  : list LogLine * Status * State :=
  let fresh :=
    match cachedStatus s with
    | Some st => if now w - lastFetchTime s <? CACHE_DURATION_MS then Some st else None
    | None => None
    end in
  match fresh with
  | Some st => ([], st, s)
  | None =>
    if negb (truthy (OCTOPRINT_URL w)) || negb (truthy (OCTOPRINT_API_KEY w))
    then ([WarnNotConfigured], notConfigured, s)
    else
      match response w with
      | Some jobData =>
        let status := statusOf jobData in
        ([], status, mkState (Some status) (now w))
      | None =>
        ([ErrorFetching],
         match cachedStatus s with
         | Some st => st
         | None => unreachable
         end, s)
      end
  end.

End OctoPrint.

(** ** services/garageDoorService.js *)

Module GarageDoor.
Import Calendar.

Inductive ConnectionStatus : Type :=
| disconnected | connected | error | offline | reconnecting.

(** The module's variables; [mqttClient] tells whether a client object
    exists ([false] is [null]). *)
Record State : Type := mkState {
  mqttClient : bool;
  cachedState : option string;
  lastUpdateTime : Z;
  connectionStatus : ConnectionStatus }.

Record Env : Type := mkEnv {
  MQTT_BROKER : option string;
  MQTT_USERNAME : option string;
  MQTT_PASSWORD : option string;
  MQTT_ENABLED : option string }.

Inductive LogLine : Type :=
| WarnNotConfigured | LogAlreadyConnected | LogConnecting
| LogConnected | ErrorSubscribe | LogSubscribed
| LogStateUpdated (state : string)
| ErrorClient | WarnOffline | LogReconnecting | LogDisconnected.

(** What the client reports to the handlers the module registers. *)
Inductive Event : Type :=
| onConnect (subscribed : bool)          (* 'connect', then the subscription's callback *)
| onMessage (message : string) (now : Z) (* 'message', at Date.now() *)
| onError
| onOffline
| onReconnect.

Definition handle (e : Event) (s : State) : list LogLine * State :=
  match e with
  | onConnect subscribed =>
    if subscribed
    then ([LogConnected; LogSubscribed],
          mkState (mqttClient s) (cachedState s) (lastUpdateTime s) connected)
    else ([LogConnected; ErrorSubscribe],
          mkState (mqttClient s) (cachedState s) (lastUpdateTime s) error)
  | onMessage message now =>
    ([LogStateUpdated message],
     mkState (mqttClient s) (Some message) now (connectionStatus s))
  | onError =>
    ([ErrorClient], mkState (mqttClient s) (cachedState s) (lastUpdateTime s) error)
  | onOffline =>
    ([WarnOffline], mkState (mqttClient s) (cachedState s) (lastUpdateTime s) offline)
  | onReconnect =>
    ([LogReconnecting],
     mkState (mqttClient s) (cachedState s) (lastUpdateTime s) reconnecting)
  end.

(** [clientConnected] is the [connected] flag of the client, which the
    library keeps. *)
Definition initializeGarageDoorService (env : Env) (clientConnected : bool) (s : State)
  : list LogLine * State :=
  if negb (truthy (MQTT_BROKER env)) || negb (truthy (MQTT_USERNAME env))
     || negb (truthy (MQTT_PASSWORD env))
  then ([WarnNotConfigured], s)
  else if mqttClient s && clientConnected then ([LogAlreadyConnected], s)
  else ([LogConnecting],
        mkState true (cachedState s) (lastUpdateTime s) (connectionStatus s)).

(** The object [getGarageDoorState] resolves to; [connectionStatus] is a
    key of one of the two literals only. *)
Record Report : Type := mkReport {
  state : option string;
  lastUpdate : option Z;
  isConnected : bool;
  reportedStatus : Field ConnectionStatus;
  enabled : bool }.

Definition getGarageDoorState (env : Env) (clientConnected : bool) (s : State)
  : list LogLine * Report * State :=
  if negb (truthy (MQTT_BROKER env))
     && match MQTT_ENABLED env with
        | Some v => String.eqb v "false"
        | None => false
        end
  then ([], mkReport None None false Absent false, s)
  else
    let '(l, s') :=
      if mqttClient s then ([], s)
      else initializeGarageDoorService env clientConnected s in
    (l,
     mkReport (cachedState s')
              (if lastUpdateTime s' =? 0 then None else Some (lastUpdateTime s'))
              (* a client created by this very call is not connected yet *)
              (mqttClient s && clientConnected)
              (Present (connectionStatus s'))
              true,
     s').

Definition disconnectGarageDoor (s : State) : list LogLine * State :=
  if mqttClient s
  then ([LogDisconnected], mkState false (cachedState s) (lastUpdateTime s) disconnected)
  else ([], s).

End GarageDoor.

(** ** client: src/App.js *)

Module Client.
Import Calendar JSString.

Definition capitalizeWord (word : string) : string :=
  match word with
  | EmptyString => EmptyString
  | String c r => (toUpperCase (String c EmptyString) ++ toLowerCase r)%string
  end.

Definition capitalizeWords (str : option string) : string :=
  match str with
  | Some s => if truthy str then join (map capitalizeWord (split s)) else EmptyString
  | None => EmptyString
  end.

(** [array.sort(compare)]: the sort is stable, and for a comparator that
    orders the elements consistently its result is the one sorted
    arrangement that keeps equal elements in their order. *)
Section Sort.
Context {A : Type}.
Variable compare : A -> A -> Z.

Fixpoint insertSorted (x : A) (l : list A) : list A :=
  match l with
  | [] => [x]
  | y :: r => if compare x y <=? 0 then x :: y :: r else y :: insertSorted x r
  end.

Definition sort (l : list A) : list A := fold_right insertSorted [] l.
End Sort.

(** One entry of [public-config.json]'s [calendars]. *)
Record CalendarConfig : Type := mkCalendar {
  url : string;
  color : option string;
  name : string }.

(** An element of the forecast: [dt] in seconds, [weather[0].description]. *)
Record DayForecast : Type := mkForecast {
  dt : Z;
  description : option string }.

(** What a cell lists: a calendar event with its colour, or the day's
    weather ([isWeather: true]). *)
Inductive Entry : Type :=
| CalendarEntry (event : Event.t) (backgroundColor : string)
| WeatherEntry (title : string) (start end_ : Z) (weatherData : DayForecast).

Definition isWeather (entry : Entry) : bool :=
  match entry with
  | WeatherEntry _ _ _ _ => true
  | CalendarEntry _ _ => false
  end.

Definition entryStart (entry : Entry) : Z :=
  match entry with
  | WeatherEntry _ start _ _ => start
  | CalendarEntry event _ => Event.start event
  end.

(** The comparator of the cell's sort (lines 341-345). *)
Definition cellOrder (a b : Entry) : Z :=
  if isWeather a && negb (isWeather b) then -1
  else if negb (isWeather a) && isWeather b then 1
  else entryStart a - entryStart b.

Section CalendarWeeks.
(** moment, in the browser's zone: [m.startOf('day')], [m.endOf('day')]
    and [m.add(1, 'day')]. *)
Variables startOf endOf addDay : Z -> Z.
Variable appConfig : option (list CalendarConfig).
Variable events : list Event.t.
Variable weatherForecast : list DayForecast.

(** [event.allDay] as a condition. *)
Definition isAllDay (event : Event.t) : bool :=
  match Event.allDay event with
  | Present true => true
  | _ => false
  end.

Definition eventsOnDay (day : Z) : list Event.t :=
  List.filter (fun event =>
            let eventStart := Event.start event in
            let eventEnd := Event.end_ event in
            let dayStart := startOf day in
            let dayEnd := endOf day in
            let endsOnOrAfterDayStart :=
              if isAllDay event then dayStart <? eventEnd else dayStart <=? eventEnd in
            (eventStart <=? dayEnd) && endsOnOrAfterDayStart)
         events.

Definition colorOf (event : Event.t) : string :=
  let calendar :=
    match appConfig with
    | Some calendars =>
      find (fun c => String.eqb (url c) (Event.calendarUrl event)) calendars
    | None => None
    end in
  match calendar with
  | Some c => if truthy (color c) then match color c with Some v => v | None => "#a0a0a0"%string end
              else "#a0a0a0"%string
  | None => "#a0a0a0"%string
  end.

(** [moment.unix(forecast.dt).isSame(day, 'day')]. *)
Definition isSameDay (forecast : DayForecast) (day : Z) : bool :=
  (startOf (dt forecast * 1000) <=? day) && (day <=? endOf (dt forecast * 1000)).

(** The events come from [loadEvents]: none of them has [isWeather]. *)
Definition eventsWithColors (day : Z) : list Entry :=
  map (fun event => CalendarEntry event (colorOf event)) (eventsOnDay day).

Definition weatherForDay (day : Z) : option DayForecast :=
  find (fun forecast => isSameDay forecast day) weatherForecast.

(** The weather of the day is put in front ([unshift]), then the cell is
    sorted. *)
Definition dayCell (day : Z) : list Entry :=
  sort cellOrder
       match weatherForDay day with
       | Some forecast =>
         WeatherEntry (capitalizeWords (description forecast))
                      (startOf day) (endOf day) forecast
         :: eventsWithColors day
       | None => eventsWithColors day
       end.

(** The cells of [n] days from [day] on. *)
Fixpoint cells (n : nat) (day : Z) : list (Z * list Entry) :=
  match n with
  | O => []
  | S n' => (day, dayCell day) :: cells n' (addDay day)
  end.

(** Two weeks of seven days. *)
Definition calendarWeeks (startDate : Z) : list (list (Z * list Entry)) :=
  let all := cells 14 startDate in
  [firstn 7 all; skipn 7 all].

End CalendarWeeks.

(** The indicator of the garage door, set from the server's answer
    (lines 158-171). *)
Definition garageDoorOpen (data : GarageDoor.Report) : bool :=
  match GarageDoor.state data with
  | Some state => String.eqb state "OPEN"
  | None => false
  end.

(** *** utils/eventLoader.js *)

(** An event as [loadEvents] hands it to the grid: the server's data, an
    id and the text of its hours. *)
Record Formatted : Type := mkFormatted {
  originalEvent : Event.t;
  id : string;
  displayTime : option string }.

Inductive HttpResponse : Type :=
| Answer (data : option (list Event.t))
    (* [response.ok]; [None]: the body is not JSON *)
| Refusal (status : nat) (statusText : string) (errorData : option (option string)).
    (* [errorData]: [None] if the body is not JSON, else its [error] key *)

Inductive LoadResult : Type :=
| Loaded (events : list Formatted)
| LoadError (message : string)           (* [new Error(message)] *)
| BodyError.                             (* what [response.json()] threw *)

Section LoadEvents.
(** A [Date] as the server's JSON gives it, and
    [moment(date).format('h:mm A')]. *)
Variables toISOString formatTime : Z -> string.

(** A number in a template literal. *)
Definition decimal (n : nat) : string := NilEmpty.string_of_uint (Nat.to_uint n).

(** A string-valued property in a template literal. *)
Definition shown (s : option string) : string :=
  match s with
  | Some v => v
  | None => "undefined"%string
  end.

(** The server's events carry no [id]: the id is made of start, end,
    title and index. *)
Definition eventId (event : Event.t) (index : nat) : string :=
  ("event-" ++ toISOString (Event.start event) ++ "-" ++ toISOString (Event.end_ event)
   ++ "-" ++ shown (Event.title event) ++ "-" ++ decimal index)%string.

Fixpoint formatFrom (index : nat) (data : list Event.t) : list Formatted :=
  match data with
  | [] => []
  | event :: rest =>
    mkFormatted event (eventId event index)
                (match Event.allDay event with
                 | Present true => None
                 | _ => Some (formatTime (Event.start event) ++ " - "
                              ++ formatTime (Event.end_ event))%string
                 end)
    :: formatFrom (S index) rest
  end.

(** The body of the request. *)
Definition requestBody (userTimezone : string) (calendarUrls : list string) : RequestBody :=
  mkBody (Some calendarUrls) (Some userTimezone) (Some 90) (Some 180).

Definition loadEvents (userTimezone : string) (post : RequestBody -> HttpResponse)
                      (calendarUrls : list string) : LoadResult :=
  match post (requestBody userTimezone calendarUrls) with
  | Refusal status statusText errorData =>
    let errorDetails :=
      ("HTTP " ++ decimal status
       ++ if truthy (Some statusText) then " - " ++ statusText else "")%string in
    let errorDetails :=
      match errorData with
      | Some (Some e) => if truthy (Some e) then e else errorDetails
      | _ => errorDetails
      end in
    LoadError ("Failed to load events: " ++ errorDetails)%string
  | Answer None => BodyError
  | Answer (Some data) => Loaded (formatFrom 0 data)
  end.

End LoadEvents.

End Client.

(** * Inputs used in the scenarios and counterexamples

    The events of the repository's test-suite, as the decoder hands them
    over: instants in UTC, the rule's options as rrule parsed them and the
    [RRULE:] line as written. *)

Module Examples.
Import JSDate Luxon RRule Calendar Zones.

(** A UTC instant. *)
Definition utcTime (y m d h mi : Z) : Z := dateUTC y m d h mi 0 0.

Definition feedUrl : string := "http://fake.url/basic.ics".

Definition noRule (summary : string) (start end_ : Z) (datetype : DateType) : Item.t :=
  Item.mk (Some summary) None None start end_ datetype None [] [].

(** DTSTART;TZID=America/New_York:20241029T203000, one hour long,
    RRULE:FREQ=WEEKLY;BYDAY=TU. *)
Definition weeklyTuesdayLine : Options :=
  mkOptions (Some WEEKLY) 0 None None None (Some [1]) None None.

Definition weeklyTuesday : RRuleObj :=
  mkRule (mkOptions (Some WEEKLY) (utcTime 2024 10 30 0 30) (Some 1) None None
                    (Some [1]) (Some []) None)
         (Some weeklyTuesdayLine) [POther; POther].

Definition recurringDstEvent : Item.t :=
  Item.mk (Some "Recurring DST Event"%string) None None
          (utcTime 2024 10 30 0 30) (utcTime 2024 10 30 1 30)
          dateTime (Some weeklyTuesday) [] [].

(** DTSTART;TZID=America/New_York:20250308T023000, one hour long,
    RRULE:FREQ=DAILY;COUNT=3: the second day has no 02:30. *)
Definition dailyThreeLine : Options :=
  mkOptions (Some DAILY) 0 None (Some 3) None None None None.

Definition dailyThree (dtstart : Z) : RRuleObj :=
  mkRule (mkOptions (Some DAILY) dtstart (Some 1) (Some 3) None None (Some []) None)
         (Some dailyThreeLine) [POther; PCOUNT 3].

Definition springDstEvent : Item.t :=
  Item.mk (Some "Spring DST Event"%string) None None
          (utcTime 2025 3 8 7 30) (utcTime 2025 3 8 8 30)
          dateTime (Some (dailyThree (utcTime 2025 3 8 7 30))) [] [].

(** DTSTART;TZID=America/New_York:20241110T100000, RRULE:FREQ=DAILY;COUNT=3,
    and the occurrence of November 11th moved by a RECURRENCE-ID record. *)
Definition movedOccurrence (newStart newEnd : Z) : Recurrence.t :=
  Recurrence.mk (utcTime 2024 11 11 15 0) newStart newEnd
                (Some "Modified Event"%string) None None.

Definition modifiedEvent (recurrence : Recurrence.t) : Item.t :=
  Item.mk (Some "Original Event"%string) None None
          (utcTime 2024 11 10 15 0) (utcTime 2024 11 10 16 0)
          dateTime (Some (dailyThree (utcTime 2024 11 10 15 0))) [] [recurrence].

(** DTSTART;TZID=America/New_York:20241030T100000, half an hour,
    RRULE:FREQ=DAILY;COUNT=10: a series that crosses the end of daylight
    time on November 3rd, with the occurrence of November 5th
    (RECURRENCE-ID 10:00 standard time, 15:00 UTC) moved to 12:30. *)
Definition dailyTen (dtstart : Z) : RRuleObj :=
  mkRule (mkOptions (Some DAILY) dtstart (Some 1) (Some 10) None None (Some []) None)
         (Some (mkOptions (Some DAILY) 0 None (Some 10) None None None None))
         [POther; PCOUNT 10].

Definition autumnSeries : Item.t :=
  Item.mk (Some "Stand-up"%string) None None
          (utcTime 2024 10 30 14 0) (utcTime 2024 10 30 14 30)
          dateTime (Some (dailyTen (utcTime 2024 10 30 14 0))) []
          [Recurrence.mk (utcTime 2024 11 5 15 0)
                         (utcTime 2024 11 5 17 30) (utcTime 2024 11 5 18 0)
                         (Some "Stand-up (moved)"%string) None None].

(** DTSTART;TZID=America/New_York:20241110T183000 to 20:00,
    RRULE:FREQ=WEEKLY;BYDAY=SU, EXDATE on November 17th, and the
    occurrence of November 10th moved onto November 17th, 19:00. *)
Definition weeklySunday : RRuleObj :=
  mkRule (mkOptions (Some WEEKLY) (utcTime 2024 11 10 23 30) (Some 1) None None
                    (Some [6]) (Some []) None)
         (Some (mkOptions (Some WEEKLY) 0 None None None (Some [6]) None None))
         [POther; POther].

Definition hubEvent : Item.t :=
  Item.mk (Some "Hub 6:30 PM - 8:00 PM"%string) None None
          (utcTime 2024 11 10 23 30) (utcTime 2024 11 11 1 0)
          dateTime (Some weeklySunday)
          [utcTime 2024 11 17 23 30]
          [Recurrence.mk (utcTime 2024 11 10 23 30)
                         (utcTime 2024 11 18 0 0) (utcTime 2024 11 18 2 0)
                         (Some "Hub (Rescheduled)"%string) None None].

(** DTSTART;VALUE=DATE:20241208, RRULE:FREQ=YEARLY;BYMONTHDAY=8, decoded on
    a host in New York: the start is local midnight. *)
Definition yearlyDay8 (dtstart : Z) : RRuleObj :=
  mkRule (mkOptions (Some YEARLY) dtstart (Some 1) None None None (Some [8]) None)
         (Some (mkOptions (Some YEARLY) 0 None None None None (Some [8]) None))
         [POther; POther].

Definition faultyAnnualEvent : Item.t :=
  Item.mk (Some "Faulty Annual Event"%string) None None
          (utcTime 2024 12 8 5 0) (utcTime 2024 12 9 5 0)
          date (Some (yearlyDay8 (utcTime 2024 12 8 5 0))) [] [].

(** The same rule on a timed event, 10:00 to 11:00 New York time. *)
Definition timedAnnualEvent : Item.t :=
  Item.mk (Some "Timed Annual Event"%string) None None
          (utcTime 2024 12 8 15 0) (utcTime 2024 12 8 16 0)
          dateTime (Some (yearlyDay8 (utcTime 2024 12 8 15 0))) [] [].

(** An all-day event whose rule object carries no frequency. *)
Definition noFrequency : RRuleObj :=
  mkRule (mkOptions None (utcTime 2024 11 4 5 0) None None None None None None)
         None [POther].

Definition noFrequencyEvent : Item.t :=
  Item.mk (Some "No frequency"%string) None None
          (utcTime 2024 11 4 5 0) (utcTime 2024 11 5 5 0)
          date (Some noFrequency) [] [].

(** DTSTART;VALUE=DATE:20241104, DTEND;VALUE=DATE:20241107. *)
Definition vacation : Item.t :=
  noRule "Vacation" (utcTime 2024 11 4 5 0) (utcTime 2024 11 7 5 0) date.

(** DTSTART;VALUE=DATE:20250308, DTEND;VALUE=DATE:20250311, decoded on a
    host in New York and shown to a client in Havana, where March 9th,
    2025 has no 00:00. *)
Definition trip : Item.t :=
  noRule "Trip" (utcTime 2025 3 8 5 0) (utcTime 2025 3 11 4 0) date.

(** Two one-hour events, and one that takes no time. *)
Definition lateEvent : Item.t :=
  noRule "Late" (utcTime 2024 11 5 15 0) (utcTime 2024 11 5 16 0) dateTime.

Definition earlyEvent : Item.t :=
  noRule "Early" (utcTime 2024 11 2 15 0) (utcTime 2024 11 2 16 0) dateTime.

Definition instantEvent : Item.t :=
  noRule "Reminder" (utcTime 2024 11 5 15 0) (utcTime 2024 11 5 15 0) dateTime.

(** A window: November 1st to November 10th 2024, New York time. *)
Definition novemberStart : Z := utcTime 2024 11 1 4 0.
Definition novemberEnd : Z := utcTime 2024 11 10 5 0.

(** A decoder and a network with two feeds; the second is unreachable. *)
Definition goodUrl : string := "https://calendar.example/good.ics".
Definition downUrl : string := "https://calendar.example/down.ics".

Definition twoEvents (icsData : string) : Outcome (list Component) :=
  Returned [VEVENT lateEvent; VEVENT earlyEvent].

Definition oneFeedDown : World :=
  mkWorld (utcTime 2024 11 5 12 0)
          (fun url => if String.eqb url goodUrl then Resolved "BEGIN:VCALENDAR"%string
                      else Rejected)
          true.

(** The other events of the test-suite. *)

(** DTSTART;TZID=America/New_York:20241026T100000, one hour. *)
Definition singleEvent : Item.t :=
  noRule "Single Event" (utcTime 2024 10 26 14 0) (utcTime 2024 10 26 15 0) dateTime.

(** DTSTART;VALUE=DATE:20241027, DTEND;VALUE=DATE:20241028. *)
Definition allDayEventOct27 : Item.t :=
  noRule "All Day Event" (utcTime 2024 10 27 4 0) (utcTime 2024 10 28 4 0) date.

(** DTSTART;TZID=America/New_York:20241031T220000 to 02:00 the next day. *)
Definition halloweenParty : Item.t :=
  noRule "Halloween Party" (utcTime 2024 11 1 2 0) (utcTime 2024 11 1 6 0) dateTime.

(** DTSTART;TZID=America/New_York:20241101T090000, RRULE:FREQ=DAILY;COUNT=3,
    EXDATE on November 2nd, 09:00. *)
Definition eventWithException : Item.t :=
  Item.mk (Some "Event with Exception"%string) None None
          (utcTime 2024 11 1 13 0) (utcTime 2024 11 1 14 0)
          dateTime (Some (dailyThree (utcTime 2024 11 1 13 0)))
          [utcTime 2024 11 2 13 0] [].

(** DTSTART;VALUE=DATE:20241208, RRULE:FREQ=YEARLY: rrule filled in the
    month and the day of the start. *)
Definition annualCelebration : Item.t :=
  Item.mk (Some "Annual Celebration"%string) None None
          (utcTime 2024 12 8 5 0) (utcTime 2024 12 9 5 0)
          date
          (Some (mkRule (mkOptions (Some YEARLY) (utcTime 2024 12 8 5 0) (Some 1)
                                   None None None (Some [8]) (Some [12]))
                        (Some (mkOptions (Some YEARLY) 0 None None None None None None))
                        [POther]))
          [] [].

(** DTSTART;VALUE=DATE:20180713, RRULE:FREQ=WEEKLY;COUNT=6;INTERVAL=1. *)
Definition expiredCamp : Item.t :=
  Item.mk (Some "Expired Camp"%string) None None
          (utcTime 2018 7 13 4 0) (utcTime 2018 7 14 4 0)
          date
          (Some (mkRule (mkOptions (Some WEEKLY) (utcTime 2018 7 13 4 0) (Some 1)
                                   (Some 6) None (Some [4]) (Some []) None)
                        (Some (mkOptions (Some WEEKLY) 0 (Some 1) (Some 6) None
                                         None None None))
                        [POther; PCOUNT 6; PINTERVAL 1]))
          [] [].

(** DTSTART;VALUE=DATE:20241104, RRULE:FREQ=WEEKLY;INTERVAL=2;COUNT=3. *)
Definition biweeklyMeeting : Item.t :=
  Item.mk (Some "Bi-weekly Meeting"%string) None None
          (utcTime 2024 11 4 5 0) (utcTime 2024 11 5 5 0)
          date
          (Some (mkRule (mkOptions (Some WEEKLY) (utcTime 2024 11 4 5 0) (Some 2)
                                   (Some 3) None (Some [0]) (Some []) None)
                        (Some (mkOptions (Some WEEKLY) 0 (Some 2) (Some 3) None
                                         None None None))
                        [POther; PINTERVAL 2; PCOUNT 3]))
          [] [].

(** DTSTART;VALUE=DATE:20241125, RRULE:FREQ=WEEKLY;UNTIL=20241210T045959Z. *)
Definition limitedTimeEvent : Item.t :=
  Item.mk (Some "Limited Time Event"%string) None None
          (utcTime 2024 11 25 5 0) (utcTime 2024 11 26 5 0)
          date
          (Some (mkRule (mkOptions (Some WEEKLY) (utcTime 2024 11 25 5 0) (Some 1)
                                   None (Some (dateUTC 2024 12 10 4 59 59 0))
                                   (Some [0]) (Some []) None)
                        (Some (mkOptions (Some WEEKLY) 0 None None
                                         (Some (dateUTC 2024 12 10 4 59 59 0))
                                         None None None))
                        [POther; PUNTIL (dateUTC 2024 12 10 4 59 59 0)]))
          [] [].

(** DTSTART;VALUE=DATE:20250501, RRULE:FREQ=MONTHLY;COUNT=24;BYMONTHDAY=1,
    EXDATE;VALUE=DATE:20251201. *)
Definition monthlyFirst : Item.t :=
  Item.mk (Some "Venmo Floyd $150"%string) None None
          (utcTime 2025 5 1 4 0) (utcTime 2025 5 2 4 0)
          date
          (Some (mkRule (mkOptions (Some MONTHLY) (utcTime 2025 5 1 4 0) (Some 1)
                                   (Some 24) None None (Some [1]) None)
                        (Some (mkOptions (Some MONTHLY) 0 None (Some 24) None
                                         None (Some [1]) None))
                        [POther; PCOUNT 24; POther]))
          [utcTime 2025 12 1 5 0] [].

(** [parseIcsData] on one decoded event, on a host in New York. *)
Definition materialize (startRange endRange : Z) (item : Item.t) : M (list Event.t) :=
  processItem (iterator := RRule.model) Zones.newYork Zones.newYork
              (utcTime 2024 11 5 12 0) startRange endRange feedUrl 8 item.

Definition starts (m : M (list Event.t)) : option (list Z) :=
  match snd m with
  | Returned evs => Some (map Event.start evs)
  | _ => None
  end.

(** An all-day weekly series that ended on December 9th, 2024:
    DTSTART;VALUE=DATE:20241125, RRULE:FREQ=WEEKLY;UNTIL=20241210T045959Z. *)
Definition weeklyUntil : RRuleObj :=
  mkRule (mkOptions (Some WEEKLY) (utcTime 2024 11 25 5 0) (Some 1)
                    None (Some (dateUTC 2024 12 10 4 59 59 0))
                    (Some [0]) (Some []) None)
         (Some (mkOptions (Some WEEKLY) 0 None None
                          (Some (dateUTC 2024 12 10 4 59 59 0))
                          None None None))
         [POther; PUNTIL (dateUTC 2024 12 10 4 59 59 0)].

Definition endedSeries : Item.t :=
  Item.mk (Some "Limited Time Event"%string) None None
          (utcTime 2024 11 25 5 0) (utcTime 2024 11 26 5 0)
          date (Some weeklyUntil) [] [].

End Examples.

(** * Vocabulary of the statements *)

Module Spec.

Section ClockVocabulary.
Import JSDate Luxon.

(** The clock part of a calendar object, in milliseconds. *)
Definition clockMs (h mi s ms : Z) : Z := h * 3600000 + mi * 60000 + s * 1000 + ms.

Definition validClock (h mi s ms : Z) : Prop :=
  0 <= h < 24 /\ 0 <= mi < 60 /\ 0 <= s < 60 /\ 0 <= ms < 1000.

End ClockVocabulary.

Section ZoneVocabulary.
Import JSDate Luxon.
Variable zone : Zone.

(** [t] is an instant at which the zone's clocks read [L]. *)
Definition reads (L t : Z) : Prop := localTS zone t = L.

(** The zone alternates between two offsets (standard and daylight). *)
Definition twoOffsets : Prop :=
  exists a b, forall t, zone t = a \/ zone t = b.

(** [t] is the instant at which local day [n] begins at 00:00. *)
Definition midnight (n t : Z) : Prop := reads (n * msPerDay) t.

(** Two offsets less than a day apart, and every local midnight is shown
    by the clocks exactly once (no transition skips or repeats 00:00). *)
Record regularZone : Prop := {
  rz_two : twoOffsets;
  rz_spread : forall t t', Z.abs (zone t - zone t') < 1440;
  rz_exists : forall n, exists t, midnight n t;
  rz_unique : forall n t t', midnight n t -> midnight n t' -> t = t' }.

Definition localDay (t : Z) : Z := epochDay (localTS zone t).

(** The clocks show the time [r] past midnight on every local day. *)
Definition shownDaily (r : Z) : Prop :=
  forall n, exists t, reads (n * msPerDay + r) t.

(** Days that can be walked one by one: the zone alternates between two
    offsets less than twelve hours apart, and the time at which a skipped
    midnight resumes, one difference of the offsets after 00:00, is shown
    by the clocks on every day. *)
Definition steadyDays : Prop :=
  exists lo hi,
    lo <= hi /\ hi - lo < 720
    /\ (forall t, zone t = lo \/ zone t = hi)
    /\ shownDaily ((hi - lo) * 60 * 1000).

(** [t] reads 00:00, or the time [g] later at which a skipped midnight
    resumes. *)
Definition startsDay (g t : Z) : Prop :=
  exists n, localTS zone t = n * msPerDay \/ localTS zone t = n * msPerDay + g.

(** The instant of local midnight of day [n]. *)
Definition localMidnight (n : Z) : Z :=
  fst (fixOffset (n * msPerDay) (zone (n * msPerDay)) zone).

End ZoneVocabulary.

Section NewYorkVocabulary.
Import JSDate Luxon Zones.

(** Is daylight time in force on UTC day [n] between 04:00 and 06:00 UTC,
    the hours in which New York's midnights fall? *)
Definition dstAtMidnight (n : Z) : bool :=
  let '(y, _, _) := civilFromDays n in
  (sundayOnOrAfter (daysFromCivil y 3 1) + 7 <? n)
  && (n <=? sundayOnOrAfter (daysFromCivil y 11 1)).

End NewYorkVocabulary.

Section AggregationVocabulary.
Import JSDate Luxon RRule Calendar.
Context {iterator : Iterator}.
Variable w : World.
Variable hostZone : Zone.
Variable parseICS : string -> Outcome (list Component).
Variable fuel : nat.
Variable timezone : Zone.
Variables startRange endRange : Z.

(** Every fresh file of the cache directory holds what the network now
    serves for its feed. *)
Definition coherent (cache : gmap string (Z * string)) : Prop :=
  forall url mtimeMs data,
    cache !! url = Some (mtimeMs, data) ->
    clock w - mtimeMs < CACHE_TTL_MS ->
    network w url = Resolved data.

(** What one feed yields on its own: its text, decoded and materialized. *)
Definition feed (url : string) : Outcome (list Event.t) :=
  match network w url with
  | Rejected => Thrown (RequestFailed url)
  | Pending => Diverged
  | Resolved data =>
    snd (parseIcsData timezone hostZone (clock w) startRange endRange url
                      parseICS fuel data)
  end.

Definition feedEvents (url : string) : list Event.t :=
  match feed url with
  | Returned evs => evs
  | _ => []
  end.

(** The feeds one after the other; the first that does not return ends
    the run. *)
Fixpoint inOrder (urls : list string) : Outcome (list Event.t) :=
  match urls with
  | [] => Returned []
  | url :: rest =>
    match feed url with
    | Returned evs =>
      match inOrder rest with
      | Returned more => Returned (evs ++ more)
      | Thrown e => Thrown e
      | Diverged => Diverged
      end
    | Thrown e => Thrown e
    | Diverged => Diverged
    end
  end.

(** Ascending order of start times. *)
Definition sortedByStart (evs : list Event.t) : Prop :=
  forall i j a b, (i < j)%nat -> nth_error evs i = Some a -> nth_error evs j = Some b ->
                  Event.start a <= Event.start b.

End AggregationVocabulary.

Section MaterializerVocabulary.
Import JSDate Luxon RRule Calendar.

(** The gate [!nextOccurrence || nextOccurrence > endRange], negated. *)
Definition seriesInRange (rruleSet : RRuleSet) (startRange endRange : Z) : bool :=
  match after rruleSet startRange with
  | Some nextOccurrence => negb (endRange <? nextOccurrence)
  | None => false
  end.

(** The events of a list that start on local date [D]. *)
Definition onDate (zone : Zone) (D : Z * Z * Z) (evs : list Event.t) : list Event.t :=
  List.filter (fun e => bool_decide (toISODate zone (Event.start e) = D)) evs.

End MaterializerVocabulary.

Section SpanVocabulary.
Import JSDate Luxon RRule Calendar.
Variable timezone : Zone.
Variables startRange endRange : Z.
Variable url : string.

(** The all-day occurrence of local day [k]: from its midnight to the last
    millisecond before the next midnight. *)
Definition dayOccurrence (item : Item.t) (k : Z) : Event.t :=
  Event.mk (Item.summary item) Absent Absent
           (localMidnight timezone k) (localMidnight timezone (k + 1) - 1)
           (Present true) url.

(** Is the midnight of local day [k] within the window, bounds included? *)
Definition midnightInWindow (k : Z) : bool :=
  (startRange <=? localMidnight timezone k) && (localMidnight timezone k <=? endRange).

End SpanVocabulary.

Section LogVocabulary.
Import Calendar.

(** The feeds a log shows as processed, in order. *)
Definition processed (log : list LogLine) : list string :=
  flat_map (fun line => match line with LogProcessing url => [url] | _ => [] end) log.

End LogVocabulary.

Section OrderVocabulary.
Import Calendar.

(** Strictly ascending start times. *)
Definition startsAscending (evs : list Event.t) : Prop :=
  StronglySorted (fun a b => Event.start a < Event.start b) evs.

(** Dates on strictly ascending UTC days. *)
Definition daysAscending (dates : list Z) : Prop :=
  StronglySorted (fun d d' => JSDate.epochDay d < JSDate.epochDay d') dates.

End OrderVocabulary.

Section WindowVocabulary.
Import JSDate Luxon.

(** Resolving a local time to an instant stays on the local date asked
    for: no gap in the zone's clocks reaches midnight. *)
Definition keepsDate (zone : Zone) : Prop :=
  forall L t0, epochDay (localTS zone (fst (fixOffset L (zone t0) zone))) = epochDay L.

End WindowVocabulary.

Section PrinterVocabulary.
Import Calendar.

(** Both settings of the printer are given. *)
Definition configured (w : OctoPrint.World) : bool :=
  truthy (OctoPrint.OCTOPRINT_URL w) && truthy (OctoPrint.OCTOPRINT_API_KEY w).

(** A call in this world that asks the printer gets an answer. *)
Definition answered (w : OctoPrint.World) : bool :=
  configured w && RRule.isPresent (OctoPrint.response w).

(** The module as loaded, and its variables after a series of calls. *)
Definition justLoaded : OctoPrint.State := OctoPrint.mkState None 0.

Fixpoint polled (ws : list OctoPrint.World) (s : OctoPrint.State) : OctoPrint.State :=
  match ws with
  | [] => s
  | w :: rest => polled rest (snd (OctoPrint.getOctoPrintStatus w s))
  end.

End PrinterVocabulary.

Section WeatherVocabulary.
Context {Forecast : Type}.

(** The weather module after a restart of the server: its variables are
    as declared, the cache file is what the last run left. *)
Definition restarted (s : Weather.State Forecast) : Weather.State Forecast :=
  Weather.mkState None 0 (Weather.cacheFile s).

(** No forecast is held, or the one held is older than six hours. *)
Definition stale (w : Weather.World Forecast) (s : Weather.State Forecast) : Prop :=
  Weather.cachedWeatherData s = None
  \/ Weather.lifetimeMs < Weather.now w - Weather.lastFetchTime s.

End WeatherVocabulary.

Section TextVocabulary.

(** A word: a text without a space. *)
Fixpoint noSpace (s : string) : bool :=
  match s with
  | EmptyString => true
  | String c r => negb (Ascii.eqb c " "%char) && noSpace r
  end.

(** A text of ASCII characters. *)
Fixpoint isAscii (s : string) : bool :=
  match s with
  | EmptyString => true
  | String c r => (nat_of_ascii c <? 128)%nat && isAscii r
  end.

End TextVocabulary.

Section DoorVocabulary.
Import GarageDoor.

(** The garage door module as loaded. *)
Definition doorLoaded : GarageDoor.State := mkState false None 0 disconnected.

(** What can happen to the module: the client reports something, or one
    of the module's functions is called. *)
Inductive Action : Type :=
| reports (e : Event)
| initializes (env : Env) (clientConnected : bool)
| asks (env : Env) (clientConnected : bool)
| disconnects.

Definition act (a : Action) (s : GarageDoor.State) : GarageDoor.State :=
  match a with
  | reports e => snd (handle e s)
  | initializes env clientConnected => snd (initializeGarageDoorService env clientConnected s)
  | asks env clientConnected => snd (getGarageDoorState env clientConnected s)
  | disconnects => snd (disconnectGarageDoor s)
  end.

Definition afterActions (actions : list Action) (s : GarageDoor.State) : GarageDoor.State :=
  fold_left (fun s a => act a s) actions s.

(** The text of the last message among the actions, [before] if none. *)
Fixpoint lastMessage (actions : list Action) (before : option string) : option string :=
  match actions with
  | [] => before
  | reports (onMessage message _) :: rest => lastMessage rest (Some message)
  | _ :: rest => lastMessage rest before
  end.

(** No broker is set and MQTT_ENABLED is the text false. *)
Definition doorDisabled (env : Env) : bool :=
  negb (Calendar.truthy (MQTT_BROKER env))
  && match MQTT_ENABLED env with
     | Some v => String.eqb v "false"
     | None => false
     end.

End DoorVocabulary.

Section IdVocabulary.

(** A text without the character "-". *)
Fixpoint dashFree (s : string) : bool :=
  match s with
  | EmptyString => true
  | String c r => negb (Ascii.eqb c "-"%char) && dashFree r
  end.

End IdVocabulary.

Section SearchVocabulary.
Import RRule.

(** At most [fuel] steps of a search, one after the other. *)
Fixpoint searchFor (fuel : nat) (step : Z -> option Z -> Search) (n : Z) (left : option Z)
  : Search :=
  match fuel with
  | O => Continue n left
  | S fuel' =>
    match step n left with
    | Continue n' left' => searchFor fuel' step n' left'
    | Done r => Done r
    end
  end.

End SearchVocabulary.

End Spec.

Import Spec.
(** * Facts about the calendar arithmetic *)

Section CivilFacts.
Import JSDate.

Lemma yearOfEra_range doe : 0 <= doe < 146097 -> 0 <= yearOfEra doe <= 399.
Proof.
  intros H. unfold yearOfEra. Z.to_euclidean_division_equations; lia.
Qed.

Lemma dayOfYear_range doe : 0 <= doe < 146097 -> 0 <= dayOfYear doe <= 365.
Proof.
  intros H. unfold dayOfYear, yearOfEra. Z.to_euclidean_division_equations; lia.
Qed.

(** Day 365 of a March-based year is February 29th of the next calendar
    year, which is then a leap year. *)
Lemma dayOfYear_leap doe :
  0 <= doe < 146097 -> dayOfYear doe = 365 -> isLeapYear (yearOfEra doe + 1) = true.
Proof.
  intros H. unfold isLeapYear, dayOfYear, yearOfEra. intros Hd.
  destruct (Z.eqb_spec (((doe - doe / 1460 + doe / 36524 - doe / 146096) / 365 + 1) mod 4) 0);
  destruct (Z.eqb_spec (((doe - doe / 1460 + doe / 36524 - doe / 146096) / 365 + 1) mod 100) 0);
  destruct (Z.eqb_spec (((doe - doe / 1460 + doe / 36524 - doe / 146096) / 365 + 1) mod 400) 0);
  simpl; try reflexivity; exfalso;
  Z.to_euclidean_division_equations; lia.
Qed.

Lemma monthIndex_range doy : 0 <= doy <= 365 -> 0 <= monthIndex doy <= 11.
Proof. intros H. unfold monthIndex. Z.to_euclidean_division_equations; lia. Qed.

Lemma isLeapYear_era y k : isLeapYear (y + k * 400) = isLeapYear y.
Proof.
  unfold isLeapYear.
  replace ((y + k * 400) mod 4) with (y mod 4)
    by (replace (y + k * 400) with (y + (k * 100) * 4) by lia;
        now rewrite Z.mod_add by lia).
  replace ((y + k * 400) mod 100) with (y mod 100)
    by (replace (y + k * 400) with (y + (k * 4) * 100) by lia;
        now rewrite Z.mod_add by lia).
  now rewrite Z.mod_add by lia.
Qed.

Lemma daysInMonth_calendar y m :
  1 <= m <= 12 ->
  daysInMonth y m =
  if m =? 2 then (if isLeapYear y then 29 else 28)
  else if (m =? 4) || (m =? 6) || (m =? 9) || (m =? 11) then 30 else 31.
Proof.
  intros Hm. unfold daysInMonth.
  assert (Hmm : (m - 1) mod 12 + 1 = m) by (rewrite Z.mod_small; lia).
  rewrite Hmm, Z.sub_diag. change (0 / 12) with 0. now rewrite Z.add_0_r.
Qed.

(** The day of the month stays within the month. *)
Lemma dayOfMonth_range doy y :
  0 <= doy <= 365 -> (doy = 365 -> isLeapYear y = true) ->
  let mp := monthIndex doy in
  let m := if mp <? 10 then mp + 3 else mp - 9 in
  let d := doy - (153 * mp + 2) / 5 + 1 in
  1 <= d <= daysInMonth y m.
Proof.
  intros H Hleap mp m d.
  pose proof (monthIndex_range doy H) as Hmp. fold mp in Hmp.
  assert (Hm : 1 <= m <= 12) by (unfold m; destruct (mp <? 10) eqn:E; lia).
  rewrite (daysInMonth_calendar y m Hm).
  assert (Hcases : mp = 0 \/ mp = 1 \/ mp = 2 \/ mp = 3 \/ mp = 4 \/ mp = 5 \/ mp = 6
                   \/ mp = 7 \/ mp = 8 \/ mp = 9 \/ mp = 10 \/ mp = 11) by lia.
  unfold d, m. clear Hm. unfold monthIndex in mp.
  destruct Hcases as [E|[E|[E|[E|[E|[E|[E|[E|[E|[E|[E|E]]]]]]]]]]];
    rewrite E; simpl; unfold mp in E;
    try (Z.to_euclidean_division_equations; lia).
  destruct (isLeapYear y) eqn:El.
  - Z.to_euclidean_division_equations; lia.
  - assert (doy <> 365) by (intros E'; specialize (Hleap E'); discriminate).
    Z.to_euclidean_division_equations; lia.
Qed.

(** What [civilFromDays] returns is a real date, and [daysFromCivil]
    undoes it. *)
Lemma civilFromDays_spec n :
  let '(y, m, d) := civilFromDays n in
  daysFromCivil y m d = n /\ 1 <= m <= 12 /\ 1 <= d <= daysInMonth y m.
Proof.
  unfold civilFromDays.
  set (z := n + 719468).
  set (era := z / 146097). set (doe := z mod 146097).
  assert (Hdoe : 0 <= doe < 146097) by (apply Z.mod_pos_bound; lia).
  assert (Hz : z = era * 146097 + doe)
    by (unfold era, doe; rewrite (Z.div_mod z 146097) at 1; lia).
  pose proof (yearOfEra_range doe Hdoe) as Hyoe.
  pose proof (dayOfYear_range doe Hdoe) as Hdoy.
  pose proof (monthIndex_range _ Hdoy) as Hmp.
  set (yoe := yearOfEra doe) in *.
  set (mp := monthIndex (dayOfYear doe)) in *.
  set (d := dayOfYear doe - (153 * mp + 2) / 5 + 1) in *.
  set (m := if mp <? 10 then mp + 3 else mp - 9) in *.
  assert (Hm : 1 <= m <= 12) by (unfold m; destruct (mp <? 10) eqn:E; lia).
  assert (Hmm : (m - 1) mod 12 + 1 = m) by (rewrite Z.mod_small; lia).
  assert (Hmd : (m - 1) / 12 = 0) by (apply Z.div_small; lia).
  set (adj := if m <=? 2 then 1 else 0).
  split; [|split; [exact Hm|]].
  - unfold daysFromCivil. rewrite Hmm, Hmd, Z.add_0_r.
    assert (Hy' : (if m <=? 2 then yoe + era * 400 + adj - 1 else yoe + era * 400 + adj)
                  = yoe + era * 400)
      by (unfold adj; destruct (m <=? 2); lia).
    rewrite Hy'.
    assert (He : (yoe + era * 400) / 400 = era)
      by (rewrite Z.div_add by lia; rewrite Z.div_small by lia; lia).
    assert (Hyo : (yoe + era * 400) mod 400 = yoe)
      by (rewrite Z.mod_add by lia; apply Z.mod_small; lia).
    rewrite He, Hyo.
    assert (Hmp' : (if 2 <? m then m - 3 else m + 9) = mp).
    { unfold m. destruct (mp <? 10) eqn:E.
      - destruct (2 <? mp + 3) eqn:E2; lia.
      - destruct (2 <? mp - 9) eqn:E2; lia. }
    rewrite Hmp'. unfold dayOfEra, d, dayOfYear. fold yoe. lia.
  - apply (dayOfMonth_range (dayOfYear doe) (yoe + era * 400 + adj) Hdoy).
    intros E.
    assert (Hmp11 : mp = 11)
      by (unfold mp, monthIndex; rewrite E; reflexivity).
    assert (Hadj : adj = 1)
      by (unfold adj, m; rewrite Hmp11; reflexivity).
    rewrite Hadj.
    replace (yoe + era * 400 + 1) with (yoe + 1 + era * 400) by lia.
    rewrite isLeapYear_era. now apply dayOfYear_leap.
Qed.

Lemma daysFromCivil_day y m d k : daysFromCivil y m (d + k) = daysFromCivil y m d + k.
Proof. unfold daysFromCivil, dayOfEra. lia. Qed.

Lemma epochDay_msOfDay t : t = epochDay t * msPerDay + msOfDay t.
Proof. unfold epochDay, msOfDay, msPerDay. pose proof (Z.div_mod t 86400000). lia. Qed.

Lemma msOfDay_range t : 0 <= msOfDay t < msPerDay.
Proof. unfold msOfDay, msPerDay. apply Z.mod_pos_bound. lia. Qed.

Lemma epochDay_unique n r : 0 <= r < msPerDay -> epochDay (n * msPerDay + r) = n.
Proof.
  unfold epochDay, msPerDay. intros Hr.
  rewrite Z.add_comm, Z.div_add by lia. rewrite Z.div_small by lia. lia.
Qed.

End CivilFacts.

(** * Facts about luxon's date arithmetic *)

Section ClockFacts.
Import JSDate Luxon.
Local Arguments civilFromDays : simpl never.
Local Arguments daysFromCivil : simpl never.

Lemma clockMs_range h mi s ms : validClock h mi s ms -> 0 <= clockMs h mi s ms < msPerDay.
Proof. unfold validClock, clockMs, msPerDay. lia. Qed.

Lemma tsToObj_clock ts o :
  validClock (hour (tsToObj ts o)) (minute (tsToObj ts o))
             (second (tsToObj ts o)) (millisecond (tsToObj ts o))
  /\ clockMs (hour (tsToObj ts o)) (minute (tsToObj ts o))
             (second (tsToObj ts o)) (millisecond (tsToObj ts o))
     = msOfDay (ts + o * 60 * 1000).
Proof.
  unfold tsToObj.
  destruct (civilFromDays (epochDay (ts + o * 60 * 1000))) as [[y m] d]. simpl.
  pose proof (msOfDay_range (ts + o * 60 * 1000)) as Hr.
  set (r := msOfDay (ts + o * 60 * 1000)) in *.
  unfold validClock, clockMs, msPerDay in *.
  Z.to_euclidean_division_equations; lia.
Qed.

Lemma tsToObj_date ts o :
  (year (tsToObj ts o), month (tsToObj ts o), day (tsToObj ts o))
  = civilFromDays (epochDay (ts + o * 60 * 1000)).
Proof.
  unfold tsToObj.
  destruct (civilFromDays (epochDay (ts + o * 60 * 1000))) as [[y m] d]. reflexivity.
Qed.

(** Reading the fields of a local time [n * msPerDay + clock]. *)
Lemma clock_of_local n h mi s ms t o :
  validClock h mi s ms ->
  t + o * 60 * 1000 = n * msPerDay + clockMs h mi s ms ->
  hour (tsToObj t o) = h /\ minute (tsToObj t o) = mi
  /\ second (tsToObj t o) = s /\ millisecond (tsToObj t o) = ms
  /\ (year (tsToObj t o), month (tsToObj t o), day (tsToObj t o)) = civilFromDays n.
Proof.
  intros Hv Hl. unfold tsToObj. rewrite Hl.
  rewrite (epochDay_unique n _ (clockMs_range _ _ _ _ Hv)).
  destruct (civilFromDays n) as [[y m] d]. simpl.
  assert (Hr : msOfDay (n * msPerDay + clockMs h mi s ms) = clockMs h mi s ms).
  { unfold msOfDay. rewrite Z.add_comm, Z.mod_add by (unfold msPerDay; lia).
    apply Z.mod_small. now apply clockMs_range. }
  rewrite Hr. unfold validClock, clockMs in *.
  repeat split; Z.to_euclidean_division_equations; lia.
Qed.

(** Writing a clock onto the date of epoch day [n], as [set] does. *)
Lemma objToLocalTS_clamp c n h mi s ms :
  (year c, month c, day c) = civilFromDays n ->
  objToLocalTS (mkObj (year c) (month c)
                      (Z.min (daysInMonth (year c) (month c)) (day c)) h mi s ms)
  = n * msPerDay + clockMs h mi s ms.
Proof.
  intros Hc. pose proof (civilFromDays_spec n) as H. rewrite <- Hc in H.
  destruct H as (Hn & Hm & Hd).
  unfold objToLocalTS, dateUTC, clockMs. cbn [year month day hour minute second millisecond].
  rewrite Z.min_r by lia. rewrite Hn. lia.
Qed.

(** Moving the date of epoch day [n] by [k] days, as [plus] does. *)
Lemma objToLocalTS_plus c n k :
  (year c, month c, day c) = civilFromDays n ->
  objToLocalTS (mkObj (year c) (month c)
                      (Z.min (day c) (daysInMonth (year c) (month c)) + k)
                      (hour c) (minute c) (second c) (millisecond c))
  = (n + k) * msPerDay + clockMs (hour c) (minute c) (second c) (millisecond c).
Proof.
  intros Hc. pose proof (civilFromDays_spec n) as H. rewrite <- Hc in H.
  destruct H as (Hn & Hm & Hd).
  unfold objToLocalTS, dateUTC, clockMs. cbn [year month day hour minute second millisecond].
  rewrite Z.min_l by lia. rewrite daysFromCivil_day, Hn. lia.
Qed.

Lemma objToLocalTS_tsToObj ts o : objToLocalTS (tsToObj ts o) = ts + o * 60 * 1000.
Proof.
  pose proof (tsToObj_clock ts o) as [_ Hc].
  pose proof (tsToObj_date ts o) as Hd.
  pose proof (civilFromDays_spec (epochDay (ts + o * 60 * 1000))) as Hs.
  rewrite <- Hd in Hs. destruct Hs as (Hn & _).
  unfold objToLocalTS, dateUTC. rewrite Hn.
  unfold clockMs in Hc.
  rewrite (epochDay_msOfDay (ts + o * 60 * 1000)) at 2. lia.
Qed.

End ClockFacts.

Section ZoneFacts.
Import JSDate Luxon.
Local Arguments civilFromDays : simpl never.
Local Arguments daysFromCivil : simpl never.
Variable zone : Zone.
Local Abbreviation reads := (reads zone).
Local Abbreviation twoOffsets := (twoOffsets zone).

Lemma fixOffset_offset L t0 :
  twoOffsets ->
  let '(ts, o) := fixOffset L (zone t0) zone in o = zone ts.
Proof.
  intros (a & b & Hab). unfold fixOffset.
  remember (L - zone t0 * 60 * 1000) as g1 eqn:Hg1.
  destruct (Z.eqb_spec (zone t0) (zone g1)) as [E|E]; [exact E|].
  remember (g1 - (zone g1 - zone t0) * 60 * 1000) as g2 eqn:Hg2.
  destruct (Z.eqb_spec (zone g1) (zone g2)) as [E2|E2]; [exact E2|].
  assert (E3 : zone g2 = zone t0)
    by (destruct (Hab t0), (Hab g1), (Hab g2); congruence).
  destruct (Z.min_spec (zone g1) (zone g2)) as [[Hlt Hmin]|[Hle Hmin]];
    rewrite Hmin.
  - rewrite Z.max_r by lia.
    replace (L - zone g1 * 60 * 1000) with g2 by lia.
    reflexivity.
  - rewrite Z.max_l by lia.
    replace (L - zone g2 * 60 * 1000) with g1 by lia.
    reflexivity.
Qed.

(** When some instant reads [L], [fixOffset] finds one. *)
Lemma fixOffset_reads L t0 :
  twoOffsets -> (exists t, reads L t) ->
  reads L (fst (fixOffset L (zone t0) zone)).
Proof.
  intros (a & b & Hab) (t & Ht). unfold reads, localTS in *. unfold fixOffset.
  remember (L - zone t0 * 60 * 1000) as g1 eqn:Hg1.
  destruct (Z.eqb_spec (zone t0) (zone g1)) as [E|E]; simpl.
  { rewrite <- E. lia. }
  remember (g1 - (zone g1 - zone t0) * 60 * 1000) as g2 eqn:Hg2.
  destruct (Z.eqb_spec (zone g1) (zone g2)) as [E2|E2]; simpl.
  { rewrite <- E2. lia. }
  exfalso.
  assert (Ht' : zone t = zone t0 \/ zone t = zone g1)
    by (destruct (Hab t0), (Hab g1), (Hab t); intuition congruence).
  destruct Ht' as [Ht'|Ht'].
  - assert (t = g1) by lia. subst t. congruence.
  - assert (t = g2) by lia. subst t. congruence.
Qed.

(** When no instant reads [L] (the time lies in a spring-forward gap),
    [fixOffset] pushes it forward by the gap: the instant it finds reads
    [L] plus the difference between the zone's two offsets. *)
Lemma fixOffset_gap L t0 :
  twoOffsets -> (forall t, ~ reads L t) ->
  exists t1 t2,
    zone t1 < zone t2
    /\ reads (L + (zone t2 - zone t1) * 60 * 1000) (fst (fixOffset L (zone t0) zone)).
Proof.
  intros (a & b & Hab) Hnone. unfold reads, localTS in *. unfold fixOffset.
  remember (L - zone t0 * 60 * 1000) as g1 eqn:Hg1.
  destruct (Z.eqb_spec (zone t0) (zone g1)) as [E|E].
  { exfalso. apply (Hnone g1). rewrite <- E. lia. }
  remember (g1 - (zone g1 - zone t0) * 60 * 1000) as g2 eqn:Hg2.
  destruct (Z.eqb_spec (zone g1) (zone g2)) as [E2|E2].
  { exfalso. apply (Hnone g2). rewrite <- E2. lia. }
  assert (E3 : zone g2 = zone t0)
    by (destruct (Hab t0), (Hab g1), (Hab g2); congruence).
  cbn [fst].
  destruct (Z.min_spec (zone g1) (zone g2)) as [[Hlt Hmin]|[Hle Hmin]]; rewrite Hmin.
  - exists g1, g2. split; [exact Hlt|].
    replace (L - zone g1 * 60 * 1000) with g2 by lia. lia.
  - exists g2, g1. split; [lia|].
    replace (L - zone g2 * 60 * 1000) with g1 by lia. lia.
Qed.

(** In a zone with the offsets [lo] and [hi], the instant [fixOffset]
    finds reads the time asked for, or that time pushed forward by the
    difference of the offsets. *)
Lemma fixOffset_two lo hi L t0 :
  lo <= hi -> (forall t, zone t = lo \/ zone t = hi) ->
  localTS zone (fst (fixOffset L (zone t0) zone)) = L
  \/ localTS zone (fst (fixOffset L (zone t0) zone)) = L + (hi - lo) * 60 * 1000.
Proof.
  intros Hle Hab. unfold localTS, fixOffset.
  remember (L - zone t0 * 60 * 1000) as g1 eqn:Hg1.
  destruct (Z.eqb_spec (zone t0) (zone g1)) as [E|E]; cbn [fst].
  { left. rewrite <- E. lia. }
  remember (g1 - (zone g1 - zone t0) * 60 * 1000) as g2 eqn:Hg2.
  destruct (Z.eqb_spec (zone g1) (zone g2)) as [E2|E2]; cbn [fst].
  { left. rewrite <- E2. lia. }
  right.
  assert (E3 : zone g2 = zone t0)
    by (destruct (Hab t0), (Hab g1), (Hab g2); congruence).
  destruct (Z.min_spec (zone g1) (zone g2)) as [[Hlt Hmin]|[Hge Hmin]]; rewrite Hmin.
  - replace (L - zone g1 * 60 * 1000) with g2 by lia.
    destruct (Hab g1), (Hab g2); lia.
  - replace (L - zone g2 * 60 * 1000) with g1 by lia.
    destruct (Hab g1), (Hab g2); lia.
Qed.

(** Adding milliseconds moves the timestamp by that much, whatever the
    zone does in between. *)
Lemma plusMillis_add ts n : plusMillis zone ts n = ts + n.
Proof.
  unfold plusMillis, toObject. rewrite objToLocalTS_tsToObj.
  unfold fixOffset.
  replace (ts + zone ts * 60 * 1000 - zone ts * 60 * 1000) with ts by lia.
  rewrite Z.eqb_refl. simpl. destruct (Z.eqb_spec n 0); lia.
Qed.

Lemma setHMS_eq ts h mi s :
  setHMS zone ts h mi s
  = fst (fixOffset (epochDay (localTS zone ts) * msPerDay
                    + clockMs h mi s (millisecond (toObject zone ts)))
                   (zone ts) zone).
Proof.
  unfold setHMS, objToTS, clampDay, toObject, localTS.
  cbn [year month day hour minute second millisecond].
  now rewrite (objToLocalTS_clamp _ _ h mi s _ (tsToObj_date ts (zone ts))).
Qed.

Lemma startOfDay_eq ts :
  startOfDay zone ts
  = fst (fixOffset (epochDay (localTS zone ts) * msPerDay) (zone ts) zone).
Proof.
  unfold startOfDay, objToTS, clampDay, toObject, localTS.
  cbn [year month day hour minute second millisecond].
  rewrite (objToLocalTS_clamp _ _ 0 0 0 0 (tsToObj_date ts (zone ts))).
  unfold clockMs. now rewrite !Z.add_0_r.
Qed.

Lemma plusDays_eq ts k :
  plusDays zone ts k
  = fst (fixOffset (localTS zone ts + k * msPerDay) (zone ts) zone).
Proof.
  unfold plusDays, toObject, localTS.
  rewrite (objToLocalTS_plus _ _ k (tsToObj_date ts (zone ts))).
  pose proof (tsToObj_clock ts (zone ts)) as [_ Hc]. rewrite Hc.
  rewrite (epochDay_msOfDay (ts + zone ts * 60 * 1000)) at 3.
  f_equal. f_equal. lia.
Qed.

Lemma fromObject_eq now n y m d :
  civilFromDays n = (y, m, d) ->
  fromObject zone now y m d = fst (fixOffset (n * msPerDay) (zone now) zone).
Proof.
  intros Hc. pose proof (civilFromDays_spec n) as H. rewrite Hc in H.
  destruct H as (Hn & _).
  unfold fromObject, objToTS, objToLocalTS, dateUTC.
  cbn [year month day hour minute second millisecond]. rewrite Hn.
  now rewrite !Z.add_0_r.
Qed.

End ZoneFacts.

(** * Zones whose day boundaries are well behaved *)

Section DayBoundaries.
Import JSDate Luxon.
Local Arguments civilFromDays : simpl never.
Variable zone : Zone.
Local Abbreviation midnight := (midnight zone).
Local Abbreviation localDay := (localDay zone).
Local Abbreviation localMidnight := (localMidnight zone).

Hypothesis regular : regularZone zone.

Lemma localMidnight_midnight n : midnight n (localMidnight n).
Proof.
  unfold midnight, localMidnight.
  apply fixOffset_reads; [apply regular | apply (rz_exists zone regular)].
Qed.

Lemma fixOffset_midnight n t0 :
  fst (fixOffset (n * msPerDay) (zone t0) zone) = localMidnight n.
Proof.
  apply (rz_unique zone regular n); [|apply localMidnight_midnight].
  apply fixOffset_reads; [apply regular | apply (rz_exists zone regular)].
Qed.

Lemma localDay_midnight n : localDay (localMidnight n) = n.
Proof.
  unfold localDay. rewrite (localMidnight_midnight n).
  replace (n * msPerDay) with (n * msPerDay + 0) by lia.
  apply epochDay_unique. unfold msPerDay. lia.
Qed.

Lemma startOfDay_midnight ts : startOfDay zone ts = localMidnight (localDay ts).
Proof. rewrite startOfDay_eq. apply fixOffset_midnight. Qed.

Lemma plusDays_midnight n : plusDays zone (localMidnight n) 1 = localMidnight (n + 1).
Proof.
  rewrite plusDays_eq. rewrite (localMidnight_midnight n).
  replace (n * msPerDay + 1 * msPerDay) with ((n + 1) * msPerDay) by lia.
  apply fixOffset_midnight.
Qed.

Lemma endOfDay_midnight n : endOfDay zone (localMidnight n) = localMidnight (n + 1) - 1.
Proof.
  unfold endOfDay. rewrite plusMillis_add, plusDays_midnight, startOfDay_midnight.
  rewrite localDay_midnight. lia.
Qed.

(** Midnights are at least a minute apart, in the order of the days. *)
Lemma localMidnight_mono n n' : n < n' -> localMidnight n + 60000 <= localMidnight n'.
Proof.
  intros Hlt.
  pose proof (localMidnight_midnight n) as H1.
  pose proof (localMidnight_midnight n') as H2.
  unfold midnight, reads, localTS in H1, H2.
  pose proof (rz_spread zone regular (localMidnight n') (localMidnight n)) as Hs.
  unfold msPerDay in *. nia.
Qed.

Lemma localMidnight_leb n n' : (localMidnight n <=? localMidnight n') = (n <=? n').
Proof.
  destruct (Z.leb_spec n n') as [Hle|Hgt].
  - apply Z.leb_le. destruct (Z.eq_dec n n') as [->|Hne]; [lia|].
    pose proof (localMidnight_mono n n'). lia.
  - apply Z.leb_gt. pose proof (localMidnight_mono n' n). lia.
Qed.

Lemma toObject_midnight n :
  toObject zone (localMidnight n)
  = let '(y, m, d) := civilFromDays n in mkObj y m d 0 0 0 0.
Proof.
  pose proof (localMidnight_midnight n) as H. unfold midnight, reads, localTS in H.
  assert (Hv : validClock 0 0 0 0) by (unfold validClock; lia).
  pose proof (clock_of_local n 0 0 0 0 (localMidnight n) (zone (localMidnight n)) Hv) as Hc.
  unfold clockMs in Hc. rewrite !Z.add_0_r in Hc. specialize (Hc H).
  destruct Hc as (Hh & Hmi & Hs & Hms & Hd).
  unfold toObject. destruct (tsToObj _ _) as [y m d h mi s ms].
  cbn [year month day hour minute second millisecond] in *.
  rewrite <- Hd. congruence.
Qed.

Lemma toISODate_midnight n : toISODate zone (localMidnight n) = civilFromDays n.
Proof.
  unfold toISODate. rewrite toObject_midnight.
  now destruct (civilFromDays n) as [[y m] d].
Qed.

Lemma fromObject_midnight now n y m d :
  civilFromDays n = (y, m, d) -> fromObject zone now y m d = localMidnight n.
Proof.
  intros Hc. rewrite (fromObject_eq zone now n y m d Hc). apply fixOffset_midnight.
Qed.

End DayBoundaries.

(** * America/New_York is regular *)

Section NewYork.
Import JSDate Luxon Zones.
Local Arguments civilFromDays : simpl never.
Local Arguments daysFromCivil : simpl never.

Lemma newYork_values t : newYork t = -240 \/ newYork t = -300.
Proof.
  unfold newYork. destruct (civilFromDays (epochDay t)) as [[y m] d].
  destruct (_ && _); auto.
Qed.

Lemma newYork_early_hours n r :
  4 * 3600000 <= r < 6 * 3600000 ->
  newYork (n * msPerDay + r) = if dstAtMidnight n then -240 else -300.
Proof.
  intros Hr. unfold newYork, dstAtMidnight.
  rewrite epochDay_unique by (unfold msPerDay; lia).
  destruct (civilFromDays n) as [[y m] d].
  unfold dstStart, dstEnd.
  set (S := sundayOnOrAfter (daysFromCivil y 3 1)).
  set (E := sundayOnOrAfter (daysFromCivil y 11 1)).
  assert (H1 : ((S + 7) * msPerDay + 7 * 3600000 <=? n * msPerDay + r) = (S + 7 <? n)).
  { unfold msPerDay. destruct (Z.ltb_spec (S + 7) n); [apply Z.leb_le | apply Z.leb_gt]; lia. }
  assert (H2 : (n * msPerDay + r <? E * msPerDay + 6 * 3600000) = (n <=? E)).
  { unfold msPerDay. destruct (Z.leb_spec n E); [apply Z.ltb_lt | apply Z.ltb_ge]; lia. }
  now rewrite H1, H2.
Qed.

Lemma newYork_midnight n t :
  midnight newYork n t <->
  t = n * msPerDay + (if dstAtMidnight n then 4 else 5) * 3600000.
Proof.
  unfold midnight, reads, localTS. split.
  - intros H. destruct (newYork_values t) as [E|E].
    + assert (Ht : t = n * msPerDay + 4 * 3600000) by lia.
      rewrite Ht in E. rewrite newYork_early_hours in E by lia.
      destruct (dstAtMidnight n); [exact Ht | discriminate].
    + assert (Ht : t = n * msPerDay + 5 * 3600000) by lia.
      rewrite Ht in E. rewrite newYork_early_hours in E by lia.
      destruct (dstAtMidnight n); [discriminate | exact Ht].
  - intros ->. rewrite newYork_early_hours by (destruct (dstAtMidnight n); lia).
    destruct (dstAtMidnight n); lia.
Qed.

Lemma newYork_regular : regularZone newYork.
Proof.
  split.
  - exists (-240), (-300). apply newYork_values.
  - intros t t'. destruct (newYork_values t), (newYork_values t'); lia.
  - intros n. eexists. apply newYork_midnight. reflexivity.
  - intros n t t' H H'. apply newYork_midnight in H, H'. congruence.
Qed.

End NewYork.

(** * America/Havana: midnight is skipped, 01:00 never is *)

Section Havana.
Import JSDate Luxon Zones.
Local Arguments civilFromDays : simpl never.
Local Arguments daysFromCivil : simpl never.

Lemma havana_values t : havana t = -240 \/ havana t = -300.
Proof.
  unfold havana. destruct (civilFromDays (epochDay t)) as [[y m] d].
  destruct (_ && _); auto.
Qed.

Lemma havana_spread t t' : Z.abs (havana t - havana t') < 1440.
Proof. destruct (havana_values t) as [-> | ->], (havana_values t') as [-> | ->]; lia. Qed.

(** Both changes of the year fall at 05:00 UTC: from then on a UTC day
    has one offset. *)
Lemma havana_from_five n r r' :
  5 * 3600000 <= r < msPerDay -> 5 * 3600000 <= r' < msPerDay ->
  havana (n * msPerDay + r) = havana (n * msPerDay + r').
Proof.
  intros Hr Hr'. unfold havana.
  rewrite !epochDay_unique by (unfold msPerDay in *; lia).
  destruct (civilFromDays n) as [[y m] d].
  set (S := sundayOnOrAfter (daysFromCivil y 3 1)).
  set (E := sundayOnOrAfter (daysFromCivil y 11 1)).
  assert (H1 : forall q, 5 * 3600000 <= q < msPerDay ->
                         ((S + 7) * msPerDay + 5 * 3600000 <=? n * msPerDay + q)
                         = (S + 7 <=? n)).
  { intros q Hq. unfold msPerDay in *.
    destruct (Z.leb_spec (S + 7) n); [apply Z.leb_le | apply Z.leb_gt]; lia. }
  assert (H2 : forall q, 5 * 3600000 <= q < msPerDay ->
                         (n * msPerDay + q <? E * msPerDay + 5 * 3600000) = (n <? E)).
  { intros q Hq. unfold msPerDay in *.
    destruct (Z.ltb_spec n E); [apply Z.ltb_lt | apply Z.ltb_ge]; lia. }
  now rewrite !H1, !H2.
Qed.

Lemma havana_steady : steadyDays havana.
Proof.
  exists (-300), (-240). split; [lia|]. split; [lia|]. split.
  - intros t. destruct (havana_values t); auto.
  - intros n. unfold reads, localTS.
    pose proof (havana_from_five n (5 * 3600000) (6 * 3600000)) as Heq.
    destruct (havana_values (n * msPerDay + 5 * 3600000)) as [E|E].
    + exists (n * msPerDay + 5 * 3600000). rewrite E. lia.
    + exists (n * msPerDay + 6 * 3600000).
      rewrite <- Heq by (unfold msPerDay; lia). rewrite E. lia.
Qed.

End Havana.

(** * The repository's tests, replayed on the model

    Each expectation of [calendarService.test.js] that fixes instants is
    checked by evaluation: the model of luxon and rrule agrees with the
    libraries on every one of them. *)

Section ReplayedTests.
Import JSDate Luxon RRule Calendar Examples.

Ltac evaluate := vm_compute; reflexivity.

Example test_single_event :
  starts (materialize (utcTime 2024 10 1 4 0) (utcTime 2024 11 1 4 0) singleEvent)
  = Some [utcTime 2024 10 26 14 0].
Proof. evaluate. Qed.

Example test_all_day_event :
  snd (materialize (utcTime 2024 10 1 4 0) (utcTime 2024 11 1 4 0) allDayEventOct27)
  = Returned [Event.mk (Some "All Day Event"%string) Absent Absent
                       (utcTime 2024 10 27 4 0) (dateUTC 2024 10 28 3 59 59 999)
                       (Present true) feedUrl].
Proof. evaluate. Qed.

Example test_exdate :
  starts (materialize (utcTime 2024 10 30 4 0) (utcTime 2024 11 5 5 0) eventWithException)
  = Some [utcTime 2024 11 1 13 0; utcTime 2024 11 3 14 0].
Proof. evaluate. Qed.

Example test_modified_occurrence :
  starts (materialize (utcTime 2024 11 9 5 0) (utcTime 2024 11 13 5 0)
                      (modifiedEvent (movedOccurrence (utcTime 2024 11 11 17 30)
                                                      (utcTime 2024 11 11 18 0))))
  = Some [utcTime 2024 11 11 17 30; utcTime 2024 11 10 15 0; utcTime 2024 11 12 15 0].
Proof. evaluate. Qed.

Example test_annual_event :
  starts (materialize (utcTime 2024 1 1 5 0) (utcTime 2026 1 1 5 0) annualCelebration)
  = Some [utcTime 2024 12 8 5 0; utcTime 2025 12 8 5 0].
Proof. evaluate. Qed.

Example test_expired_count :
  starts (materialize (utcTime 2024 1 1 5 0) (utcTime 2025 1 1 5 0) expiredCamp) = Some [].
Proof. evaluate. Qed.

Example test_interval :
  starts (materialize (utcTime 2024 11 1 4 0) (utcTime 2024 12 5 5 0) biweeklyMeeting)
  = Some [utcTime 2024 11 4 5 0; utcTime 2024 11 18 5 0; utcTime 2024 12 2 5 0].
Proof. evaluate. Qed.

Example test_until :
  starts (materialize (utcTime 2024 11 20 5 0) (utcTime 2024 12 20 5 0) limitedTimeEvent)
  = Some [utcTime 2024 11 25 5 0; utcTime 2024 12 2 5 0; utcTime 2024 12 9 5 0].
Proof. evaluate. Qed.

Example test_overlapping_event :
  starts (materialize (utcTime 2024 11 1 4 0) (utcTime 2024 11 2 4 0) halloweenParty)
  = Some [utcTime 2024 11 1 2 0].
Proof. evaluate. Qed.

Example test_hub_deleted_instance :
  starts (materialize (utcTime 2024 11 9 5 0) (utcTime 2024 12 2 5 0)
                      (Item.mk (Item.summary hubEvent) None None
                               (Item.start hubEvent) (Item.end_ hubEvent) dateTime
                               (Item.rrule hubEvent) (Item.exdate hubEvent) []))
  = Some [utcTime 2024 11 10 23 30; utcTime 2024 11 24 23 30; utcTime 2024 12 1 23 30].
Proof. evaluate. Qed.

Example test_monthly_first_exdate :
  starts (materialize (utcTime 2025 11 1 4 0) (utcTime 2026 1 15 5 0) monthlyFirst)
  = Some [utcTime 2025 11 1 4 0; utcTime 2026 1 1 5 0].
Proof. evaluate. Qed.

End ReplayedTests.

(** * Aggregation across feeds *)

Section AggregationFacts.
Import JSDate Luxon RRule Calendar.
Context {iterator : Iterator}.
Variable w : World.
Variable hostZone : Zone.
Variable parseICS : string -> Outcome (list Component).
Variable fuel : nat.
Variable timezone : Zone.
Variables startRange endRange : Z.

Local Abbreviation coherent := (coherent w).
Local Abbreviation feed := (feed w hostZone parseICS fuel timezone startRange endRange).
Local Abbreviation feedEvents := (feedEvents w hostZone parseICS fuel timezone startRange endRange).
Local Abbreviation inOrder := (inOrder w hostZone parseICS fuel timezone startRange endRange).
Local Abbreviation aggregate :=
  (getCalendarEventsFromUrls w hostZone parseICS fuel timezone startRange endRange).

Lemma fetchFresh_spec url cache :
  coherent cache ->
  coherent (snd (fetchFresh w url cache))
  /\ snd (fst (fetchFresh w url cache))
     = match network w url with
       | Resolved data => Returned data
       | Rejected => Thrown (RequestFailed url)
       | Pending => Diverged
       end.
Proof.
  intros Hc. unfold fetchFresh.
  destruct (network w url) as [data| |] eqn:En; try (split; [exact Hc | reflexivity]).
  destruct (diskWritable w); (split; [|reflexivity]); simpl; [|exact Hc].
  intros url' m d Hl Hf.
  destruct (decide (url = url')) as [<-|Hne].
  - rewrite lookup_insert_eq in Hl. congruence.
  - rewrite lookup_insert_ne in Hl by exact Hne. eauto.
Qed.

Lemma getCachedData_spec url cache :
  coherent cache ->
  coherent (snd (getCachedData w url cache))
  /\ snd (fst (getCachedData w url cache))
     = match network w url with
       | Resolved data => Returned data
       | Rejected => Thrown (RequestFailed url)
       | Pending => Diverged
       end.
Proof.
  intros Hc. unfold getCachedData.
  destruct (cache !! url) as [[m d]|] eqn:El; [|now apply fetchFresh_spec].
  destruct (Z.ltb_spec (clock w - m) CACHE_TTL_MS) as [Hf|Hs]; [|now apply fetchFresh_spec].
  split; [exact Hc|]. simpl. now rewrite (Hc url m d El Hf).
Qed.

(** The loop ends as the feeds taken in order do, and keeps the cache
    coherent. *)
Lemma aggregate_inOrder urls : forall cache,
  coherent cache ->
  snd (fst (aggregate urls cache)) = inOrder urls
  /\ coherent (snd (aggregate urls cache)).
Proof.
  induction urls as [|url rest IH]; intros cache Hc; [split; [reflexivity | exact Hc]|].
  cbn [getCalendarEventsFromUrls Spec.inOrder].
  pose proof (getCachedData_spec url cache Hc) as [Hc1 Hr].
  destruct (getCachedData w url cache) as [[l r] cache1]. simpl in Hc1, Hr.
  unfold Spec.feed. subst r.
  destruct (network w url) as [data| |]; cbn [bind warn];
    try (split; [reflexivity | exact Hc1]).
  destruct (parseIcsData _ _ _ _ _ _ _ _ data) as [l2 [evs|e|]]; cbn [snd];
    try (split; [reflexivity | exact Hc1]).
  specialize (IH cache1 Hc1). destruct IH as [IHr IHc].
  destruct (aggregate rest cache1) as [[l3 r3] cache2]. simpl in IHr, IHc.
  rewrite <- IHr. split; [reflexivity | exact IHc].
Qed.

Lemma inOrder_all_returned urls :
  Forall (fun url => exists evs, feed url = Returned evs) urls ->
  inOrder urls = Returned (flat_map feedEvents urls).
Proof.
  induction 1 as [|url rest [evs He] _ IH]; [reflexivity|].
  cbn [Spec.inOrder flat_map]. unfold Spec.feedEvents at 1.
  now rewrite He, IH.
Qed.

Lemma inOrder_thrown urls url e :
  In url urls -> feed url = Thrown e -> forall evs, inOrder urls <> Returned evs.
Proof.
  induction urls as [|u rest IH]; [contradiction|].
  intros [->|Hin] He evs; cbn [Spec.inOrder].
  - now rewrite He.
  - destruct (feed u); [|discriminate..].
    specialize (IH Hin He).
    destruct (inOrder rest) as [more| |]; [|discriminate..].
    now specialize (IH more).
Qed.

End AggregationFacts.

(** * C6 and C7: the aggregation entry point *)

Section AggregationClaims.
Import JSDate Luxon RRule Calendar.

(** C6, as stated, fails: one feed that lists a later event before an
    earlier one is returned in the feed's order, later event first. *)
Lemma C6_unsorted_counterexample :
  exists evs,
    snd (fst (getCalendarEventsFromUrls (iterator := RRule.model)
                Examples.oneFeedDown Zones.newYork Examples.twoEvents 8
                Zones.newYork Examples.novemberStart Examples.novemberEnd
                [Examples.goodUrl] ∅))
    = Returned evs
    /\ ~ sortedByStart evs.
Proof.
  eexists. split; [vm_compute; reflexivity|].
  intros Hs.
  specialize (Hs 0%nat 1%nat _ _ (Nat.lt_0_succ 0) eq_refl eq_refl).
  vm_compute in Hs. apply Hs. reflexivity.
Qed.

(** C6, amended: when every feed is fetched and materialized, the result
    is the concatenation, in the order of the URLs, of what each feed
    yields, each in the order [parseIcsData] emitted it; nothing sorts it,
    and the endpoint sends the list as it is. *)
Theorem C6_concatenation_in_feed_order
  (iterator : Iterator) (w : World) (hostZone : Zone)
  (parseICS : string -> Outcome (list Component)) (fuel : nat)
  (timezone : Zone) (startRange endRange : Z)
  (urls : list string) (cache : gmap string (Z * string)) :
  coherent w cache ->
  Forall (fun url => exists evs,
            feed w hostZone parseICS fuel timezone startRange endRange url = Returned evs)
         urls ->
  snd (fst (getCalendarEventsFromUrls w hostZone parseICS fuel timezone
                                      startRange endRange urls cache))
  = Returned (flat_map (feedEvents w hostZone parseICS fuel timezone startRange endRange)
                       urls)
  /\ (forall (zones : string -> Zone) (body : RequestBody) (tzName : string),
         calendarUrls body = Some urls ->
         timezoneName body = Some tzName ->
         truthy (Some tzName) = true ->
         zones tzName = timezone ->
         startOfDay timezone (plusDays timezone (clock w) (- orDefault (daysPast body) 90))
         = startRange ->
         endOfDay timezone (plusDays timezone (clock w) (orDefault (daysFuture body) 180))
         = endRange ->
         fst (eventsEndpoint w hostZone parseICS fuel zones body cache)
         = Json (flat_map (feedEvents w hostZone parseICS fuel timezone startRange endRange)
                          urls)).
Proof.
  intros Hc Hall.
  assert (Hagg : snd (fst (getCalendarEventsFromUrls w hostZone parseICS fuel timezone
                                                     startRange endRange urls cache))
                 = Returned (flat_map (feedEvents w hostZone parseICS fuel timezone
                                                  startRange endRange) urls)).
  { rewrite (proj1 (aggregate_inOrder w hostZone parseICS fuel timezone
                                      startRange endRange urls cache Hc)).
    now apply inOrder_all_returned. }
  split; [exact Hagg|].
  intros zones body tzName Hu Hn Ht Hz Hs Hend.
  unfold eventsEndpoint. rewrite Hu, Hn, Ht, Hz. unfold toJSDate. rewrite Hs, Hend.
  destruct (getCalendarEventsFromUrls _ _ _ _ _ _ _ urls cache) as [[l o] cache'].
  cbn [fst snd] in Hagg. now rewrite Hagg.
Qed.

Lemma C6_concatenation_witness :
  coherent Examples.oneFeedDown ∅
  /\ snd (fst (getCalendarEventsFromUrls (iterator := RRule.model)
                 Examples.oneFeedDown Zones.newYork Examples.twoEvents 8
                 Zones.newYork Examples.novemberStart Examples.novemberEnd
                 [Examples.goodUrl; Examples.goodUrl] ∅))
     = Returned (flat_map (feedEvents (iterator := RRule.model)
                             Examples.oneFeedDown Zones.newYork Examples.twoEvents 8
                             Zones.newYork Examples.novemberStart Examples.novemberEnd)
                          [Examples.goodUrl; Examples.goodUrl]).
Proof.
  assert (Hc : coherent Examples.oneFeedDown ∅).
  { intros url m d Hl. rewrite lookup_empty in Hl. discriminate. }
  split; [exact Hc|].
  refine (proj1 (C6_concatenation_in_feed_order RRule.model Examples.oneFeedDown
                   Zones.newYork Examples.twoEvents 8 Zones.newYork
                   Examples.novemberStart Examples.novemberEnd
                   [Examples.goodUrl; Examples.goodUrl] ∅ Hc _)).
  repeat constructor; eexists; vm_compute; reflexivity.
Defined.

(** C7, as stated, fails: with one reachable feed that yields two events
    and one unreachable feed, the call throws and returns nothing. *)
Lemma C7_one_feed_down_counterexample :
  feedEvents (iterator := RRule.model)
             Examples.oneFeedDown Zones.newYork Examples.twoEvents 8
             Zones.newYork Examples.novemberStart Examples.novemberEnd
             Examples.goodUrl <> []
  /\ snd (fst (getCalendarEventsFromUrls (iterator := RRule.model)
                 Examples.oneFeedDown Zones.newYork Examples.twoEvents 8
                 Zones.newYork Examples.novemberStart Examples.novemberEnd
                 [Examples.goodUrl; Examples.downUrl] ∅))
     = Thrown (RequestFailed Examples.downUrl).
Proof.
  split; [vm_compute; discriminate | vm_compute; reflexivity].
Qed.

(** C7, amended: a feed that cannot be fetched, decoded or materialized
    makes the whole call fail; the events of the other feeds are not
    returned, and the endpoint does not answer with a list of events. *)
Theorem C7_one_failure_fails_all
  (iterator : Iterator) (w : World) (hostZone : Zone)
  (parseICS : string -> Outcome (list Component)) (fuel : nat)
  (timezone : Zone) (startRange endRange : Z)
  (urls : list string) (cache : gmap string (Z * string))
  (url : string) (e : Error) :
  coherent w cache ->
  In url urls ->
  feed w hostZone parseICS fuel timezone startRange endRange url = Thrown e ->
  (forall evs,
      snd (fst (getCalendarEventsFromUrls w hostZone parseICS fuel timezone
                                          startRange endRange urls cache))
      <> Returned evs)
  /\ (forall (zones : string -> Zone) (body : RequestBody) (tzName : string),
         calendarUrls body = Some urls ->
         timezoneName body = Some tzName ->
         zones tzName = timezone ->
         startOfDay timezone (plusDays timezone (clock w) (- orDefault (daysPast body) 90))
         = startRange ->
         endOfDay timezone (plusDays timezone (clock w) (orDefault (daysFuture body) 180))
         = endRange ->
         forall evs,
           fst (eventsEndpoint w hostZone parseICS fuel zones body cache) <> Json evs).
Proof.
  intros Hc Hin He.
  assert (Hagg : forall evs,
             snd (fst (getCalendarEventsFromUrls w hostZone parseICS fuel timezone
                                                 startRange endRange urls cache))
             <> Returned evs).
  { rewrite (proj1 (aggregate_inOrder w hostZone parseICS fuel timezone
                                      startRange endRange urls cache Hc)).
    now apply (inOrder_thrown w hostZone parseICS fuel timezone startRange endRange
                              urls url e). }
  split; [exact Hagg|].
  intros zones body tzName Hu Hn Hz Hs Hend evs.
  unfold eventsEndpoint. rewrite Hu, Hn, Hz. unfold toJSDate. rewrite Hs, Hend.
  destruct (truthy (Some tzName)); [|discriminate].
  destruct (getCalendarEventsFromUrls _ _ _ _ _ _ _ urls cache) as [[l [evs'| |]] cache'];
    try discriminate.
  exfalso. now apply (Hagg evs').
Qed.

Lemma C7_failure_witness :
  coherent Examples.oneFeedDown ∅
  /\ In Examples.downUrl [Examples.goodUrl; Examples.downUrl]
  /\ forall evs,
      snd (fst (getCalendarEventsFromUrls (iterator := RRule.model)
                  Examples.oneFeedDown Zones.newYork Examples.twoEvents 8
                  Zones.newYork Examples.novemberStart Examples.novemberEnd
                  [Examples.goodUrl; Examples.downUrl] ∅))
      <> Returned evs.
Proof.
  assert (Hc : coherent Examples.oneFeedDown ∅).
  { intros url m d Hl. rewrite lookup_empty in Hl. discriminate. }
  assert (Hin : In Examples.downUrl [Examples.goodUrl; Examples.downUrl])
    by (right; left; reflexivity).
  split; [exact Hc|]. split; [exact Hin|].
  refine (proj1 (C7_one_failure_fails_all RRule.model Examples.oneFeedDown Zones.newYork
                   Examples.twoEvents 8 Zones.newYork Examples.novemberStart
                   Examples.novemberEnd
                   [Examples.goodUrl; Examples.downUrl] ∅ Examples.downUrl
                   (RequestFailed Examples.downUrl) Hc Hin _)).
  vm_compute. reflexivity.
Defined.

End AggregationClaims.

(** * The materializer, path by path *)

Section MaterializerFacts.
Import JSDate Luxon RRule Calendar.
Context {iterator : Iterator}.
Variables timezone hostZone : Zone.
Variable now : Z.
Variables startRange endRange : Z.
Variable url : string.

Lemma in_exdateDatesSet item D :
  D ∈ exdateDatesSet timezone item
  <-> exists ex, In ex (Item.exdate item) /\ toISODate timezone ex = D.
Proof.
  unfold exdateDatesSet. rewrite elem_of_list_to_set, list_elem_of_In, in_map_iff.
  unfold fromJSDate. split; intros (ex & H1 & H2); exists ex; auto.
Qed.

Lemma in_modifiedRecurrenceIds item d :
  d ∈ modifiedRecurrenceIds item
  <-> exists recurrence,
      In recurrence (Item.recurrences item) /\ Recurrence.recurrenceid recurrence = d.
Proof.
  unfold modifiedRecurrenceIds. rewrite elem_of_list_to_set, list_elem_of_In, in_map_iff.
  split; intros (x & H1 & H2); exists x; auto.
Qed.

Lemma in_overrideEvents item e :
  In e (overrideEvents startRange endRange url item)
  <-> exists recurrence,
      In recurrence (Item.recurrences item)
      /\ startRange <= Recurrence.start recurrence <= endRange
      /\ e = overrideEvent url item recurrence.
Proof.
  unfold overrideEvents. rewrite in_flat_map. split.
  - intros (rec & Hin & He).
    destruct (Z.leb_spec startRange (Recurrence.start rec));
      destruct (Z.leb_spec (Recurrence.start rec) endRange); simpl in He;
      try contradiction.
    destruct He as [<-|[]]. exists rec. repeat split; auto.
  - intros (rec & Hin & [H1 H2] & ->). exists rec. split; [exact Hin|].
    apply Z.leb_le in H1, H2. rewrite H1, H2. now left.
Qed.

Lemma in_baseEvents item dates e :
  In e (baseEvents timezone url item dates)
  <-> exists d,
      In d dates
      /\ (d ∉ modifiedRecurrenceIds item)
      /\ (toISODate timezone (correctedStart timezone item d) ∉ exdateDatesSet timezone item)
      /\ e = baseEvent timezone url item d.
Proof.
  unfold baseEvents. rewrite in_flat_map. split.
  - intros (d & Hin & He). repeat case_decide; try contradiction.
    destruct He as [<-|[]]. exists d. auto.
  - intros (d & Hin & H1 & H2 & ->). exists d. split; [exact Hin|].
    repeat case_decide; try contradiction. now left.
Qed.

Lemma in_allDayEvents item dates e :
  In e (allDayEvents timezone now startRange endRange url item dates)
  <-> exists d,
      In d dates
      /\ startRange <= localOccurrence timezone now d <= endRange
      /\ (toISODate timezone (localOccurrence timezone now d) ∉ exdateDatesSet timezone item)
      /\ e = allDayEvent url item (localOccurrence timezone now d).
Proof.
  unfold allDayEvents, toJSDate. rewrite in_flat_map. split.
  - intros (d & Hin & He).
    destruct (Z.ltb_spec (localOccurrence timezone now d) startRange);
      destruct (Z.ltb_spec endRange (localOccurrence timezone now d)); simpl in He;
      try contradiction.
    case_decide; try contradiction.
    destruct He as [<-|[]]. exists d. repeat split; auto.
  - intros (d & Hin & [H1 H2] & H3 & ->). exists d. split; [exact Hin|].
    apply Z.ltb_ge in H1, H2. rewrite H1, H2. simpl.
    case_decide; try contradiction. now left.
Qed.

Lemma timedRecurring_eq item r :
  timedRecurring timezone startRange endRange url item r
  = overrideEvents startRange endRange url item
    ++ (if seriesInRange (utcRuleSet item r) startRange endRange
        then baseEvents timezone url item
                        (between (utcRuleSet item r) startRange endRange)
        else []).
Proof.
  unfold timedRecurring, seriesInRange.
  destruct (after (utcRuleSet item r) startRange) as [next|]; [|now rewrite app_nil_r].
  destruct (endRange <? next); simpl; [now rewrite app_nil_r | reflexivity].
Qed.

Lemma parseOptions_freq o : parseOptions o = None <-> freq o = None.
Proof.
  unfold parseOptions. destruct (freq o) as [f|]; [|tauto].
  destruct (civilFromDays _) as [[y m] d].
  destruct (_ || _); [split; discriminate|].
  split; discriminate.
Qed.

Lemma allDayRecurring_returned item r p :
  parseOptions (normalize hostZone item (ruleOptions item r)) = Some p ->
  allDayRecurring timezone hostZone now startRange endRange url item r
  = ([], Returned
           (if seriesInRange (iterate p) startRange endRange
            then allDayEvents timezone now startRange endRange url item
                              (between (iterate p)
                                       (startRange - 24 * 60 * 60 * 1000)
                                       (endRange + 24 * 60 * 60 * 1000))
            else [])).
Proof.
  intros Hp. unfold allDayRecurring, newRRule, seriesInRange.
  assert (Hf : isPresent (freq (normalize hostZone item (ruleOptions item r))) = true).
  { destruct (freq _) eqn:E; [reflexivity|].
    apply parseOptions_freq in E. congruence. }
  rewrite Hf, Hp. cbn [bind ret app].
  destruct (after (iterate p) startRange) as [next|]; [|reflexivity].
  destruct (endRange <? next); reflexivity.
Qed.

Lemma allDayRecurring_thrown item r :
  freq (parsedRule r) = None ->
  allDayRecurring timezone hostZone now startRange endRange url item r
  = ([WarnMissingFreq (Item.summary item)], Thrown InvalidFrequency).
Proof.
  intros Hf. unfold allDayRecurring, newRRule.
  assert (Hn : normalize hostZone item (ruleOptions item r) = ruleOptions item r)
    by (unfold normalize, ruleOptions; cbn [freq]; now rewrite Hf).
  rewrite Hn.
  assert (Hp : parseOptions (ruleOptions item r) = None)
    by (apply parseOptions_freq; unfold ruleOptions; cbn [freq]; exact Hf).
  rewrite Hp. unfold ruleOptions at 1. cbn [freq]. rewrite Hf. reflexivity.
Qed.

Lemma parseComponents_thrown fuel item l e parsedData :
  In (VEVENT item) parsedData ->
  processItem timezone hostZone now startRange endRange url fuel item = (l, Thrown e) ->
  forall evs,
    snd (parseComponents timezone hostZone now startRange endRange url fuel parsedData)
    <> Returned evs.
Proof.
  intros Hin Hp. induction parsedData as [|c rest IH]; [contradiction|].
  intros evs. destruct Hin as [->|Hin].
  - cbn [parseComponents]. rewrite Hp. cbn [bind snd]. discriminate.
  - specialize (IH Hin). destruct c as [item'|]; cbn [parseComponents]; [|apply IH].
    destruct (processItem _ _ _ _ _ _ _ item') as [l1 [evs1|e1|]]; cbn [bind];
      try (cbn [snd]; discriminate).
    destruct (parseComponents _ _ _ _ _ _ _ rest) as [l2 [evs2|e2|]]; cbn [bind ret snd] in *;
      try discriminate.
    exfalso. now apply (IH evs2).
Qed.

End MaterializerFacts.

(** * C8: a rule without a frequency *)

Section FrequencyClaims.
Import JSDate Luxon RRule Calendar.

(** C8, as stated, fails: an all-day event whose rule has no frequency is
    not handled as a non-recurring event; the warning is printed and the
    construction of the rule throws out of [parseIcsData]. *)
Lemma C8_missing_frequency_counterexample :
  parseIcsData (iterator := RRule.model) Zones.newYork Zones.newYork
               (Examples.utcTime 2024 11 5 12 0)
               Examples.novemberStart Examples.novemberEnd Examples.feedUrl
               (fun _ => Returned [VEVENT Examples.noFrequencyEvent]) 8
               "BEGIN:VCALENDAR"
  = ([WarnMissingFreq (Some "No frequency"%string)], Thrown InvalidFrequency).
Proof. vm_compute. reflexivity. Qed.

(** C8, amended: an event that has a rule is never treated as
    non-recurring: whatever its rule's frequency, every occurrence it
    yields is that of an override record or of a date the rule's iterator
    gave, not the event's own record.  And for an all-day event whose rule
    has no frequency once the recovery from the rule text has run, the
    condition is logged and [new RRule] throws "Invalid frequency"; the
    error leaves [parseIcsData], whatever else the feed contains. *)
Theorem C8_missing_frequency_throws
  (iterator : Iterator) (timezone hostZone : Zone) (now startRange endRange : Z)
  (url : string) (fuel : nat) (item : Item.t) (r : RRuleObj)
  (parseICS : string -> Outcome (list Component)) (icsData : string)
  (parsedData : list Component) :
  Item.rrule item = Some r ->
  (Item.datetype item = date ->
   freq (parsedRule r) = None ->
   parseICS icsData = Returned parsedData ->
   In (VEVENT item) parsedData ->
   processItem timezone hostZone now startRange endRange url fuel item
   = ([WarnMissingFreq (Item.summary item)], Thrown InvalidFrequency)
   /\ forall evs,
       snd (parseIcsData timezone hostZone now startRange endRange url parseICS fuel
                         icsData)
       <> Returned evs)
  /\ (forall l evs e,
         processItem timezone hostZone now startRange endRange url fuel item
         = (l, Returned evs) ->
         In e evs ->
         match Item.datetype item with
         | dateTime =>
           (exists recurrence,
               In recurrence (Item.recurrences item)
               /\ e = overrideEvent url item recurrence)
           \/ (exists d,
                  In d (between (utcRuleSet item r) startRange endRange)
                  /\ e = baseEvent timezone url item d)
         | date =>
           exists p d,
             parseOptions (normalize hostZone item (ruleOptions item r)) = Some p
             /\ In d (between (iterate p) (startRange - 24 * 60 * 60 * 1000)
                                          (endRange + 24 * 60 * 60 * 1000))
             /\ e = allDayEvent url item (localOccurrence timezone now d)
         end).
Proof.
  intros Hr. split.
  - intros Hd Hf Hp Hin.
    assert (Hi : processItem timezone hostZone now startRange endRange url fuel item
                 = ([WarnMissingFreq (Item.summary item)], Thrown InvalidFrequency)).
    { unfold processItem. rewrite Hr, Hd. now apply allDayRecurring_thrown. }
    split; [exact Hi|].
    intros evs. unfold parseIcsData. rewrite Hp. cbn [bind].
    pose proof (parseComponents_thrown timezone hostZone now startRange endRange url
                  fuel item _ _ parsedData Hin Hi) as Ht.
    destruct (parseComponents _ _ _ _ _ _ _ parsedData) as [l2 o] eqn:E.
    cbn [snd app] in *. apply Ht.
  - intros l evs e Hp He. unfold processItem in Hp. rewrite Hr in Hp.
    destruct (Item.datetype item).
    + destruct (parseOptions (normalize hostZone item (ruleOptions item r))) as [p|] eqn:Ep.
      * rewrite (allDayRecurring_returned timezone hostZone now startRange endRange url
                   item r p Ep) in Hp.
        injection Hp as _ <-.
        destruct (seriesInRange _ _ _); [|contradiction].
        apply in_allDayEvents in He. destruct He as (d & Hin & _ & _ & ->).
        exists p, d. auto.
      * unfold allDayRecurring, newRRule in Hp. rewrite Ep in Hp.
        destruct (isPresent _); discriminate.
    + unfold ret in Hp. injection Hp as _ <-. rewrite timedRecurring_eq in He.
      apply in_app_or in He. destruct He as [He|He].
      * left. apply in_overrideEvents in He. destruct He as (rec & Hin & _ & ->).
        now exists rec.
      * right. destruct (seriesInRange _ _ _); [|contradiction].
        apply in_baseEvents in He. destruct He as (d & Hin & _ & _ & ->).
        now exists d.
Qed.

Lemma C8_missing_frequency_witness :
  Item.rrule Examples.noFrequencyEvent = Some Examples.noFrequency
  /\ Item.datetype Examples.noFrequencyEvent = date
  /\ freq (parsedRule Examples.noFrequency) = None
  /\ forall evs,
      snd (parseIcsData (iterator := RRule.model) Zones.newYork Zones.newYork
                        (Examples.utcTime 2024 11 5 12 0)
                        Examples.novemberStart Examples.novemberEnd Examples.feedUrl
                        (fun _ => Returned [VEVENT Examples.vacation;
                                            VEVENT Examples.noFrequencyEvent]) 8
                        "BEGIN:VCALENDAR")
      <> Returned evs.
Proof.
  repeat (split; [reflexivity|]).
  refine (proj2 (proj1 (C8_missing_frequency_throws
                          RRule.model Zones.newYork Zones.newYork
                          (Examples.utcTime 2024 11 5 12 0)
                          Examples.novemberStart Examples.novemberEnd Examples.feedUrl 8
                          Examples.noFrequencyEvent Examples.noFrequency
                          (fun _ => Returned [VEVENT Examples.vacation;
                                              VEVENT Examples.noFrequencyEvent])
                          "BEGIN:VCALENDAR"
                          [VEVENT Examples.vacation; VEVENT Examples.noFrequencyEvent]
                          eq_refl)
                       eq_refl eq_refl eq_refl _)).
  right. left. reflexivity.
Defined.

End FrequencyClaims.

(** * C10: which occurrences carry a description and a location *)

Section FieldClaims.
Import JSDate Luxon RRule Calendar.

(** C10: the occurrences of a recurring timed event are its override
    records in the window, which carry a description and a location (the
    record's own, else the event's), followed by occurrences of the base
    rule, which carry neither; a non-recurring timed event carries the
    event's description and location. *)
Theorem C10_base_occurrences_omit_description
  (iterator : Iterator) (timezone hostZone : Zone) (now startRange endRange : Z)
  (url : string) (fuel : nat) (item : Item.t) (r : RRuleObj) (single : Item.t) :
  Item.rrule item = Some r ->
  Item.datetype item = dateTime ->
  Item.rrule single = None ->
  Item.datetype single = dateTime ->
  (exists base,
      processItem timezone hostZone now startRange endRange url fuel item
      = ([], Returned (overrideEvents startRange endRange url item ++ base))
      /\ Forall (fun e =>
                   Event.title e = Item.summary item
                   /\ Event.description e = Absent
                   /\ Event.location e = Absent
                   /\ Event.allDay e = Present false
                   /\ Event.calendarUrl e = url) base
      /\ Forall (fun e => exists recurrence,
                   In recurrence (Item.recurrences item)
                   /\ Event.description e
                      = Present (js_or (Recurrence.description recurrence)
                                       (Item.description item))
                   /\ Event.location e
                      = Present (js_or (Recurrence.location recurrence)
                                       (Item.location item)))
                (overrideEvents startRange endRange url item))
  /\ (exists evs,
         processItem timezone hostZone now startRange endRange url fuel single
         = ([], Returned evs)
         /\ Forall (fun e =>
                      Event.description e = Present (Item.description single)
                      /\ Event.location e = Present (Item.location single)) evs).
Proof.
  intros Hr Hd Hs Hsd. split.
  - exists (if seriesInRange (utcRuleSet item r) startRange endRange
            then baseEvents timezone url item
                            (between (utcRuleSet item r) startRange endRange)
            else []).
    split; [|split].
    + unfold processItem. rewrite Hr, Hd. unfold ret. now rewrite timedRecurring_eq.
    + destruct (seriesInRange _ _ _); [|constructor].
      apply List.Forall_forall. intros e He. apply in_baseEvents in He.
      destruct He as (d & _ & _ & _ & ->). repeat split.
    + apply List.Forall_forall. intros e He. apply in_overrideEvents in He.
      destruct He as (rec & Hin & _ & ->). exists rec. repeat split. exact Hin.
  - unfold processItem, nonRecurring. rewrite Hs, Hsd. cbn [andb].
    destruct (_ && _); eexists; (split; [reflexivity|]); repeat constructor.
Qed.

Lemma C10_base_occurrences_witness :
  Item.rrule (Examples.modifiedEvent
                (Examples.movedOccurrence (Examples.utcTime 2024 11 11 17 30)
                                          (Examples.utcTime 2024 11 11 18 0)))
  = Some (Examples.dailyThree (Examples.utcTime 2024 11 10 15 0))
  /\ Item.rrule Examples.lateEvent = None
  /\ exists base,
      processItem (iterator := RRule.model) Zones.newYork Zones.newYork
                  (Examples.utcTime 2024 11 5 12 0)
                  (Examples.utcTime 2024 11 9 5 0) (Examples.utcTime 2024 11 13 5 0)
                  Examples.feedUrl 8
                  (Examples.modifiedEvent
                     (Examples.movedOccurrence (Examples.utcTime 2024 11 11 17 30)
                                               (Examples.utcTime 2024 11 11 18 0)))
      = ([], Returned
               (overrideEvents (Examples.utcTime 2024 11 9 5 0)
                               (Examples.utcTime 2024 11 13 5 0) Examples.feedUrl
                               (Examples.modifiedEvent
                                  (Examples.movedOccurrence
                                     (Examples.utcTime 2024 11 11 17 30)
                                     (Examples.utcTime 2024 11 11 18 0)))
                ++ base))
      /\ length base = 2%nat.
Proof.
  split; [reflexivity|]. split; [reflexivity|].
  destruct (C10_base_occurrences_omit_description RRule.model Zones.newYork Zones.newYork
              (Examples.utcTime 2024 11 5 12 0)
              (Examples.utcTime 2024 11 9 5 0) (Examples.utcTime 2024 11 13 5 0)
              Examples.feedUrl 8
              (Examples.modifiedEvent
                 (Examples.movedOccurrence (Examples.utcTime 2024 11 11 17 30)
                                           (Examples.utcTime 2024 11 11 18 0)))
              (Examples.dailyThree (Examples.utcTime 2024 11 10 15 0))
              Examples.lateEvent eq_refl eq_refl eq_refl eq_refl)
    as [(base & Hb & _) _].
  exists base. split; [exact Hb|].
  vm_compute in Hb. injection Hb as Hb. rewrite <- Hb. reflexivity.
Defined.

End FieldClaims.

(** * C3: exception dates *)

Section ExceptionClaims.
Import JSDate Luxon RRule Calendar.

(** C3, as stated, fails: an override record is emitted without a look at
    the exception dates.  Here the occurrence of November 10th is moved
    to November 17th, a date the series excludes. *)
Lemma C3_override_on_exdate_counterexample :
  exists e ex,
    In e (timedRecurring (iterator := RRule.model) Zones.newYork
            (Examples.utcTime 2024 11 9 5 0) (Examples.utcTime 2024 12 2 5 0)
            Examples.feedUrl Examples.hubEvent Examples.weeklySunday)
    /\ In ex (Item.exdate Examples.hubEvent)
    /\ toISODate Zones.newYork (Event.start e) = toISODate Zones.newYork ex.
Proof.
  eexists. exists (Examples.utcTime 2024 11 17 23 30).
  split; [vm_compute; left; reflexivity|].
  split; [left; reflexivity | vm_compute; reflexivity].
Qed.

(** C3, amended: no occurrence generated from the base rule of a recurring
    event, timed or all-day, starts on the local date of an exception
    instant (override records are emitted regardless); and a candidate of
    the rule on another date is emitted all the same. *)
Theorem C3_exdates_drop_base_occurrences
  (iterator : Iterator) (timezone hostZone : Zone) (now startRange endRange : Z)
  (url : string) (fuel : nat) (item : Item.t) (r : RRuleObj)
  (l : list LogLine) (evs : list Event.t) :
  Item.rrule item = Some r ->
  processItem timezone hostZone now startRange endRange url fuel item = (l, Returned evs) ->
  (forall e ex,
      In e evs -> In ex (Item.exdate item) ->
      (Item.datetype item = dateTime /\ In e (overrideEvents startRange endRange url item))
      \/ toISODate timezone (Event.start e) <> toISODate timezone ex)
  /\ (Item.datetype item = dateTime ->
      seriesInRange (utcRuleSet item r) startRange endRange = true ->
      forall d,
        In d (between (utcRuleSet item r) startRange endRange) ->
        (forall recurrence, In recurrence (Item.recurrences item) ->
                            Recurrence.recurrenceid recurrence <> d) ->
        (forall ex, In ex (Item.exdate item) ->
                    toISODate timezone (correctedStart timezone item d)
                    <> toISODate timezone ex) ->
        In (baseEvent timezone url item d) evs)
  /\ (Item.datetype item = date ->
      forall p,
        parseOptions (normalize hostZone item (ruleOptions item r)) = Some p ->
        seriesInRange (iterate p) startRange endRange = true ->
        forall d,
          In d (between (iterate p) (startRange - 24 * 60 * 60 * 1000)
                        (endRange + 24 * 60 * 60 * 1000)) ->
          startRange <= localOccurrence timezone now d <= endRange ->
          (forall ex, In ex (Item.exdate item) ->
                      toISODate timezone (localOccurrence timezone now d)
                      <> toISODate timezone ex) ->
          In (allDayEvent url item (localOccurrence timezone now d)) evs).
Proof.
  intros Hr Hp. unfold processItem in Hp. rewrite Hr in Hp.
  destruct (Item.datetype item) eqn:Hd.
  - (* all-day *)
    destruct (parseOptions (normalize hostZone item (ruleOptions item r))) as [p|] eqn:Ep.
    2:{ apply parseOptions_freq in Ep.
        assert (Hf : freq (parsedRule r) = None).
        { unfold normalize, ruleOptions in Ep. cbn [freq bymonth] in Ep.
          destruct (freq (parsedRule r)) as [[]|]; [destruct (bymonth (parsedRule r))|..];
            try discriminate; reflexivity. }
        rewrite (allDayRecurring_thrown timezone hostZone now startRange endRange url
                   item r Hf) in Hp. discriminate. }
    rewrite (allDayRecurring_returned timezone hostZone now startRange endRange url
               item r p Ep) in Hp.
    injection Hp as _ <-.
    split; [|split; [discriminate|]].
    + intros e ex He Hex. right.
      destruct (seriesInRange _ _ _); [|contradiction].
      apply in_allDayEvents in He. destruct He as (d & _ & _ & Hn & ->).
      intros Heq. apply Hn. apply in_exdateDatesSet. exists ex. split; [exact Hex|].
      symmetry. exact Heq.
    + intros _ p' Hp' Hs d Hin Hw Hno. assert (p' = p) by congruence. subst p'.
      rewrite Hs. apply in_allDayEvents. exists d. repeat split; try tauto.
      intros Hc. apply in_exdateDatesSet in Hc. destruct Hc as (ex & Hex & Heq).
      now apply (Hno ex Hex).
  - (* timed *)
    unfold ret in Hp. injection Hp as _ <-. rewrite timedRecurring_eq.
    split; [|split; [|discriminate]].
    + intros e ex He Hex. apply in_app_or in He. destruct He as [He|He]; [left; auto|].
      right. destruct (seriesInRange _ _ _); [|contradiction].
      apply in_baseEvents in He. destruct He as (d & _ & _ & Hn & ->).
      intros Heq. apply Hn. apply in_exdateDatesSet. exists ex. split; [exact Hex|].
      symmetry. exact Heq.
    + intros _ Hs d Hin Hid Hno. apply in_or_app. right. rewrite Hs.
      apply in_baseEvents. exists d. repeat split; try tauto.
      * intros Hc. apply in_modifiedRecurrenceIds in Hc.
        destruct Hc as (rec & Hrec & Heq). now apply (Hid rec Hrec).
      * intros Hc. apply in_exdateDatesSet in Hc. destruct Hc as (ex & Hex & Heq).
        now apply (Hno ex Hex).
Qed.

Lemma C3_exdates_witness :
  Item.rrule Examples.hubEvent = Some Examples.weeklySunday
  /\ forall e ex,
      In e (timedRecurring (iterator := RRule.model) Zones.newYork
              (Examples.utcTime 2024 11 9 5 0) (Examples.utcTime 2024 12 2 5 0)
              Examples.feedUrl Examples.hubEvent Examples.weeklySunday) ->
      In ex (Item.exdate Examples.hubEvent) ->
      (Item.datetype Examples.hubEvent = dateTime
       /\ In e (overrideEvents (Examples.utcTime 2024 11 9 5 0)
                               (Examples.utcTime 2024 12 2 5 0)
                               Examples.feedUrl Examples.hubEvent))
      \/ toISODate Zones.newYork (Event.start e) <> toISODate Zones.newYork ex.
Proof.
  split; [reflexivity|].
  refine (proj1 (C3_exdates_drop_base_occurrences RRule.model Zones.newYork Zones.newYork
           (Examples.utcTime 2024 11 5 12 0)
           (Examples.utcTime 2024 11 9 5 0) (Examples.utcTime 2024 12 2 5 0)
           Examples.feedUrl 8 Examples.hubEvent Examples.weeklySunday []
           (timedRecurring (iterator := RRule.model) Zones.newYork
              (Examples.utcTime 2024 11 9 5 0) (Examples.utcTime 2024 12 2 5 0)
              Examples.feedUrl Examples.hubEvent Examples.weeklySunday)
           eq_refl eq_refl)).
Defined.

End ExceptionClaims.

(** * C2: override records *)

Section OverrideClaims.
Import JSDate Luxon RRule Calendar.

Lemma onDate_app zone D evs evs' :
  onDate zone D (evs ++ evs') = onDate zone D evs ++ onDate zone D evs'.
Proof. unfold onDate. apply List.filter_app. Qed.

Lemma onDate_none zone D evs :
  (forall e, In e evs -> toISODate zone (Event.start e) <> D) -> onDate zone D evs = [].
Proof.
  intros H. unfold onDate. induction evs as [|e evs IH]; [reflexivity|].
  cbn [List.filter]. rewrite bool_decide_eq_false_2 by (apply H; now left).
  apply IH. intros e' He'. apply H. now right.
Qed.


(** The condition of the amended claim on the candidates is not always
    met.  The rule's candidates keep the UTC time of the first start, a
    RECURRENCE-ID is the instant of the local time on its own date: in a
    series that crosses a change of offset the two differ by the change,
    the candidate is not suppressed, and the date holds the override and
    the base occurrence both. *)
Example override_across_offset_change :
  map (fun e => (Event.title e, Event.start e))
      (onDate Zones.newYork (2024, 11, 5)
              (timedRecurring (iterator := RRule.model) Zones.newYork
                 (Examples.utcTime 2024 11 1 4 0) (Examples.utcTime 2024 11 8 5 0)
                 Examples.feedUrl Examples.autumnSeries
                 (Examples.dailyTen (Examples.utcTime 2024 10 30 14 0))))
  = [(Some "Stand-up (moved)"%string, Examples.utcTime 2024 11 5 17 30);
     (Some "Stand-up"%string, Examples.utcTime 2024 11 5 15 0)].
Proof. vm_compute. reflexivity. Qed.

(** The override records that start on date [D], among those emitted. *)
Lemma onDate_overrideEvents zone startRange endRange url item D :
  onDate zone D (overrideEvents startRange endRange url item)
  = map (overrideEvent url item)
        (List.filter (fun recurrence =>
                        (startRange <=? Recurrence.start recurrence)
                        && (Recurrence.start recurrence <=? endRange)
                        && bool_decide (toISODate zone (Recurrence.start recurrence) = D))
                     (Item.recurrences item)).
Proof.
  unfold overrideEvents.
  induction (Item.recurrences item) as [|recurrence rest IH]; [reflexivity|].
  cbn [flat_map List.filter]. rewrite onDate_app, IH.
  destruct ((startRange <=? Recurrence.start recurrence)
            && (Recurrence.start recurrence <=? endRange)); cbn [andb]; [|reflexivity].
  unfold onDate at 1. cbn [List.filter overrideEvent Event.start].
  destruct (bool_decide _); reflexivity.
Qed.



End OverrideClaims.

(** * C5 and C9: all-day spans, and start before end *)

Section SpanFacts.
Import JSDate Luxon RRule Calendar.
Context {iterator : Iterator}.
Variables timezone hostZone : Zone.
Variable now : Z.
Variables startRange endRange : Z.
Variable url : string.
Hypothesis regular : regularZone timezone.

Local Abbreviation localMidnight := (localMidnight timezone).
Local Abbreviation dayOccurrence := (dayOccurrence timezone url).
Local Abbreviation midnightInWindow := (midnightInWindow timezone startRange endRange).

Lemma dayEvent_midnight item k :
  dayEvent timezone url item (localMidnight k) = dayOccurrence item k.
Proof.
  unfold dayEvent, Spec.dayOccurrence, toJSDate.
  now rewrite (endOfDay_midnight timezone regular).
Qed.

(** The loop emits the days of the span in order, when it has the fuel to
    walk them all. *)
Lemma splitDays_spec item fuel : forall n n1,
  splitDays timezone startRange endRange url fuel item (localMidnight n) (localMidnight n1)
  = if (Z.to_nat (n1 - n + 1) <=? fuel)%nat
    then Some (map (dayOccurrence item)
                   (List.filter midnightInWindow (seqZ n (n1 - n + 1))))
    else None.
Proof.
  induction fuel as [|fuel IH]; intros n n1; cbn [splitDays];
    rewrite (localMidnight_leb timezone regular);
    destruct (Z.leb_spec n n1) as [Hle|Hgt].
  - destruct (Nat.leb_spec (Z.to_nat (n1 - n + 1)) 0); [lia | reflexivity].
  - rewrite seqZ_nil by lia. now replace (Z.to_nat (n1 - n + 1)) with 0%nat by lia.
  - rewrite (plusDays_midnight timezone regular), IH.
    replace (n1 - (n + 1) + 1) with (n1 - n) by lia.
    replace (Z.to_nat (n1 - n + 1)) with (S (Z.to_nat (n1 - n))) by lia.
    cbn [Nat.leb].
    destruct (Z.to_nat (n1 - n) <=? fuel)%nat; [|reflexivity].
    rewrite (seqZ_cons n (n1 - n + 1)) by lia.
    replace (Z.pred (n1 - n + 1)) with (n1 - n) by lia.
    replace (Z.succ n) with (n + 1) by lia.
    cbn [List.filter]. unfold Spec.midnightInWindow at 2, toJSDate.
    destruct (_ && _); cbn [map app]; now rewrite ?dayEvent_midnight.
  - rewrite seqZ_nil by lia. now replace (Z.to_nat (n1 - n + 1)) with 0%nat by lia.
Qed.

Lemma dayOccurrence_ordered item k :
  Event.start (dayOccurrence item k) < Event.end_ (dayOccurrence item k).
Proof.
  unfold Spec.dayOccurrence. cbn [Event.start Event.end_].
  pose proof (localMidnight_mono timezone regular k (k + 1)). lia.
Qed.

Lemma filter_all_seqZ (P : Z -> bool) n len :
  (forall k, n <= k < n + len -> P k = true) -> List.filter P (seqZ n len) = seqZ n len.
Proof.
  intros H. apply forallb_filter_id. apply forallb_forall.
  intros k Hk. apply H. apply list_elem_of_In, elem_of_seqZ in Hk. lia.
Qed.

End SpanFacts.

(** * The per-day split where a midnight may be missing *)

Section SteadyDayFacts.
Import JSDate Luxon RRule Calendar.
Variable timezone : Zone.
Variables startRange endRange : Z.
Variable url : string.
Variables lo hi : Z.
Hypothesis ordered : lo <= hi.
Hypothesis near : hi - lo < 720.
Hypothesis offsets : forall t, timezone t = lo \/ timezone t = hi.
Hypothesis resumes : shownDaily timezone ((hi - lo) * 60 * 1000).

Local Abbreviation startsDay := (startsDay timezone ((hi - lo) * 60 * 1000)).

Lemma startOfDay_startsDay ts : startsDay (startOfDay timezone ts).
Proof.
  rewrite startOfDay_eq. exists (epochDay (localTS timezone ts)).
  apply (fixOffset_two timezone lo hi); assumption.
Qed.

(** A day later the loop's day again starts a day: a time pushed past a
    skipped midnight is not pushed a second time. *)
Lemma plusDays_startsDay c : startsDay c -> startsDay (plusDays timezone c 1).
Proof.
  intros [n [H|H]]; rewrite plusDays_eq, H; exists (n + 1).
  - destruct (fixOffset_two timezone lo hi (n * msPerDay + 1 * msPerDay) c ordered offsets)
      as [E|E]; [left | right]; rewrite E; lia.
  - right.
    assert (Htwo : twoOffsets timezone) by (exists lo, hi; exact offsets).
    assert (Hex : exists t,
               reads timezone (n * msPerDay + (hi - lo) * 60 * 1000 + 1 * msPerDay) t).
    { destruct (resumes (n + 1)) as [t Ht]. exists t.
      unfold reads in *. rewrite Ht. lia. }
    pose proof (fixOffset_reads timezone _ c Htwo Hex) as Hr.
    unfold reads in Hr. rewrite Hr. lia.
Qed.

(** The day's last millisecond comes after the day's start. *)
Lemma endOfDay_after c : startsDay c -> c < endOfDay timezone c.
Proof.
  intros [n Hc]. unfold endOfDay. rewrite plusMillis_add, startOfDay_eq.
  assert (Hnext : epochDay (localTS timezone (plusDays timezone c 1)) = n + 1).
  { rewrite plusDays_eq.
    destruct (fixOffset_two timezone lo hi (localTS timezone c + 1 * msPerDay) c
                            ordered offsets) as [E|E];
      rewrite E; unfold epochDay, msPerDay in *;
      destruct Hc as [-> | ->]; Z.to_euclidean_division_equations; lia. }
  rewrite Hnext.
  destruct (fixOffset_two timezone lo hi ((n + 1) * msPerDay)
                          (plusDays timezone c 1) ordered offsets) as [E|E];
    revert E; generalize (fst (fixOffset ((n + 1) * msPerDay)
                                         (timezone (plusDays timezone c 1)) timezone));
    intros s E; unfold localTS, msPerDay in *;
    destruct (offsets s), (offsets c), Hc; lia.
Qed.

Lemma splitDays_ordered item fuel : forall currentDay lastDay evs,
  startsDay currentDay ->
  splitDays timezone startRange endRange url fuel item currentDay lastDay = Some evs ->
  Forall (fun e => Event.start e < Event.end_ e) evs.
Proof.
  induction fuel as [|fuel IH]; intros currentDay lastDay evs Hday; cbn [splitDays];
    destruct (currentDay <=? lastDay); try discriminate;
    try (intros [= <-]; constructor).
  destruct (splitDays _ _ _ _ fuel item _ lastDay) as [rest|] eqn:Er; [|discriminate].
  intros [= <-]. apply Forall_app. split.
  - destruct (_ && _); [|constructor].
    constructor; [|constructor]. unfold dayEvent, toJSDate. cbn [Event.start Event.end_].
    now apply endOfDay_after.
  - exact (IH _ _ _ (plusDays_startsDay _ Hday) Er).
Qed.

End SteadyDayFacts.

Section SpanClaims.
Import JSDate Luxon RRule Calendar.

(** C5, as stated, fails in a zone whose daylight time starts at local
    midnight.  In Havana, a three-day event over March 9th, 2025 (a day
    that begins at 01:00) yields two occurrences: the second starts at
    01:00, and from there on the loop's day no longer is a midnight, so
    the last day is never reached. *)
Lemma C5_midnight_gap_counterexample :
  localDay Zones.havana (Item.end_ Examples.trip - 1)
  - localDay Zones.havana (Item.start Examples.trip) + 1 = 3
  /\ exists evs,
      processItem (iterator := RRule.model) Zones.havana Zones.newYork
                  (Examples.utcTime 2025 3 5 12 0)
                  (Examples.utcTime 2025 3 1 5 0) (Examples.utcTime 2025 3 20 4 0)
                  Examples.feedUrl 8 Examples.trip
      = ([], Returned evs)
      /\ length evs = 2%nat
      /\ map (fun e => toISODate Zones.havana (Event.start e)) evs
         = [(2025, 3, 8); (2025, 3, 9)]
      /\ map (fun e => hour (toObject Zones.havana (Event.start e))) evs = [0; 1].
Proof.
  split; [vm_compute; reflexivity|].
  eexists. split; [vm_compute; reflexivity|].
  split; [reflexivity|]. split; vm_compute; reflexivity.
Qed.

(** C5, amended: in a zone whose local midnights all exist and are unique,
    a non-recurring all-day event that spans the local days [n0] to [n1]
    yields one occurrence per day whose local midnight lies within
    [startRange, endRange], in order of the days; each starts at the local
    midnight of its day, ends one millisecond before the next local
    midnight and has [allDay = true].  When the window holds every
    midnight of the span there are exactly N = n1 - n0 + 1 of them, on N
    consecutive days.  (The loop needs N iterations.) *)
Theorem C5_all_day_span_split
  (iterator : Iterator) (timezone hostZone : Zone) (now startRange endRange : Z)
  (url : string) (fuel : nat) (item : Item.t) :
  regularZone timezone ->
  Item.rrule item = None ->
  Item.datetype item = date ->
  Item.start item < Item.end_ item - 1 ->
  let n0 := localDay timezone (Item.start item) in
  let n1 := localDay timezone (Item.end_ item - 1) in
  (Z.to_nat (n1 - n0 + 1) <= fuel)%nat ->
  exists evs,
    processItem timezone hostZone now startRange endRange url fuel item = ([], Returned evs)
    /\ evs = map (dayOccurrence timezone url item)
                 (List.filter (midnightInWindow timezone startRange endRange)
                              (seqZ n0 (n1 - n0 + 1)))
    /\ Forall (fun e => exists k,
                 n0 <= k <= n1
                 /\ startRange <= Event.start e <= endRange
                 /\ midnight timezone k (Event.start e)
                 /\ midnight timezone (k + 1) (Event.end_ e + 1)
                 /\ Event.allDay e = Present true) evs
    /\ ((forall k, n0 <= k <= n1 ->
                   startRange <= localMidnight timezone k <= endRange) ->
        length evs = Z.to_nat (n1 - n0 + 1)
        /\ map (fun e => localDay timezone (Event.start e)) evs = seqZ n0 (n1 - n0 + 1)).
Proof.
  intros regular Hr Hd Hlt n0 n1 Hfuel.
  eexists. split; [|split; [reflexivity|split]].
  - unfold processItem, nonRecurring. rewrite Hr, Hd.
    unfold adjustEndForAllDayEvents. rewrite Hd.
    apply Z.ltb_lt in Hlt. rewrite Hlt. cbn [andb]. unfold fromJSDate.
    rewrite !(startOfDay_midnight timezone regular).
    rewrite (splitDays_spec timezone startRange endRange url regular).
    fold n0 n1. apply Nat.leb_le in Hfuel. now rewrite Hfuel.
  - apply List.Forall_forall. intros e He.
    apply in_map_iff in He. destruct He as (k & <- & Hk).
    apply filter_In in Hk. destruct Hk as [Hk Hw].
    apply list_elem_of_In, elem_of_seqZ in Hk.
    unfold midnightInWindow in Hw. apply andb_prop in Hw. destruct Hw as [H1 H2].
    apply Z.leb_le in H1, H2.
    exists k. unfold dayOccurrence. cbn [Event.start Event.end_ Event.allDay].
    repeat split; try lia.
    + apply (localMidnight_midnight timezone regular).
    + replace (localMidnight timezone (k + 1) - 1 + 1) with (localMidnight timezone (k + 1))
        by lia.
      apply (localMidnight_midnight timezone regular).
  - intros Hall.
    rewrite filter_all_seqZ.
    2:{ intros k Hk. unfold midnightInWindow.
        destruct (Hall k) as [H1 H2]; [lia|].
        apply Z.leb_le in H1, H2. now rewrite H1, H2. }
    split; [now rewrite length_map, length_seqZ|].
    rewrite map_map. unfold dayOccurrence. cbn [Event.start].
    erewrite map_ext; [apply map_id|].
    intros k. apply (localDay_midnight timezone regular).
Qed.

Lemma C5_all_day_span_witness :
  Examples.utcTime 2024 11 4 5 0 < Examples.utcTime 2024 11 7 5 0 - 1
  /\ exists evs,
      processItem (iterator := RRule.model) Zones.newYork Zones.newYork
                  (Examples.utcTime 2024 11 5 12 0)
                  Examples.novemberStart Examples.novemberEnd Examples.feedUrl 8
                  Examples.vacation
      = ([], Returned evs)
      /\ length evs = 3%nat
      /\ map Event.start evs
         = [Examples.utcTime 2024 11 4 5 0; Examples.utcTime 2024 11 5 5 0;
            Examples.utcTime 2024 11 6 5 0].
Proof.
  assert (Hlt : Item.start Examples.vacation < Item.end_ Examples.vacation - 1)
    by (vm_compute; reflexivity).
  split; [exact Hlt|].
  assert (Hfuel : (Z.to_nat (localDay Zones.newYork (Item.end_ Examples.vacation - 1)
                             - localDay Zones.newYork (Item.start Examples.vacation) + 1)
                   <= 8)%nat)
    by (vm_compute; repeat constructor).
  destruct (C5_all_day_span_split RRule.model Zones.newYork Zones.newYork
              (Examples.utcTime 2024 11 5 12 0)
              Examples.novemberStart Examples.novemberEnd Examples.feedUrl 8
              Examples.vacation newYork_regular eq_refl eq_refl Hlt Hfuel)
    as (evs & Hp & He & _ & _).
  exists evs. split; [exact Hp|].
  rewrite He. split; vm_compute; reflexivity.
Defined.




End SpanClaims.

(** * C1: the wall clock of recurring timed events *)

Section WallClockClaims.
Import JSDate Luxon RRule Calendar.

(** C1, as stated, fails: a 02:30 event repeating daily from March 8th,
    2025 in New York has an occurrence on March 9th, when the clocks jump
    from 02:00 to 03:00; it starts at 03:30. *)
Lemma C1_spring_gap_counterexample :
  exists e,
    In e (timedRecurring (iterator := RRule.model) Zones.newYork
            (Examples.utcTime 2025 3 7 5 0) (Examples.utcTime 2025 3 11 4 0)
            Examples.feedUrl Examples.springDstEvent
            (Examples.dailyThree (Examples.utcTime 2025 3 8 7 30)))
    /\ hour (toObject Zones.newYork (Item.start Examples.springDstEvent)) = 2
    /\ hour (toObject Zones.newYork (Event.start e)) = 3.
Proof.
  eexists. split; [vm_compute; right; left; reflexivity|].
  split; vm_compute; reflexivity.
Qed.

(** C1, amended: in a zone with two offsets, an occurrence generated from
    the base rule starts at the anchor's local hour, minute and second on
    the candidate's local date whenever the clocks show that time on that
    date; when they do not (the time is skipped by a spring-forward gap),
    the start reads that time pushed forward by the gap, the difference
    between the zone's two offsets; and the weekly Tuesday 20:30 New York
    scenario yields exactly the two stated UTC starts. *)
Theorem C1_wall_clock_preserved
  (timezone : Zone) (url : string) (item : Item.t) (d : Z) :
  twoOffsets timezone ->
  ((exists t,
       reads timezone
             (localDay timezone d * msPerDay
              + clockMs (hour (toObject timezone (Item.start item)))
                        (minute (toObject timezone (Item.start item)))
                        (second (toObject timezone (Item.start item)))
                        (millisecond (toObject timezone d)))
             t) ->
   hour (toObject timezone (Event.start (baseEvent timezone url item d)))
   = hour (toObject timezone (Item.start item))
   /\ minute (toObject timezone (Event.start (baseEvent timezone url item d)))
      = minute (toObject timezone (Item.start item))
   /\ second (toObject timezone (Event.start (baseEvent timezone url item d)))
      = second (toObject timezone (Item.start item))
   /\ toISODate timezone (Event.start (baseEvent timezone url item d))
      = toISODate timezone d)
  /\ ((forall t,
         ~ reads timezone
                 (localDay timezone d * msPerDay
                  + clockMs (hour (toObject timezone (Item.start item)))
                            (minute (toObject timezone (Item.start item)))
                            (second (toObject timezone (Item.start item)))
                            (millisecond (toObject timezone d)))
                 t) ->
      exists t1 t2,
        timezone t1 < timezone t2
        /\ reads timezone
                 (localDay timezone d * msPerDay
                  + clockMs (hour (toObject timezone (Item.start item)))
                            (minute (toObject timezone (Item.start item)))
                            (second (toObject timezone (Item.start item)))
                            (millisecond (toObject timezone d))
                  + (timezone t2 - timezone t1) * 60 * 1000)
                 (Event.start (baseEvent timezone url item d)))
  /\ map Event.start
         (timedRecurring (iterator := RRule.model) Zones.newYork
            (Examples.utcTime 2024 10 28 4 0) (Examples.utcTime 2024 11 6 5 0)
            Examples.feedUrl Examples.recurringDstEvent Examples.weeklyTuesday)
     = [Examples.utcTime 2024 10 30 0 30; Examples.utcTime 2024 11 6 1 30].
Proof.
  intros Htwo.
  assert (Hstart : Event.start (baseEvent timezone url item d)
                   = fst (fixOffset
                            (localDay timezone d * msPerDay
                             + clockMs (hour (toObject timezone (Item.start item)))
                                       (minute (toObject timezone (Item.start item)))
                                       (second (toObject timezone (Item.start item)))
                                       (millisecond (toObject timezone d)))
                            (timezone d) timezone)).
  { unfold baseEvent, toJSDate, correctedStart, fromJSDate. cbn [Event.start].
    now rewrite setHMS_eq. }
  rewrite Hstart.
  set (w := toObject timezone (Item.start item)) in *.
  set (ms := millisecond (toObject timezone d)) in *.
  set (L := localDay timezone d * msPerDay + clockMs (hour w) (minute w) (second w) ms) in *.
  split; [|split; [|vm_compute; reflexivity]].
  - intros Hex.
    pose proof (fixOffset_reads timezone L d Htwo Hex) as Hr.
    set (ts := fst (fixOffset L (timezone d) timezone)) in *.
    unfold reads, localTS in Hr.
    assert (Hv : validClock (hour w) (minute w) (second w) ms).
    { pose proof (tsToObj_clock (Item.start item) (timezone (Item.start item))) as [Hw _].
      pose proof (tsToObj_clock d (timezone d)) as [Hd _].
      unfold validClock in *. unfold w, ms, toObject. tauto. }
    pose proof (clock_of_local (localDay timezone d) _ _ _ _ ts (timezone ts) Hv Hr)
      as (Hh & Hmi & Hs & _ & Hdate).
    unfold toISODate, toObject. rewrite Hh, Hmi, Hs, Hdate.
    repeat split; try (symmetry; apply tsToObj_date).
  - intros Hnone. exact (fixOffset_gap timezone L d Htwo Hnone).
Qed.

Lemma C1_wall_clock_witness :
  twoOffsets Zones.newYork
  /\ (hour (toObject Zones.newYork
              (Event.start (baseEvent Zones.newYork Examples.feedUrl
                                      Examples.recurringDstEvent
                                      (Examples.utcTime 2024 11 6 0 30))))
      = 20
      /\ minute (toObject Zones.newYork
                   (Event.start (baseEvent Zones.newYork Examples.feedUrl
                                           Examples.recurringDstEvent
                                           (Examples.utcTime 2024 11 6 0 30))))
         = 30)
  /\ reads Zones.newYork
           (localDay Zones.newYork (Examples.utcTime 2025 3 9 7 30) * msPerDay
            + clockMs 2 30 0 0 + 60 * 60 * 1000)
           (Event.start (baseEvent Zones.newYork Examples.feedUrl Examples.springDstEvent
                                   (Examples.utcTime 2025 3 9 7 30))).
Proof.
  assert (Htwo : twoOffsets Zones.newYork) by apply newYork_regular.
  split; [exact Htwo|]. split.
  - destruct (C1_wall_clock_preserved Zones.newYork Examples.feedUrl
                Examples.recurringDstEvent (Examples.utcTime 2024 11 6 0 30) Htwo)
      as [Hshown _].
    destruct Hshown as (Hh & Hmi & _).
    + exists (Examples.utcTime 2024 11 6 1 30). vm_compute. reflexivity.
    + rewrite Hh, Hmi. split; vm_compute; reflexivity.
  - destruct (C1_wall_clock_preserved Zones.newYork Examples.feedUrl
                Examples.springDstEvent (Examples.utcTime 2025 3 9 7 30) Htwo)
      as [_ [Hgap _]].
    assert (HL : localDay Zones.newYork (Examples.utcTime 2025 3 9 7 30) * msPerDay
                 + clockMs (hour (toObject Zones.newYork
                                           (Item.start Examples.springDstEvent)))
                           (minute (toObject Zones.newYork
                                             (Item.start Examples.springDstEvent)))
                           (second (toObject Zones.newYork
                                             (Item.start Examples.springDstEvent)))
                           (millisecond (toObject Zones.newYork
                                                  (Examples.utcTime 2025 3 9 7 30)))
                 = 1741487400000) by (vm_compute; reflexivity).
    assert (HL' : localDay Zones.newYork (Examples.utcTime 2025 3 9 7 30) * msPerDay
                  + clockMs 2 30 0 0 = 1741487400000) by (vm_compute; reflexivity).
    rewrite HL in Hgap. rewrite HL'.
    destruct Hgap as (t1 & t2 & Hlt & Hr).
    + intros t Ht. unfold reads, localTS in Ht.
      destruct (newYork_values t) as [E|E]; rewrite E in Ht.
      * assert (Ht' : t = 1741501800000) by lia. rewrite Ht' in E.
        vm_compute in E. discriminate.
      * assert (Ht' : t = 1741505400000) by lia. rewrite Ht' in E.
        vm_compute in E. discriminate.
    + replace (60 * 60 * 1000) with ((Zones.newYork t2 - Zones.newYork t1) * 60 * 1000);
        [exact Hr|].
      destruct (newYork_values t1) as [E1|E1], (newYork_values t2) as [E2|E2];
        rewrite E1, E2 in *; lia.
Defined.

End WallClockClaims.

(** * C4: yearly rules without a month *)

Section YearlyFacts.
Import JSDate Luxon RRule Calendar.

Lemma scan_matches o f fuel : forall n left t,
  In t (scan o f fuel n left) ->
  exists k, t = k * msPerDay + msOfDay (dtstart o) /\ matches o f k = true.
Proof.
  induction fuel as [|fuel IH]; intros n left t Hin; [contradiction|].
  cbn [scan] in Hin. unfold visit in Hin.
  destruct (match left with Some k => k <=? 0 | None => false end); [contradiction|].
  destruct (match until o with Some u => _ | None => false end); [contradiction|].
  destruct (maxDay <? n); [contradiction|].
  destruct (matches o f n) eqn:Em.
  - destruct Hin as [<-|Hin]; [now exists n | now apply IH in Hin].
  - now apply IH in Hin.
Qed.

Lemma modelBetween_matches p f a b t :
  freq p = Some f ->
  In t (between (RRule.model p) a b) ->
  exists k, t = k * msPerDay + msOfDay (dtstart p) /\ matches p f k = true.
Proof.
  intros Hf Hin. unfold RRule.model, iterate in Hin. rewrite Hf in Hin.
  cbn [between] in Hin. unfold modelBetween in Hin.
  apply filter_In in Hin. destruct Hin as [Hin _]. now apply scan_matches in Hin.
Qed.

(** A rule restricted to one month fires in that month only. *)
Lemma matches_month p f k M :
  bymonth p = Some [M] -> matches p f k = true ->
  exists y d, civilFromDays k = (y, M, d).
Proof.
  intros Hb Hm. unfold matches in Hm.
  destruct (civilFromDays k) as [[y m] d].
  rewrite Hb in Hm. cbn [allows existsb] in Hm.
  apply andb_prop in Hm. destruct Hm as [Hm _].
  apply andb_prop in Hm. destruct Hm as [Hm _].
  apply andb_prop in Hm. destruct Hm as [_ Hm].
  rewrite orb_false_r in Hm. apply Z.eqb_eq in Hm. subst m. now exists y, d.
Qed.

Lemma parseOptions_yearly_month o p M :
  freq o = Some YEARLY -> bymonth o = Some [M] -> parseOptions o = Some p ->
  freq p = Some YEARLY /\ bymonth p = Some [M].
Proof.
  intros Hf Hb. unfold parseOptions. rewrite Hf.
  destruct (civilFromDays _) as [[y m] d].
  destruct (_ || _); intros H; injection H as <-; cbn [freq bymonth]; rewrite ?Hb; auto.
Qed.

Lemma toObject_utc_date k r :
  0 <= r < msPerDay ->
  (year (toObject utc (k * msPerDay + r)), month (toObject utc (k * msPerDay + r)),
   day (toObject utc (k * msPerDay + r)))
  = civilFromDays k.
Proof.
  intros Hr. unfold toObject, utc. rewrite tsToObj_date.
  replace (k * msPerDay + r + 0 * 60 * 1000) with (k * msPerDay + r) by lia.
  now rewrite epochDay_unique.
Qed.

End YearlyFacts.

Section YearlyClaims.
Import JSDate Luxon RRule Calendar.

(** C4: the code at the failing input.  The yearly rule BYMONTHDAY=8
    without BYMONTH, anchored December 8th, 2024 and queried over
    [2024-11-01, 2025-02-01) in New York.  On an all-day event the month
    of the start is injected (lines 233-239) and the one occurrence is
    December 8th.  On a timed event, 10:00 to 11:00, the sibling path
    (lines 77-198) injects nothing and the series fires on the 8th of
    every month of the window: December 8th and January 8th. *)
Theorem C4_timed_yearly_fires_every_month :
  (exists evs,
      processItem (iterator := RRule.model) Zones.newYork Zones.newYork
                  (Examples.utcTime 2024 11 5 12 0)
                  (Examples.utcTime 2024 11 1 4 0) (Examples.utcTime 2025 2 1 5 0)
                  Examples.feedUrl 8 Examples.faultyAnnualEvent
      = ([], Returned evs)
      /\ map (fun e => toISODate Zones.newYork (Event.start e)) evs = [(2024, 12, 8)])
  /\ (exists evs,
         processItem (iterator := RRule.model) Zones.newYork Zones.newYork
                     (Examples.utcTime 2024 11 5 12 0)
                     (Examples.utcTime 2024 11 1 4 0) (Examples.utcTime 2025 2 1 5 0)
                     Examples.feedUrl 8 Examples.timedAnnualEvent
         = ([], Returned evs)
         /\ map (fun e => toISODate Zones.newYork (Event.start e)) evs
            = [(2024, 12, 8); (2025, 1, 8)]
         /\ map (fun e => hour (toObject Zones.newYork (Event.start e))) evs = [10; 10]).
Proof.
  split; eexists; (split; [vm_compute; reflexivity|]).
  - vm_compute. reflexivity.
  - split; vm_compute; reflexivity.
Qed.

(** X30: for an all-day recurring event whose rule is YEARLY without a
    month, the options handed to the iterator carry
    [bymonth = [month of the start]] (the host's month of [item.start]),
    and, in a zone with regular day boundaries, every occurrence falls in
    that month. *)
Theorem yearly_all_day_month_injected
  (timezone hostZone : Zone) (now startRange endRange : Z)
  (url : string) (fuel : nat) (item : Item.t) (r : RRuleObj) :
  regularZone timezone ->
  Item.rrule item = Some r ->
  Item.datetype item = date ->
  freq (ruleOptions item r) = Some YEARLY ->
  bymonth (ruleOptions item r) = None ->
  bymonth (normalize hostZone item (ruleOptions item r))
  = Some [getMonth hostZone (Item.start item) + 1]
  /\ (exists evs,
         processItem (iterator := RRule.model) timezone hostZone now startRange endRange
                     url fuel item
         = ([], Returned evs)
         /\ Forall (fun e => month (toObject timezone (Event.start e))
                             = getMonth hostZone (Item.start item) + 1) evs).
Proof.
  intros regular Hr Hd Hf Hb.
  assert (Hn : normalize hostZone item (ruleOptions item r)
               = mkOptions (Some YEARLY) (Item.start item)
                           (interval (ruleOptions item r)) (count (ruleOptions item r))
                           (until (ruleOptions item r)) (byweekday (ruleOptions item r))
                           (bymonthday (ruleOptions item r))
                           (Some [getMonth hostZone (Item.start item) + 1])).
  { unfold normalize. rewrite Hf, Hb. reflexivity. }
  split; [now rewrite Hn|].
  destruct (parseOptions (normalize hostZone item (ruleOptions item r))) as [p|] eqn:Ep.
  2:{ apply parseOptions_freq in Ep. rewrite Hn in Ep. discriminate. }
  eexists. split.
  - unfold processItem. rewrite Hr, Hd.
    apply (allDayRecurring_returned (iterator := RRule.model)).  exact Ep.
  - assert (Hfn : freq (normalize hostZone item (ruleOptions item r)) = Some YEARLY)
      by now rewrite Hn.
    assert (Hbn : bymonth (normalize hostZone item (ruleOptions item r))
                  = Some [getMonth hostZone (Item.start item) + 1])
      by now rewrite Hn.
    destruct (parseOptions_yearly_month _ p _ Hfn Hbn Ep) as [Hfp Hbp].
    destruct (seriesInRange _ _ _); [|constructor].
    apply List.Forall_forall. intros e He.
    apply in_allDayEvents in He. destruct He as (d & Hin & _ & _ & ->).
    apply (modelBetween_matches p YEARLY) in Hin; [|exact Hfp].
    destruct Hin as (k & -> & Hm).
    destruct (matches_month p YEARLY k _ Hbp Hm) as (y & dd & Hc).
    unfold allDayEvent, toJSDate, localOccurrence, fromJSDate. cbn [Event.start].
    pose proof (toObject_utc_date k (msOfDay (dtstart p)) (msOfDay_range _)) as Hu.
    rewrite Hc in Hu.
    pose proof (f_equal (fun t => fst (fst t)) Hu) as Hy.
    pose proof (f_equal (fun t => snd (fst t)) Hu) as Hmo.
    pose proof (f_equal snd Hu) as Hdd.
    cbn [fst snd] in Hy, Hmo, Hdd. rewrite Hy, Hmo, Hdd.
    rewrite (fromObject_midnight timezone regular now k y _ dd Hc).
    rewrite (toObject_midnight timezone regular), Hc. reflexivity.
Qed.

Lemma yearly_all_day_month_injected_witness :
  freq (ruleOptions Examples.faultyAnnualEvent
                    (Examples.yearlyDay8 (Examples.utcTime 2024 12 8 5 0)))
  = Some YEARLY
  /\ bymonth (normalize Zones.newYork Examples.faultyAnnualEvent
                (ruleOptions Examples.faultyAnnualEvent
                             (Examples.yearlyDay8 (Examples.utcTime 2024 12 8 5 0))))
     = Some [12].
Proof.
  split; [reflexivity|].
  rewrite (proj1 (yearly_all_day_month_injected Zones.newYork Zones.newYork
                    (Examples.utcTime 2024 11 5 12 0)
                    (Examples.utcTime 2024 11 1 4 0) (Examples.utcTime 2025 2 1 5 0)
                    Examples.feedUrl 8 Examples.faultyAnnualEvent
                    (Examples.yearlyDay8 (Examples.utcTime 2024 12 8 5 0))
                    newYork_regular eq_refl eq_refl eq_refl eq_refl)).
  vm_compute. reflexivity.
Defined.

End YearlyClaims.

(** * The feed cache and the loop over the feeds *)

Section CacheProperties.
Import JSDate Luxon RRule Calendar.

(** X1: a feed fetched after a cache miss onto a writable disk is served
    from the cache file by every call made less than 20 minutes later:
    the same text, nothing printed, the cache left as it is, whatever the
    network would answer by then. *)
Theorem getCachedData_hit_after_fetch
  (w w' : World) (url data : string) (cache : gmap string (Z * string)) :
  (forall mtimeMs old, cache !! url = Some (mtimeMs, old) ->
                       CACHE_TTL_MS <= clock w - mtimeMs) ->
  network w url = Resolved data ->
  diskWritable w = true ->
  clock w' - clock w < CACHE_TTL_MS ->
  fst (getCachedData w url cache) = ([LogCacheMiss url], Returned data)
  /\ getCachedData w' url (snd (getCachedData w url cache))
     = (([], Returned data), snd (getCachedData w url cache)).
Proof.
  intros Hmiss Hnet Hdisk Hsoon.
  assert (Hfetch : getCachedData w url cache = fetchFresh w url cache).
  { unfold getCachedData. destruct (cache !! url) as [[m old]|] eqn:El; [|reflexivity].
    specialize (Hmiss m old eq_refl).
    destruct (Z.ltb_spec (clock w - m) CACHE_TTL_MS); [lia | reflexivity]. }
  rewrite Hfetch. unfold fetchFresh. rewrite Hnet, Hdisk. cbn [fst snd].
  split; [reflexivity|].
  unfold getCachedData. rewrite lookup_insert_eq.
  destruct (Z.ltb_spec (clock w' - clock w) CACHE_TTL_MS); [reflexivity | lia].
Qed.

Lemma getCachedData_hit_after_fetch_witness :
  fst (getCachedData Examples.oneFeedDown Examples.goodUrl ∅)
  = ([LogCacheMiss Examples.goodUrl], Returned "BEGIN:VCALENDAR"%string)
  /\ getCachedData (mkWorld (clock Examples.oneFeedDown + 60000) (fun _ => Rejected) false)
                   Examples.goodUrl
                   (snd (getCachedData Examples.oneFeedDown Examples.goodUrl ∅))
     = (([], Returned "BEGIN:VCALENDAR"%string),
        snd (getCachedData Examples.oneFeedDown Examples.goodUrl ∅)).
Proof.
  refine (getCachedData_hit_after_fetch
            Examples.oneFeedDown
            (mkWorld (clock Examples.oneFeedDown + 60000) (fun _ => Rejected) false)
            Examples.goodUrl "BEGIN:VCALENDAR" ∅ _ eq_refl eq_refl _).
  - intros m old Hl. rewrite lookup_empty in Hl. discriminate.
  - cbn [clock]. unfold CACHE_TTL_MS. lia.
Defined.

(** X2: the call fails exactly when no cache file younger than 20 minutes
    exists and the request is rejected, and it never settles exactly when
    no such file exists and the request never settles (it is made without
    a timeout); an older copy is not served in place of the answer, and
    in both cases the cache is left as it was. *)
Theorem getCachedData_fails_iff
  (w : World) (url : string) (cache : gmap string (Z * string)) :
  ((exists e, snd (fst (getCachedData w url cache)) = Thrown e)
   <-> (network w url = Rejected
        /\ forall mtimeMs old, cache !! url = Some (mtimeMs, old) ->
                               CACHE_TTL_MS <= clock w - mtimeMs))
  /\ (snd (fst (getCachedData w url cache)) = Diverged
      <-> (network w url = Pending
           /\ forall mtimeMs old, cache !! url = Some (mtimeMs, old) ->
                                  CACHE_TTL_MS <= clock w - mtimeMs))
  /\ (forall e, snd (fst (getCachedData w url cache)) = Thrown e -> e = RequestFailed url)
  /\ ((forall data, snd (fst (getCachedData w url cache)) <> Returned data) ->
      snd (getCachedData w url cache) = cache).
Proof.
  assert (Hfresh : forall c,
             ((exists e, snd (fst (fetchFresh w url c)) = Thrown e)
              <-> network w url = Rejected)
             /\ (snd (fst (fetchFresh w url c)) = Diverged <-> network w url = Pending)
             /\ (forall e, snd (fst (fetchFresh w url c)) = Thrown e -> e = RequestFailed url)
             /\ ((forall data, snd (fst (fetchFresh w url c)) <> Returned data) ->
                 snd (fetchFresh w url c) = c)).
  { intros c. unfold fetchFresh. destruct (network w url) as [data| |].
    - destruct (diskWritable w); cbn [fst snd];
        (split; [split; [intros [e He]|]; discriminate|]);
        (split; [split; discriminate|]);
        (split; [discriminate|]);
        intros Hno; now specialize (Hno data).
    - cbn [fst snd]. split; [split; [reflexivity | eauto]|].
      split; [split; discriminate|]. split; [now intros e [= <-] | reflexivity].
    - cbn [fst snd]. split; [split; [intros [e He]|]; discriminate|].
      split; [split; reflexivity|]. split; [discriminate | reflexivity]. }
  unfold getCachedData. destruct (cache !! url) as [[m old]|] eqn:El.
  - destruct (Z.ltb_spec (clock w - m) CACHE_TTL_MS) as [Hlt|Hge].
    + cbn [fst snd ret].
      split; [split; [intros [e He]; discriminate|]|].
      { intros [_ Hold]. specialize (Hold m old eq_refl). lia. }
      split; [split; [discriminate|]|].
      { intros [_ Hold]. specialize (Hold m old eq_refl). lia. }
      split; [discriminate | reflexivity].
    + destruct (Hfresh cache) as (Ht & Hd & He & Hc).
      assert (Hold : forall m' old', Some (m, old) = Some (m', old') ->
                                     CACHE_TTL_MS <= clock w - m')
        by (intros m' old' [= <- <-]; exact Hge).
      split; [rewrite Ht; tauto|]. split; [rewrite Hd; tauto|]. split; assumption.
  - destruct (Hfresh cache) as (Ht & Hd & He & Hc).
    assert (Hold : forall m' old', @None (Z * string) = Some (m', old') ->
                                   CACHE_TTL_MS <= clock w - m')
      by (intros m' old' [=]).
    split; [rewrite Ht; tauto|]. split; [rewrite Hd; tauto|]. split; assumption.
Qed.

End CacheProperties.

Section LoopProperties.
Import JSDate Luxon RRule Calendar.
Context {iterator : Iterator}.
Variable w : World.
Variable hostZone : Zone.
Variable parseICS : string -> Outcome (list Component).
Variable fuel : nat.
Variable timezone : Zone.
Variables startRange endRange : Z.

Local Abbreviation aggregate :=
  (getCalendarEventsFromUrls w hostZone parseICS fuel timezone startRange endRange).

Lemma processed_app l l' : processed (l ++ l') = processed l ++ processed l'.
Proof. unfold processed. apply flat_map_app. Qed.

Lemma processed_cons url l : processed (LogProcessing url :: l) = url :: processed l.
Proof. reflexivity. Qed.

Lemma processItem_log now url item l r :
  processItem timezone hostZone now startRange endRange url fuel item = (l, r) ->
  processed l = [].
Proof.
  unfold processItem.
  destruct (Item.rrule item) as [rule|]; [destruct (Item.datetype item)|].
  - unfold allDayRecurring, newRRule.
    destruct (isPresent _), (parseOptions _); cbn [bind ret warn throw];
      try (intros [= <- _]; reflexivity).
    all: destruct (after _ _) as [next|]; [destruct (_ <? _)|];
      cbn; intros [= <- _]; reflexivity.
  - intros [= <- _]. reflexivity.
  - unfold nonRecurring. destruct (_ && _).
    + destruct (splitDays _ _ _ _ _ _ _ _); intros [= <- _]; reflexivity.
    + destruct (_ && _); intros [= <- _]; reflexivity.
Qed.

Lemma parseComponents_log now url parsedData : forall l r,
  parseComponents timezone hostZone now startRange endRange url fuel parsedData = (l, r) ->
  processed l = [].
Proof.
  induction parsedData as [|[item|] rest IH]; intros l r; cbn [parseComponents].
  - intros [= <- _]. reflexivity.
  - destruct (processItem _ _ _ _ _ _ _ item) as [l1 r1] eqn:E1.
    apply processItem_log in E1.
    destruct (parseComponents _ _ _ _ _ _ _ rest) as [l2 r2] eqn:E2.
    specialize (IH l2 r2 eq_refl).
    destruct r1 as [evs|e|]; cbn [bind]; try (intros [= <- _]; exact E1).
    destruct r2 as [more|e|]; cbn [bind ret]; intros [= <- _];
      rewrite ?processed_app, E1, IH; reflexivity.
  - apply IH.
Qed.

Lemma parseIcsData_log now url icsData l r :
  parseIcsData timezone hostZone now startRange endRange url parseICS fuel icsData = (l, r) ->
  processed l = [].
Proof.
  unfold parseIcsData. destruct (parseICS icsData) as [parsedData|e|]; cbn [bind].
  - destruct (parseComponents _ _ _ _ _ _ _ parsedData) as [l2 r2] eqn:E2.
    apply parseComponents_log in E2. intros [= <- _]. exact E2.
  - intros [= <- _]. reflexivity.
  - intros [= <- _]. reflexivity.
Qed.

Lemma getCachedData_frame url cache :
  processed (fst (fst (getCachedData w url cache))) = []
  /\ forall u, u <> url -> snd (getCachedData w url cache) !! u = cache !! u.
Proof.
  unfold getCachedData, fetchFresh.
  destruct (cache !! url) as [[m old]|]; [destruct (_ <? _)|];
    try destruct (network w url) as [data| |]; try destruct (diskWritable w); cbn;
    (split; [reflexivity|]); intros u Hu; try reflexivity;
    now rewrite lookup_insert_ne.
Qed.

(** The loop over a list of feeds in two parts: the second part runs on
    the cache the first part left, if the first part returns. *)
Lemma aggregate_app (done rest : list string) : forall cache,
  aggregate (done ++ rest) cache
  = match aggregate done cache with
    | ((l1, Returned evs), cache1) =>
      let '((l2, r), cache2) := aggregate rest cache1 in
      ((l1 ++ l2,
        match r with
        | Returned more => Returned (evs ++ more)
        | Thrown e => Thrown e
        | Diverged => Diverged
        end), cache2)
    | other => other
    end.
Proof.
  induction done as [|url done IH]; intros cache; cbn [app getCalendarEventsFromUrls].
  - cbn [ret]. destruct (aggregate rest cache) as [[l2 [more|e|]] cache2]; reflexivity.
  - destruct (getCachedData w url cache) as [[l r] cache1].
    destruct r as [icsData|e|]; cbn [bind warn app]; try reflexivity.
    destruct (parseIcsData _ _ _ _ _ _ _ _ icsData) as [l2 [evs|e|]]; try reflexivity.
    rewrite IH.
    destruct (aggregate done cache1) as [[l3 [evs3|e|]] cache2]; try reflexivity.
    destruct (aggregate rest cache2) as [[l4 [evs4|e|]] cache3];
      rewrite <- ?app_assoc; cbn [app]; rewrite <- ?app_assoc; reflexivity.
Qed.

(** One feed on its own: the log shows it, and no cache file of another
    feed changes. *)
Lemma aggregate_one url cache :
  processed (fst (fst (aggregate [url] cache))) = [url]
  /\ forall u, u <> url -> snd (aggregate [url] cache) !! u = cache !! u.
Proof.
  cbn [getCalendarEventsFromUrls].
  pose proof (getCachedData_frame url cache) as [Hlog Hframe].
  destruct (getCachedData w url cache) as [[l r] cache1]. cbn [fst snd] in Hlog, Hframe.
  destruct r as [icsData|e|]; cbn [bind warn app fst snd];
    try (rewrite processed_cons, Hlog; split; [reflexivity | exact Hframe]).
  destruct (parseIcsData _ _ _ _ _ _ _ _ icsData) as [l2 r2] eqn:E2.
  apply parseIcsData_log in E2.
  destruct r2 as [evs|e|]; cbn [ret fst snd];
    rewrite processed_cons, !processed_app, Hlog, E2; (split; [reflexivity | exact Hframe]).
Qed.

(** X3: the loop takes the feeds in the order given and stops at the
    first that fails.  When the call returns, every feed was processed.
    When it does not, the list splits into the feeds before the failing
    one, which return together, the failing feed, which does not return
    on the cache they left, and the feeds after it, which play no part:
    the run is that of the list cut after the failing feed, the log shows
    the feeds up to it and none after, and no cache file of another feed
    is touched. *)
Theorem aggregate_stops_at_first_failure (urls : list string) :
  forall cache,
    (forall evs, snd (fst (aggregate urls cache)) = Returned evs ->
                 processed (fst (fst (aggregate urls cache))) = urls)
    /\ ((forall evs, snd (fst (aggregate urls cache)) <> Returned evs) ->
        exists done failing rest evs0,
          urls = done ++ failing :: rest
          /\ snd (fst (aggregate done cache)) = Returned evs0
          /\ (forall evs, snd (fst (aggregate [failing] (snd (aggregate done cache))))
                          <> Returned evs)
          /\ aggregate urls cache = aggregate (done ++ [failing]) cache
          /\ processed (fst (fst (aggregate urls cache))) = done ++ [failing])
    /\ (forall u, ~ In u (processed (fst (fst (aggregate urls cache)))) ->
                  snd (aggregate urls cache) !! u = cache !! u).
Proof.
  induction urls as [|url more IH]; intros cache.
  - cbn. split; [reflexivity|]. split; [|reflexivity].
    intros H. now specialize (H []).
  - change (url :: more) with ([url] ++ more).
    pose proof (aggregate_app [url] more cache) as Happ.
    pose proof (aggregate_one url cache) as [Hlog Hframe].
    destruct (aggregate [url] cache) as [[l1 r1] cache1] eqn:E1. cbn [fst snd] in *.
    destruct r1 as [evsU|e|].
    + specialize (IH cache1). destruct IH as (Hret & Hfail & Hfr).
      destruct (aggregate more cache1) as [[l2 r2] cache2] eqn:E2. cbn [fst snd] in *.
      rewrite Happ. cbn [fst snd]. rewrite processed_app, Hlog.
      split; [|split].
      * intros evs Hr. destruct r2 as [evs2|e|]; try discriminate.
        f_equal. now apply (Hret evs2).
      * intros Hno.
        destruct Hfail as (done & failing & rest & evs0 & Hu & Hd & Hf & Heq & Hp).
        { intros evs2 ->. now apply (Hno (evsU ++ evs2)). }
        exists (url :: done), failing, rest, (evsU ++ evs0).
        change (url :: done) with ([url] ++ done).
        rewrite <- !app_assoc.
        rewrite (aggregate_app [url] done cache), (aggregate_app [url] (done ++ [failing]) cache).
        rewrite E1, <- Heq.
        destruct (aggregate done cache1) as [[ld rd] cd]. cbn [fst snd] in *. subst rd.
        cbn [fst snd]. rewrite Hu, Hp. repeat split; try assumption; reflexivity.
      * intros u Hu. rewrite Hfr by (intros Hin; apply Hu; apply in_or_app; now right).
        apply Hframe. intros ->. apply Hu. now left.
    + rewrite Happ. cbn [fst snd]. rewrite Hlog.
      split; [discriminate|]. split.
      * intros _. exists [], url, more, []. cbn [app].
        change (snd (aggregate [] cache)) with cache. rewrite E1.
        repeat split; try discriminate; reflexivity.
      * intros u Hu. apply Hframe. intros ->. apply Hu. now left.
    + rewrite Happ. cbn [fst snd]. rewrite Hlog.
      split; [discriminate|]. split.
      * intros _. exists [], url, more, []. cbn [app].
        change (snd (aggregate [] cache)) with cache. rewrite E1.
        repeat split; try discriminate; reflexivity.
      * intros u Hu. apply Hframe. intros ->. apply Hu. now left.
Qed.

(** X4: the events of a calendar are those of its VEVENT components one
    after the other, in the order of the components: the run on two lists
    of components one after the other is the run on the first followed,
    if it returns, by the run on the second; and components that are not
    VEVENTs add nothing, neither events nor output: the run is that on
    the VEVENT components alone. *)
Theorem parseComponents_app (now : Z) (url : string) (a b : list Component) :
  parseComponents timezone hostZone now startRange endRange url fuel (a ++ b)
  = bind (parseComponents timezone hostZone now startRange endRange url fuel a)
         (fun evs =>
            bind (parseComponents timezone hostZone now startRange endRange url fuel b)
                 (fun more => ret (evs ++ more)))
  /\ parseComponents timezone hostZone now startRange endRange url fuel a
     = parseComponents timezone hostZone now startRange endRange url fuel
                       (List.filter (fun c => match c with
                                              | VEVENT _ => true
                                              | OtherComponent => false
                                              end) a)
  /\ ((forall item, ~ In (VEVENT item) a) ->
      parseComponents timezone hostZone now startRange endRange url fuel a
      = ([], Returned [])).
Proof.
  split; [|split].
  - induction a as [|[item|] rest IH]; cbn [app parseComponents].
    + destruct (parseComponents _ _ _ _ _ _ _ b) as [l [more|e|]]; cbn;
        now rewrite ?app_nil_r.
    + rewrite IH.
      destruct (processItem _ _ _ _ _ _ _ item) as [l1 [evs|e|]]; cbn [bind];
        try reflexivity.
      destruct (parseComponents _ _ _ _ _ _ _ rest) as [l2 [evs2|e|]]; cbn [bind ret];
        try (now rewrite ?app_nil_r).
      destruct (parseComponents _ _ _ _ _ _ _ b) as [l3 [evs3|e|]]; cbn [bind ret];
        now rewrite ?app_nil_r, <- ?app_assoc.
    + exact IH.
  - induction a as [|[item|] rest IH]; cbn [List.filter parseComponents];
      [reflexivity | now rewrite IH | exact IH].
  - induction a as [|[item|] rest IH]; cbn [parseComponents]; intros Hno.
    + reflexivity.
    + exfalso. apply (Hno item). now left.
    + apply IH. intros item Hin. apply (Hno item). now right.
Qed.

End LoopProperties.

Section LoopWitnesses.
Import JSDate Luxon RRule Calendar.

Lemma aggregate_stops_at_first_failure_witness :
  exists done failing rest evs0,
    [Examples.goodUrl; Examples.downUrl; Examples.goodUrl] = done ++ failing :: rest
    /\ snd (fst (getCalendarEventsFromUrls (iterator := RRule.model)
                   Examples.oneFeedDown Zones.newYork Examples.twoEvents 8
                   Zones.newYork Examples.novemberStart Examples.novemberEnd
                   done ∅))
       = Returned evs0
    /\ processed (fst (fst (getCalendarEventsFromUrls (iterator := RRule.model)
                              Examples.oneFeedDown Zones.newYork Examples.twoEvents 8
                              Zones.newYork Examples.novemberStart Examples.novemberEnd
                              [Examples.goodUrl; Examples.downUrl; Examples.goodUrl] ∅)))
       = done ++ [failing].
Proof.
  destruct (proj1 (proj2 (aggregate_stops_at_first_failure
                            (iterator := RRule.model)
                            Examples.oneFeedDown Zones.newYork Examples.twoEvents 8
                            Zones.newYork Examples.novemberStart Examples.novemberEnd
                            [Examples.goodUrl; Examples.downUrl; Examples.goodUrl] ∅)))
    as (done & failing & rest & evs0 & Hu & Hd & _ & _ & Hp).
  - intros evs. vm_compute. discriminate.
  - exists done, failing, rest, evs0. split; [exact Hu|]. split; [exact Hd | exact Hp].
Defined.

End LoopWitnesses.

(** * Occurrences in any zone *)

Section OccurrenceProperties.
Import JSDate Luxon RRule Calendar.
Context {iterator : Iterator}.
Variables timezone hostZone : Zone.
Variable now : Z.
Variables startRange endRange : Z.
Variable url : string.

Lemma splitDays_in_window item fuel : forall currentDay lastDay evs,
  splitDays timezone startRange endRange url fuel item currentDay lastDay = Some evs ->
  Forall (fun e => startRange <= Event.start e <= endRange
                   /\ Event.allDay e = Present true
                   /\ Event.title e = Item.summary item
                   /\ Event.calendarUrl e = url) evs.
Proof.
  induction fuel as [|fuel IH]; intros currentDay lastDay evs; cbn [splitDays].
  - destruct (currentDay <=? lastDay); [discriminate|]. intros [= <-]. constructor.
  - destruct (currentDay <=? lastDay); [|intros [= <-]; constructor].
    destruct (splitDays _ _ _ _ fuel item _ lastDay) as [rest|] eqn:Er; [|discriminate].
    intros [= <-]. apply Forall_app. split; [|exact (IH _ _ _ Er)].
    unfold toJSDate.
    destruct (Z.leb_spec startRange currentDay), (Z.leb_spec currentDay endRange);
      cbn [andb]; constructor; [|constructor].
    unfold dayEvent, toJSDate. cbn. repeat split; assumption.
Qed.

(** X5: every occurrence of an all-day event, recurring or spanning
    days, starts inside the window, bounds included, is flagged all-day
    and carries the event's summary and the feed's URL, in any zone and
    with any iterator. *)
Theorem all_day_occurrences_in_window (fuel : nat) (item : Item.t)
  (l : list LogLine) (evs : list Event.t) :
  Item.datetype item = date ->
  (Item.rrule item = None -> Item.start item < Item.end_ item - 1) ->
  processItem timezone hostZone now startRange endRange url fuel item = (l, Returned evs) ->
  Forall (fun e => startRange <= Event.start e <= endRange
                   /\ Event.allDay e = Present true
                   /\ Event.title e = Item.summary item
                   /\ Event.calendarUrl e = url) evs.
Proof.
  intros Hd Hspan. unfold processItem. rewrite Hd.
  destruct (Item.rrule item) as [r|] eqn:Hr.
  - destruct (parseOptions (normalize hostZone item (ruleOptions item r))) as [p|] eqn:Ep.
    + rewrite (allDayRecurring_returned timezone hostZone now startRange endRange url
                 item r p Ep).
      intros [= _ <-]. destruct (seriesInRange _ _ _); [|constructor].
      apply List.Forall_forall. intros e He.
      apply in_allDayEvents in He. destruct He as (d & _ & Hw & _ & ->).
      unfold allDayEvent, toJSDate. cbn. repeat split; lia.
    + unfold allDayRecurring, newRRule. rewrite Ep.
      destruct (isPresent _); discriminate.
  - specialize (Hspan eq_refl). unfold nonRecurring, adjustEndForAllDayEvents.
    rewrite Hd. apply Z.ltb_lt in Hspan. rewrite Hspan. cbn [andb].
    destruct (splitDays _ _ _ _ _ _ _ _) as [days|] eqn:Es; [|discriminate].
    intros [= _ <-]. exact (splitDays_in_window _ _ _ _ _ Es).
Qed.

(** X6: an occurrence generated from the rule of a recurring event lasts
    exactly as long as the event itself, to the millisecond, also when a
    change of offset lies between its start and its end; only override
    records bring their own end. *)
Theorem recurring_duration_preserved (fuel : nat) (item : Item.t) (r : RRuleObj)
  (l : list LogLine) (evs : list Event.t) :
  Item.rrule item = Some r ->
  processItem timezone hostZone now startRange endRange url fuel item = (l, Returned evs) ->
  Forall (fun e =>
            (Item.datetype item = dateTime
             /\ In e (overrideEvents startRange endRange url item))
            \/ Event.end_ e - Event.start e = Item.end_ item - Item.start item) evs.
Proof.
  intros Hr. unfold processItem. rewrite Hr.
  destruct (Item.datetype item) eqn:Hd.
  - destruct (parseOptions (normalize hostZone item (ruleOptions item r))) as [p|] eqn:Ep.
    + rewrite (allDayRecurring_returned timezone hostZone now startRange endRange url
                 item r p Ep).
      intros [= _ <-]. destruct (seriesInRange _ _ _); [|constructor].
      apply List.Forall_forall. intros e He.
      apply in_allDayEvents in He. destruct He as (d & _ & _ & _ & ->).
      right. unfold allDayEvent, toJSDate. cbn. lia.
    + unfold allDayRecurring, newRRule. rewrite Ep.
      destruct (isPresent _); discriminate.
  - intros [= _ <-]. rewrite timedRecurring_eq.
    apply Forall_app. split; apply List.Forall_forall; intros e He.
    + left. now split.
    + destruct (seriesInRange _ _ _); [|contradiction].
      apply in_baseEvents in He. destruct He as (d & _ & _ & _ & ->).
      right. unfold baseEvent, toJSDate, adjustEndForAllDayEvents. rewrite Hd.
      cbn [Event.start Event.end_]. rewrite plusMillis_add. lia.
Qed.

End OccurrenceProperties.

Section OccurrenceWitnesses.
Import JSDate Luxon RRule Calendar.

Lemma all_day_occurrences_in_window_witness :
  Forall (fun e => Examples.novemberStart <= Event.start e <= Examples.novemberEnd
                   /\ Event.allDay e = Present true
                   /\ Event.title e = Item.summary Examples.vacation
                   /\ Event.calendarUrl e = Examples.feedUrl)
         (map (dayOccurrence Zones.newYork Examples.feedUrl Examples.vacation)
              [20031; 20032; 20033]).
Proof.
  refine (all_day_occurrences_in_window
            (iterator := RRule.model) Zones.newYork Zones.newYork
            (Examples.utcTime 2024 11 5 12 0)
            Examples.novemberStart Examples.novemberEnd Examples.feedUrl
            8 Examples.vacation []
            (map (dayOccurrence Zones.newYork Examples.feedUrl Examples.vacation)
                 [20031; 20032; 20033])
            eq_refl _ _).
  - intros _. vm_compute. reflexivity.
  - vm_compute. reflexivity.
Defined.

Lemma recurring_duration_preserved_witness :
  Forall (fun e =>
            (Item.datetype Examples.springDstEvent = dateTime
             /\ In e (overrideEvents (Examples.utcTime 2025 3 7 5 0)
                                              (Examples.utcTime 2025 3 11 4 0)
                                              Examples.feedUrl Examples.springDstEvent))
            \/ Event.end_ e - Event.start e
               = Item.end_ Examples.springDstEvent - Item.start Examples.springDstEvent)
         (timedRecurring (iterator := RRule.model) Zones.newYork
            (Examples.utcTime 2025 3 7 5 0) (Examples.utcTime 2025 3 11 4 0)
            Examples.feedUrl Examples.springDstEvent
            (Examples.dailyThree (Examples.utcTime 2025 3 8 7 30))).
Proof.
  exact (recurring_duration_preserved
           (iterator := RRule.model) Zones.newYork Zones.newYork
           (Examples.utcTime 2024 11 5 12 0)
           (Examples.utcTime 2025 3 7 5 0) (Examples.utcTime 2025 3 11 4 0)
           Examples.feedUrl 8 Examples.springDstEvent
           (Examples.dailyThree (Examples.utcTime 2025 3 8 7 30)) []
           (timedRecurring (iterator := RRule.model) Zones.newYork
              (Examples.utcTime 2025 3 7 5 0) (Examples.utcTime 2025 3 11 4 0)
              Examples.feedUrl Examples.springDstEvent
              (Examples.dailyThree (Examples.utcTime 2025 3 8 7 30)))
           eq_refl eq_refl).
Defined.

End OccurrenceWitnesses.

(** * The wall-clock correction, the clock of the host, the day loop *)

Section CorrectionProperties.
Import JSDate Luxon RRule Calendar.
Local Arguments civilFromDays : simpl never.
Variable timezone : Zone.
Variable url : string.

Lemma fixOffset_guess_right L t :
  L = localTS timezone t -> fixOffset L (timezone t) timezone = (t, timezone t).
Proof.
  intros ->. unfold fixOffset, localTS.
  replace (t + timezone t * 60 * 1000 - timezone t * 60 * 1000) with t by lia.
  now rewrite Z.eqb_refl.
Qed.

Lemma correctedStart_same_clock (item : Item.t) (d : Z) :
  hour (toObject timezone d) = hour (toObject timezone (Item.start item)) ->
  minute (toObject timezone d) = minute (toObject timezone (Item.start item)) ->
  second (toObject timezone d) = second (toObject timezone (Item.start item)) ->
  correctedStart timezone item d = d.
Proof.
  intros Hh Hm Hs.
  unfold correctedStart, fromJSDate. rewrite setHMS_eq, <- Hh, <- Hm, <- Hs.
  unfold toObject at 1 2 3 4.
  pose proof (tsToObj_clock d (timezone d)) as [_ Hclock]. rewrite Hclock.
  rewrite fixOffset_guess_right; [reflexivity|].
  unfold localTS. symmetry. apply epochDay_msOfDay.
Qed.

(** X7: where the rule's date already shows the hour, minute and second
    of the event's start on the local clock, the wall-clock correction
    leaves it alone: the occurrence starts at the rule's date and ends
    after the event's duration.  The correction acts only on dates whose
    local clock differs from the anchor's. *)
Theorem correction_keeps_matching_clock (item : Item.t) (d : Z) :
  hour (toObject timezone d) = hour (toObject timezone (Item.start item)) ->
  minute (toObject timezone d) = minute (toObject timezone (Item.start item)) ->
  second (toObject timezone d) = second (toObject timezone (Item.start item)) ->
  correctedStart timezone item d = d
  /\ Event.start (baseEvent timezone url item d) = d
  /\ Event.end_ (baseEvent timezone url item d)
     = d + (adjustEndForAllDayEvents item - Item.start item).
Proof.
  intros Hh Hm Hs.
  pose proof (correctedStart_same_clock item d Hh Hm Hs) as Hc.
  split; [exact Hc|]. unfold baseEvent, toJSDate. cbn [Event.start Event.end_].
  rewrite plusMillis_add, Hc. split; reflexivity.
Qed.

End CorrectionProperties.

Section HostClockProperties.
Import JSDate Luxon RRule Calendar.
Local Arguments civilFromDays : simpl never.
Context {iterator : Iterator}.
Variables timezone hostZone : Zone.
Variables startRange endRange : Z.
Variable url : string.
Hypothesis regular : regularZone timezone.

(** In a zone with regular day boundaries an all-day occurrence starts at
    the local midnight of the UTC calendar date of the rule's date. *)
Lemma localOccurrence_midnight now d :
  localOccurrence timezone now d = localMidnight timezone (epochDay d).
Proof.
  unfold localOccurrence, fromJSDate, toObject. change (utc d) with 0.
  destruct (civilFromDays (epochDay d)) as [[y m] dd] eqn:Ec.
  pose proof (tsToObj_date d 0) as Hd.
  replace (d + 0 * 60 * 1000) with d in Hd by lia. rewrite Ec in Hd.
  apply pair_equal_spec in Hd. destruct Hd as [Hd Hday].
  apply pair_equal_spec in Hd. destruct Hd as [Hy Hm].
  rewrite Hy, Hm, Hday.
  exact (fromObject_midnight timezone regular now (epochDay d) y m dd Ec).
Qed.

Lemma allDayEvents_any_time now now' item dates :
  allDayEvents timezone now startRange endRange url item dates
  = allDayEvents timezone now' startRange endRange url item dates.
Proof.
  unfold allDayEvents. apply flat_map_ext. intros d.
  now rewrite !localOccurrence_midnight.
Qed.

Lemma processItem_any_time now now' fuel item :
  processItem timezone hostZone now startRange endRange url fuel item
  = processItem timezone hostZone now' startRange endRange url fuel item.
Proof.
  unfold processItem.
  destruct (Item.rrule item) as [r|]; [destruct (Item.datetype item)|];
    [|reflexivity|reflexivity].
  unfold allDayRecurring.
  destruct (isPresent _); cbn [bind ret warn];
    (destruct (newRRule _) as [l [rule|e|]]; cbn [bind]; [|reflexivity|reflexivity]);
    (destruct (after rule startRange) as [next|]; [|reflexivity]);
    (destruct (endRange <? next); [reflexivity|]); cbn [ret];
    now rewrite (allDayEvents_any_time now now').
Qed.

Lemma parseComponents_any_time now now' fuel parsedData :
  parseComponents timezone hostZone now startRange endRange url fuel parsedData
  = parseComponents timezone hostZone now' startRange endRange url fuel parsedData.
Proof.
  induction parsedData as [|[item|] rest IH]; cbn [parseComponents];
    [reflexivity| |exact IH].
  now rewrite IH, (processItem_any_time now now').
Qed.

(** X8: in a zone with regular day boundaries the materializer's answer
    does not depend on the moment at which it runs: the current time,
    which luxon takes as a first guess of the offset when it builds the
    local midnight of an all-day occurrence, has no influence on the
    events returned or on what is printed. *)
Theorem parseIcsData_any_time
  (parseICS : string -> Outcome (list Component)) (now now' : Z) (fuel : nat)
  (icsData : string) :
  parseIcsData timezone hostZone now startRange endRange url parseICS fuel icsData
  = parseIcsData timezone hostZone now' startRange endRange url parseICS fuel icsData.
Proof.
  unfold parseIcsData.
  destruct (parseICS icsData) as [parsedData|e|]; cbn [bind]; [|reflexivity|reflexivity].
  now rewrite (parseComponents_any_time now now').
Qed.

End HostClockProperties.

Section DayLoopProperties.
Import JSDate Luxon RRule Calendar.
Local Arguments civilFromDays : simpl never.
Context {iterator : Iterator}.
Variables timezone hostZone : Zone.
Variable now : Z.
Variables startRange endRange : Z.
Variable url : string.
Hypothesis spread : forall t t', Z.abs (timezone t - timezone t') < 1440.

Lemma fixOffset_value L t0 :
  exists t, fst (fixOffset L (timezone t0) timezone) = L - timezone t * 60 * 1000.
Proof.
  unfold fixOffset.
  remember (L - timezone t0 * 60 * 1000) as g1 eqn:Hg1.
  destruct (timezone t0 =? timezone g1); [exists t0; cbn; lia|].
  remember (g1 - (timezone g1 - timezone t0) * 60 * 1000) as g2 eqn:Hg2.
  destruct (timezone g1 =? timezone g2); [exists g1; cbn; lia|].
  cbn [fst].
  destruct (Z.min_spec (timezone g1) (timezone g2)) as [[_ ->]|[_ ->]];
    [exists g1 | exists g2]; reflexivity.
Qed.

(** A day later on the calendar is at least a minute later. *)
Lemma plusDays_advances ts : ts + 60000 <= plusDays timezone ts 1.
Proof.
  rewrite plusDays_eq.
  destruct (fixOffset_value (localTS timezone ts + 1 * msPerDay) ts) as [t ->].
  unfold localTS, msPerDay. pose proof (spread ts t). lia.
Qed.

Lemma splitDays_terminates item fuel : forall currentDay lastDay,
  (lastDay - currentDay) / 60000 + 1 <= Z.of_nat fuel ->
  exists evs,
    splitDays timezone startRange endRange url fuel item currentDay lastDay = Some evs
    /\ Forall (fun e => currentDay <= Event.start e) evs
    /\ startsAscending evs.
Proof.
  induction fuel as [|fuel IH]; intros currentDay lastDay Hfuel; cbn [splitDays];
    destruct (Z.leb_spec currentDay lastDay) as [Hle|Hgt];
    try (exists []; repeat split; constructor).
  - exfalso. assert (0 <= (lastDay - currentDay) / 60000) by (apply Z.div_pos; lia). lia.
  - pose proof (plusDays_advances currentDay) as Hadv.
    destruct (IH (plusDays timezone currentDay 1) lastDay) as (rest & -> & Hlow & Hsorted).
    { revert Hadv Hfuel. generalize (plusDays timezone currentDay 1). intros next Hadv Hfuel.
      Z.to_euclidean_division_equations. lia. }
    eexists. split; [reflexivity|].
    assert (Hrest : Forall (fun e => currentDay <= Event.start e) rest)
      by (eapply List.Forall_impl; [|exact Hlow]; cbn; intros; lia).
    destruct (_ && _); cbn [app]; split; try assumption.
    + constructor; [reflexivity | exact Hrest].
    + constructor; [exact Hsorted|].
      eapply List.Forall_impl; [|exact Hlow]. cbn. unfold toJSDate. intros; lia.
Qed.

Lemma splitDays_more_fuel item fuel : forall fuel' currentDay lastDay evs,
  (fuel <= fuel')%nat ->
  splitDays timezone startRange endRange url fuel item currentDay lastDay = Some evs ->
  splitDays timezone startRange endRange url fuel' item currentDay lastDay = Some evs.
Proof.
  induction fuel as [|fuel IH]; intros fuel' currentDay lastDay evs Hle; cbn [splitDays].
  - destruct (currentDay <=? lastDay) eqn:E; [discriminate|].
    intros [= <-]. destruct fuel'; cbn [splitDays]; now rewrite E.
  - destruct fuel' as [|fuel']; [lia|]. cbn [splitDays].
    destruct (currentDay <=? lastDay); [|trivial].
    destruct (splitDays _ _ _ _ fuel item _ lastDay) as [rest|] eqn:Er; [|discriminate].
    rewrite (IH fuel' _ _ rest ltac:(lia) Er). trivial.
Qed.

(** X9: a non-recurring event never makes the materializer throw, and the
    loop over the days of an all-day span ends in every zone whose
    offsets lie less than a day apart, also where a local midnight is
    missing: from some number of iterations on the answer is one and the
    same list, and the days it holds start in strictly ascending order. *)
Theorem day_loop_terminates (item : Item.t) :
  Item.rrule item = None ->
  exists fuel0 evs,
    (forall fuel, (fuel0 <= fuel)%nat ->
                  processItem timezone hostZone now startRange endRange url fuel item
                  = ([], Returned evs))
    /\ startsAscending evs.
Proof.
  intros Hr.
  assert (Hp : forall fuel,
             processItem timezone hostZone now startRange endRange url fuel item
             = nonRecurring timezone startRange endRange url fuel item)
    by (intros fuel; unfold processItem; rewrite Hr;
        destruct (Item.datetype item); reflexivity).
  destruct (match Item.datetype item with date => true | dateTime => false end
            && (Item.start item <? adjustEndForAllDayEvents item)) eqn:Eall.
  - set (currentDay := startOfDay timezone (fromJSDate (Item.start item))).
    set (lastDay := startOfDay timezone (fromJSDate (adjustEndForAllDayEvents item))).
    set (fuel0 := Z.to_nat ((lastDay - currentDay) / 60000 + 1)).
    destruct (splitDays_terminates item fuel0 currentDay lastDay) as (evs & He & _ & Hs);
      [unfold fuel0; lia|].
    exists fuel0, evs. split; [|exact Hs].
    intros fuel Hf. rewrite Hp. unfold nonRecurring. rewrite Eall.
    fold currentDay lastDay.
    now rewrite (splitDays_more_fuel item fuel0 fuel currentDay lastDay evs Hf He).
  - destruct ((Item.start item <? endRange)
              && (startRange <? adjustEndForAllDayEvents item)) eqn:Eover.
    + exists O, [timedEvent url item]. split; [|repeat constructor].
      intros fuel _. rewrite Hp. unfold nonRecurring. now rewrite Eall, Eover.
    + exists O, []. split; [|constructor].
      intros fuel _. rewrite Hp. unfold nonRecurring. now rewrite Eall, Eover.
Qed.

End DayLoopProperties.

Section ZoneWitnesses.
Import JSDate Luxon RRule Calendar.

Lemma correction_keeps_matching_clock_witness :
  correctedStart Zones.newYork Examples.recurringDstEvent (Examples.utcTime 2024 10 23 0 30)
  = Examples.utcTime 2024 10 23 0 30.
Proof.
  refine (proj1 (correction_keeps_matching_clock
                   Zones.newYork Examples.feedUrl Examples.recurringDstEvent
                   (Examples.utcTime 2024 10 23 0 30) _ _ _));
    vm_compute; reflexivity.
Defined.

Lemma parseIcsData_any_time_witness :
  parseIcsData (iterator := RRule.model) Zones.newYork Zones.newYork
               (Examples.utcTime 2024 7 1 12 0)
               (Examples.utcTime 2024 11 1 4 0) (Examples.utcTime 2025 2 1 5 0)
               Examples.feedUrl
               (fun _ => Returned [VEVENT Examples.faultyAnnualEvent]) 8 "BEGIN:VCALENDAR"
  = parseIcsData (iterator := RRule.model) Zones.newYork Zones.newYork
                 (Examples.utcTime 2024 12 25 12 0)
                 (Examples.utcTime 2024 11 1 4 0) (Examples.utcTime 2025 2 1 5 0)
                 Examples.feedUrl
                 (fun _ => Returned [VEVENT Examples.faultyAnnualEvent]) 8 "BEGIN:VCALENDAR".
Proof.
  exact (parseIcsData_any_time
           (iterator := RRule.model) Zones.newYork Zones.newYork
           (Examples.utcTime 2024 11 1 4 0) (Examples.utcTime 2025 2 1 5 0)
           Examples.feedUrl newYork_regular
           (fun _ => Returned [VEVENT Examples.faultyAnnualEvent])
           (Examples.utcTime 2024 7 1 12 0) (Examples.utcTime 2024 12 25 12 0)
           8 "BEGIN:VCALENDAR").
Defined.

Lemma day_loop_terminates_witness :
  exists fuel0 evs,
    (forall fuel, (fuel0 <= fuel)%nat ->
                  processItem (iterator := RRule.model) Zones.havana Zones.newYork
                              (Examples.utcTime 2025 3 5 12 0)
                              (Examples.utcTime 2025 3 1 5 0) (Examples.utcTime 2025 3 20 4 0)
                              Examples.feedUrl fuel Examples.trip
                  = ([], Returned evs))
    /\ startsAscending evs.
Proof.
  exact (day_loop_terminates
           (iterator := RRule.model) Zones.havana Zones.newYork
           (Examples.utcTime 2025 3 5 12 0)
           (Examples.utcTime 2025 3 1 5 0) (Examples.utcTime 2025 3 20 4 0)
           Examples.feedUrl havana_spread Examples.trip eq_refl).
Defined.

End ZoneWitnesses.

(** * What the rule's parts do to the occurrences *)

Section IteratorFacts.
Import JSDate Luxon RRule Calendar.
Local Arguments civilFromDays : simpl never.

Lemma parseOptions_keeps o p :
  parseOptions o = Some p ->
  freq p = freq o /\ dtstart p = dtstart o /\ count p = count o /\ until p = until o
  /\ interval p = interval o.
Proof.
  unfold parseOptions. destruct (freq o) as [f|] eqn:Ef; [|discriminate].
  destruct (civilFromDays _) as [[y m] d].
  destruct (_ || _); [intros [= <-]; now rewrite Ef|].
  destruct f; intros [= <-]; cbn; now rewrite ?Ef.
Qed.

Lemma between_model_inside p a b t :
  In t (between (RRule.model p) a b) -> a < t < b.
Proof.
  unfold RRule.model. destruct (freq p) as [f|]; cbn [between]; [|contradiction].
  unfold modelBetween. intros Hin. apply filter_In in Hin. destruct Hin as [_ Hin].
  apply andb_prop in Hin. destruct Hin as [H1 H2].
  apply Z.ltb_lt in H1. apply Z.ltb_lt in H2. lia.
Qed.

Lemma visit_yield o f n left t :
  visit o f n left = Yield t ->
  t = n * msPerDay + msOfDay (dtstart o)
  /\ (forall u, until o = Some u -> t <= u)
  /\ (forall k, left = Some k -> 0 < k).
Proof.
  unfold visit.
  destruct (match left with Some k => k <=? 0 | None => false end) eqn:El; [discriminate|].
  destruct (match until o with Some u => _ | None => false end) eqn:Eu; [discriminate|].
  destruct (maxDay <? n); [discriminate|].
  destruct (matches o f n); [|discriminate].
  intros [= <-]. split; [reflexivity|]. split.
  - intros u Hu. rewrite Hu in Eu. apply Z.ltb_ge in Eu. exact Eu.
  - intros k ->. apply Z.leb_gt in El. exact El.
Qed.

Lemma searchPow_done k step : forall n left r,
  searchPow k step n left = Done r -> exists n' left', step n' left' = Done r.
Proof.
  induction k as [|k IH]; intros n left r; cbn [searchPow]; [eauto|].
  destruct (searchPow k step n left) as [n1 left1|r1] eqn:E1.
  - apply IH.
  - intros [= <-]. exact (IH _ _ _ E1).
Qed.

(** What [after] answers lies at or after the instant asked for, and not
    after UNTIL. *)
Lemma modelAfter_some o f a t :
  modelAfter o f a = Some t -> a <= t /\ forall u, until o = Some u -> t <= u.
Proof.
  unfold modelAfter.
  destruct (searchPow 23 _ _ _) as [n left|r] eqn:E; [discriminate|]. intros ->.
  apply searchPow_done in E. destruct E as (n & left & E).
  unfold searchStep in E. destruct (visit o f n left) as [| |t'] eqn:Ev; try discriminate.
  destruct (Z.leb_spec a t'); [|discriminate]. injection E as <-.
  apply visit_yield in Ev. destruct Ev as (_ & Hu & _). now split.
Qed.

Lemma after_model_until p a u :
  until p = Some u -> u < a -> after (RRule.model p) a = None.
Proof.
  intros Hu Hlt. unfold RRule.model. destruct (freq p) as [f|]; cbn [after]; [|reflexivity].
  destruct (modelAfter p f a) as [t|] eqn:E; [|reflexivity].
  apply modelAfter_some in E. destruct E as [Ha Hb]. specialize (Hb u Hu). lia.
Qed.

Lemma scan_count o f fuel : forall n k,
  (length (scan o f fuel n (Some k)) <= Z.to_nat k)%nat.
Proof.
  induction fuel as [|fuel IH]; intros n k; cbn [scan]; [cbn; lia|].
  destruct (visit o f n (Some k)) as [| |t] eqn:Ev; [cbn; lia | apply IH |].
  apply visit_yield in Ev. destruct Ev as (_ & _ & Hk). specialize (Hk k eq_refl).
  cbn [length spend]. specialize (IH (n + 1) (k - 1)). lia.
Qed.

Lemma between_model_count p a b k :
  count p = Some k -> (length (between (RRule.model p) a b) <= Z.to_nat k)%nat.
Proof.
  intros Hc. unfold RRule.model. destruct (freq p) as [f|]; cbn [between]; [|cbn; lia].
  unfold modelBetween. rewrite Hc.
  etransitivity; [apply List.filter_length_le | apply scan_count].
Qed.

(** The dates of a scan fall on strictly ascending days, none before the
    day the scan starts on. *)
Lemma scan_days o f fuel : forall n left,
  Forall (fun t => n <= epochDay t) (scan o f fuel n left)
  /\ daysAscending (scan o f fuel n left).
Proof.
  induction fuel as [|fuel IH]; intros n left; cbn [scan]; [split; constructor|].
  destruct (visit o f n left) as [| |t] eqn:Ev; [split; constructor| |].
  - destruct (IH (n + 1) left) as [Hlow Hs]. split; [|exact Hs].
    eapply List.Forall_impl; [|exact Hlow]. cbn. intros; lia.
  - apply visit_yield in Ev. destruct Ev as (-> & _ & _).
    pose proof (msOfDay_range (dtstart o)) as Hr.
    destruct (IH (n + 1) (spend left)) as [Hlow Hs]. split.
    + constructor; [rewrite epochDay_unique by exact Hr; lia|].
      eapply List.Forall_impl; [|exact Hlow]. cbn. intros; lia.
    + constructor; [exact Hs|].
      eapply List.Forall_impl; [|exact Hlow]. cbn. intros t Ht.
      rewrite epochDay_unique by exact Hr. lia.
Qed.

Lemma StronglySorted_filter_list {A} (R : A -> A -> Prop) (P : A -> bool) l :
  StronglySorted R l -> StronglySorted R (List.filter P l).
Proof.
  induction 1 as [|x l Hs IH Hx]; cbn [List.filter]; [constructor|].
  destruct (P x); [|exact IH]. constructor; [exact IH|].
  apply List.Forall_forall. intros y Hy. apply filter_In in Hy.
  rewrite List.Forall_forall in Hx. now apply Hx.
Qed.

Lemma between_model_days p a b : daysAscending (between (RRule.model p) a b).
Proof.
  unfold RRule.model. destruct (freq p) as [f|]; cbn [between]; [|constructor].
  unfold modelBetween. apply StronglySorted_filter_list. apply scan_days.
Qed.

End IteratorFacts.

Section RuleProperties.
Import JSDate Luxon RRule Calendar.
Local Arguments civilFromDays : simpl never.
Variables timezone hostZone : Zone.
Variable now : Z.
Variables startRange endRange : Z.
Variable url : string.

Lemma normalize_keeps item o :
  freq (normalize hostZone item o) = freq o
  /\ until (normalize hostZone item o) = until o
  /\ count (normalize hostZone item o) = count o.
Proof.
  unfold normalize. destruct (freq o) as [[| | |]|] eqn:Ef, (bymonth o);
    cbn; rewrite ?Ef; auto.
Qed.

(** The rule set of a timed event whose RRULE line is at hand. *)
Lemma utcRuleSet_model item r line :
  ruleLine r = Some line ->
  exists p,
    utcRuleSet (iterator := RRule.model) item r = RRule.model p
    /\ dtstart p = Item.start item
    /\ until p = until line
    /\ count p = count line
    /\ (forall days, byweekday line = Some days ->
                     byweekday p = Some [utcWeekday (Item.start item) - 1]).
Proof.
  intros Hl. unfold utcRuleSet, rrulestr. rewrite Hl.
  destruct (parseOptions _) as [p|] eqn:Ep.
  - exists p. split; [reflexivity|].
    pose proof (parseOptions_keeps _ _ Ep) as (_ & Hd & Hc & Hu & _).
    cbn [dtstart count until] in Hd, Hc, Hu. repeat split; try assumption.
    intros days Hdays. revert Ep. unfold parseOptions. cbn [freq bymonthday byweekday].
    destruct (civilFromDays _) as [[y m] d]. rewrite Hdays. cbn [isPresent].
    rewrite orb_true_r. intros [= <-]. reflexivity.
  - eexists. split; [reflexivity|]. cbn. repeat split.
    intros days ->. reflexivity.
Qed.

(** X10: on a timed event the days of BYDAY are replaced by the one
    weekday on which the start falls in UTC.  Whatever days the rule
    lists, every occurrence generated from it comes from a rule date
    strictly inside the window that falls on that weekday. *)
Theorem byday_collapses_to_start_weekday
  (fuel : nat) (item : Item.t) (r : RRuleObj) (line : Options) (days : list Z) :
  Item.rrule item = Some r ->
  Item.datetype item = dateTime ->
  ruleLine r = Some line ->
  byweekday line = Some days ->
  exists base,
    processItem (iterator := RRule.model) timezone hostZone now startRange endRange
                url fuel item
    = ([], Returned (overrideEvents startRange endRange url item ++ base))
    /\ Forall (fun e => exists d,
                 e = baseEvent timezone url item d
                 /\ startRange < d < endRange
                 /\ utcWeekday d = utcWeekday (Item.start item)) base.
Proof.
  intros Hr Hd Hl Hdays. unfold processItem. rewrite Hr, Hd.
  rewrite timedRecurring_eq. eexists. split; [reflexivity|].
  destruct (seriesInRange _ _ _); [|constructor].
  apply List.Forall_forall. intros e He.
  apply in_baseEvents in He. destruct He as (d & Hin & _ & _ & ->).
  exists d. split; [reflexivity|].
  destruct (utcRuleSet_model item r line Hl) as (p & Hset & Hs & _ & _ & Hw).
  rewrite Hset in Hin. specialize (Hw days Hdays).
  split; [exact (between_model_inside _ _ _ _ Hin)|].
  unfold RRule.model in Hin. destruct (freq p) as [f|] eqn:Ef; [|contradiction].
  assert (Hin' : In d (between (RRule.model p) startRange endRange))
    by (unfold RRule.model; now rewrite Ef).
  apply (modelBetween_matches p f _ _ _ Ef) in Hin'.
  destruct Hin' as (k & -> & Hm).
  unfold utcWeekday at 1. rewrite epochDay_unique by apply msOfDay_range.
  unfold matches in Hm. destruct (civilFromDays k) as [[y m] dd].
  rewrite Hw in Hm. cbn [allows existsb] in Hm.
  apply andb_prop in Hm. destruct Hm as [_ Hm].
  rewrite orb_false_r in Hm. apply Z.eqb_eq in Hm.
  unfold weekdayOf in Hm. unfold isoWeekday. lia.
Qed.

(** X11: a series whose UNTIL lies before the window yields no
    occurrence from its rule: nothing at all for an all-day event, the
    override records alone for a timed one. *)
Theorem until_before_window
  (fuel : nat) (item : Item.t) (r : RRuleObj) (u : Z) :
  Item.rrule item = Some r ->
  u < startRange ->
  (Item.datetype item = date ->
   until (parsedRule r) = Some u ->
   freq (parsedRule r) <> None ->
   processItem (iterator := RRule.model) timezone hostZone now startRange endRange
               url fuel item
   = ([], Returned []))
  /\ (forall line,
         Item.datetype item = dateTime ->
         ruleLine r = Some line ->
         until line = Some u ->
         processItem (iterator := RRule.model) timezone hostZone now startRange endRange
                     url fuel item
         = ([], Returned (overrideEvents startRange endRange url item))).
Proof.
  intros Hr Hlt. unfold processItem. rewrite Hr. split.
  - intros -> Hu Hf.
    destruct (parseOptions (normalize hostZone item (ruleOptions item r))) as [p|] eqn:Ep.
    + rewrite (allDayRecurring_returned timezone hostZone now startRange endRange url
                 item r p Ep).
      apply parseOptions_keeps in Ep. destruct Ep as (_ & _ & _ & Hup & _).
      assert (Hp : until p = Some u).
      { rewrite Hup. destruct (normalize_keeps item (ruleOptions item r)) as (_ & -> & _).
        exact Hu. }
      unfold seriesInRange, iterate. now rewrite (after_model_until p startRange u Hp Hlt).
    + apply parseOptions_freq in Ep. exfalso. apply Hf.
      destruct (normalize_keeps item (ruleOptions item r)) as (Hfn & _ & _).
      rewrite Hfn in Ep. exact Ep.
  - intros line -> Hl Hu. rewrite timedRecurring_eq.
    destruct (utcRuleSet_model item r line Hl) as (p & -> & _ & Hup & _).
    rewrite Hu in Hup.
    unfold seriesInRange. rewrite (after_model_until p startRange u Hup Hlt).
    now rewrite app_nil_r.
Qed.

(** X12: COUNT bounds what a series can show: an all-day event with
    COUNT=n (n not 0) yields at most n occurrences, a timed one at most n
    besides its override records. *)
Theorem count_bounds_occurrences
  (fuel : nat) (item : Item.t) (r : RRuleObj) (n : Z)
  (l : list LogLine) (evs : list Event.t) :
  Item.rrule item = Some r ->
  processItem (iterator := RRule.model) timezone hostZone now startRange endRange
              url fuel item
  = (l, Returned evs) ->
  (Item.datetype item = date ->
   count (parsedRule r) = Some n -> n <> 0 ->
   (length evs <= Z.to_nat n)%nat)
  /\ (forall line,
         Item.datetype item = dateTime ->
         ruleLine r = Some line ->
         count line = Some n ->
         (length evs <= length (overrideEvents startRange endRange url item) + Z.to_nat n)%nat).
Proof.
  intros Hr. unfold processItem. rewrite Hr. intros Hp. split.
  - intros Hd Hc Hn. rewrite Hd in Hp.
    destruct (parseOptions (normalize hostZone item (ruleOptions item r))) as [p|] eqn:Ep.
    2:{ unfold allDayRecurring, newRRule in Hp. rewrite Ep in Hp.
        destruct (isPresent _); discriminate. }
    rewrite (allDayRecurring_returned timezone hostZone now startRange endRange url
               item r p Ep) in Hp.
    injection Hp as _ <-. destruct (seriesInRange _ _ _); [|cbn; lia].
    apply parseOptions_keeps in Ep. destruct Ep as (_ & _ & Hcp & _ & _).
    assert (Hp : count p = Some n).
    { rewrite Hcp. destruct (normalize_keeps item (ruleOptions item r)) as (_ & _ & ->).
      cbn [ruleOptions count]. rewrite Hc. cbn [truthyNumber].
      now destruct (Z.eqb_spec n 0). }
    etransitivity; [|exact (between_model_count p (startRange - 24 * 60 * 60 * 1000)
                              (endRange + 24 * 60 * 60 * 1000) n Hp)].
    unfold allDayEvents, iterate.
    induction (between (RRule.model p) _ _) as [|d dates IH]; [cbn; lia|].
    cbn [flat_map]. rewrite length_app. cbn [length].
    destruct (_ || _); [cbn; lia|]. destruct (decide _); cbn; lia.
  - intros line Hd Hl Hc. rewrite Hd in Hp. injection Hp as _ <-.
    rewrite timedRecurring_eq, length_app.
    apply Nat.add_le_mono_l.
    destruct (seriesInRange _ _ _); [|cbn; lia].
    destruct (utcRuleSet_model item r line Hl) as (p & -> & _ & _ & Hcp & _).
    rewrite Hc in Hcp.
    etransitivity; [|exact (between_model_count p startRange endRange n Hcp)].
    unfold baseEvents.
    induction (between (RRule.model p) _ _) as [|d dates IH]; [cbn; lia|].
    cbn [flat_map]. rewrite length_app. cbn [length].
    destruct (decide _); [cbn; lia|]. destruct (decide _); cbn; lia.
Qed.

Hypothesis regular : regularZone timezone.

Lemma allDayEvents_ascending item dates :
  daysAscending dates ->
  startsAscending (allDayEvents timezone now startRange endRange url item dates)
  /\ Forall (fun e => exists d, In d dates
                                /\ Event.start e = localMidnight timezone (epochDay d))
            (allDayEvents timezone now startRange endRange url item dates).
Proof.
  induction 1 as [|d dates Hs IH Hd]; [split; constructor|].
  destruct IH as [IHs IHf]. cbn [allDayEvents flat_map].
  fold (allDayEvents timezone now startRange endRange url item dates).
  assert (Hrest : Forall (fun e => exists d', In d' (d :: dates)
                                   /\ Event.start e = localMidnight timezone (epochDay d'))
                         (allDayEvents timezone now startRange endRange url item dates)).
  { eapply List.Forall_impl; [|exact IHf]. cbn. intros e (d' & Hin & He). eauto. }
  destruct (_ || _); [split; assumption|].
  destruct (decide _); [split; assumption|]. cbn [app]. split.
  - constructor; [exact IHs|].
    apply List.Forall_forall. intros e He.
    rewrite List.Forall_forall in IHf. destruct (IHf e He) as (d' & Hin & ->).
    rewrite List.Forall_forall in Hd. specialize (Hd d' Hin).
    unfold allDayEvent, toJSDate. cbn [Event.start].
    rewrite (localOccurrence_midnight timezone regular).
    pose proof (localMidnight_mono timezone regular _ _ Hd). lia.
  - constructor; [|exact Hrest].
    exists d. split; [now left|].
    unfold allDayEvent, toJSDate. cbn [Event.start].
    apply (localOccurrence_midnight timezone regular).
Qed.

(** X13: in a zone with regular day boundaries the occurrences of one
    all-day recurring event come out in strictly ascending order of
    start, each at a local midnight: no day is shown twice. *)
Theorem all_day_series_ascending
  (fuel : nat) (item : Item.t) (r : RRuleObj)
  (l : list LogLine) (evs : list Event.t) :
  Item.rrule item = Some r ->
  Item.datetype item = date ->
  processItem (iterator := RRule.model) timezone hostZone now startRange endRange
              url fuel item
  = (l, Returned evs) ->
  startsAscending evs
  /\ Forall (fun e => exists k, midnight timezone k (Event.start e)) evs.
Proof.
  intros Hr Hd. unfold processItem. rewrite Hr, Hd.
  destruct (parseOptions (normalize hostZone item (ruleOptions item r))) as [p|] eqn:Ep.
  2:{ unfold allDayRecurring, newRRule. rewrite Ep. destruct (isPresent _); discriminate. }
  rewrite (allDayRecurring_returned timezone hostZone now startRange endRange url
             item r p Ep).
  intros [= _ <-]. destruct (seriesInRange _ _ _); [|split; constructor].
  unfold iterate.
  destruct (allDayEvents_ascending item _
              (between_model_days p (startRange - 24 * 60 * 60 * 1000)
                                  (endRange + 24 * 60 * 60 * 1000))) as [Hs Hf].
  split; [exact Hs|].
  eapply List.Forall_impl; [|exact Hf]. cbn. intros e (d & _ & ->).
  exists (epochDay d). apply (localMidnight_midnight timezone regular).
Qed.

End RuleProperties.

Section RuleWitnesses.
Import JSDate Luxon RRule Calendar.

Lemma byday_collapses_to_start_weekday_witness :
  exists base,
    processItem (iterator := RRule.model) Zones.newYork Zones.newYork
                (Examples.utcTime 2024 11 5 12 0)
                (Examples.utcTime 2024 10 28 4 0) (Examples.utcTime 2024 11 6 5 0)
                Examples.feedUrl 8 Examples.recurringDstEvent
    = ([], Returned (overrideEvents (Examples.utcTime 2024 10 28 4 0)
                                    (Examples.utcTime 2024 11 6 5 0)
                                    Examples.feedUrl Examples.recurringDstEvent ++ base))
    /\ Forall (fun e => exists d,
                 e = baseEvent Zones.newYork Examples.feedUrl Examples.recurringDstEvent d
                 /\ Examples.utcTime 2024 10 28 4 0 < d < Examples.utcTime 2024 11 6 5 0
                 /\ utcWeekday d = utcWeekday (Item.start Examples.recurringDstEvent)) base.
Proof.
  exact (byday_collapses_to_start_weekday
           Zones.newYork Zones.newYork (Examples.utcTime 2024 11 5 12 0)
           (Examples.utcTime 2024 10 28 4 0) (Examples.utcTime 2024 11 6 5 0)
           Examples.feedUrl 8 Examples.recurringDstEvent Examples.weeklyTuesday
           Examples.weeklyTuesdayLine [1] eq_refl eq_refl eq_refl eq_refl).
Defined.

Lemma until_before_window_witness :
  dateUTC 2024 12 10 4 59 59 0 < Examples.utcTime 2025 1 1 5 0
  /\ processItem (iterator := RRule.model) Zones.newYork Zones.newYork
                 (Examples.utcTime 2025 1 5 12 0)
                 (Examples.utcTime 2025 1 1 5 0) (Examples.utcTime 2025 3 1 5 0)
                 Examples.feedUrl 8 Examples.endedSeries
     = ([], Returned []).
Proof.
  assert (Hlt : dateUTC 2024 12 10 4 59 59 0 < Examples.utcTime 2025 1 1 5 0)
    by (vm_compute; reflexivity).
  split; [exact Hlt|].
  refine (proj1 (until_before_window
                   Zones.newYork Zones.newYork (Examples.utcTime 2025 1 5 12 0)
                   (Examples.utcTime 2025 1 1 5 0) (Examples.utcTime 2025 3 1 5 0)
                   Examples.feedUrl 8 Examples.endedSeries Examples.weeklyUntil
                   (dateUTC 2024 12 10 4 59 59 0) eq_refl Hlt)
                eq_refl eq_refl _).
  vm_compute. discriminate.
Defined.

Lemma count_bounds_occurrences_witness :
  (length (timedRecurring (iterator := RRule.model) Zones.newYork
             (Examples.utcTime 2024 10 30 4 0) (Examples.utcTime 2024 11 20 5 0)
             Examples.feedUrl Examples.eventWithException
             (Examples.dailyThree (Examples.utcTime 2024 11 1 13 0)))
   <= length (overrideEvents (Examples.utcTime 2024 10 30 4 0)
                             (Examples.utcTime 2024 11 20 5 0)
                             Examples.feedUrl Examples.eventWithException)
      + Z.to_nat 3)%nat.
Proof.
  exact (proj2 (count_bounds_occurrences
                  Zones.newYork Zones.newYork (Examples.utcTime 2024 11 5 12 0)
                  (Examples.utcTime 2024 10 30 4 0) (Examples.utcTime 2024 11 20 5 0)
                  Examples.feedUrl 8 Examples.eventWithException
                  (Examples.dailyThree (Examples.utcTime 2024 11 1 13 0)) 3 []
                  (timedRecurring (iterator := RRule.model) Zones.newYork
                     (Examples.utcTime 2024 10 30 4 0) (Examples.utcTime 2024 11 20 5 0)
                     Examples.feedUrl Examples.eventWithException
                     (Examples.dailyThree (Examples.utcTime 2024 11 1 13 0)))
                  eq_refl eq_refl)
               Examples.dailyThreeLine eq_refl eq_refl eq_refl).
Defined.

Lemma all_day_series_ascending_witness :
  startsAscending
    [Event.mk (Some "Limited Time Event"%string) Absent Absent
              (Examples.utcTime 2024 11 25 5 0) (Examples.utcTime 2024 11 26 5 0)
              (Present true) Examples.feedUrl;
     Event.mk (Some "Limited Time Event"%string) Absent Absent
              (Examples.utcTime 2024 12 2 5 0) (Examples.utcTime 2024 12 3 5 0)
              (Present true) Examples.feedUrl;
     Event.mk (Some "Limited Time Event"%string) Absent Absent
              (Examples.utcTime 2024 12 9 5 0) (Examples.utcTime 2024 12 10 5 0)
              (Present true) Examples.feedUrl].
Proof.
  refine (proj1 (all_day_series_ascending
                   Zones.newYork Zones.newYork (Examples.utcTime 2024 11 5 12 0)
                   (Examples.utcTime 2024 11 20 5 0) (Examples.utcTime 2024 12 20 5 0)
                   Examples.feedUrl newYork_regular 8 Examples.endedSeries
                   Examples.weeklyUntil []
                   [Event.mk (Some "Limited Time Event"%string) Absent Absent
                             (Examples.utcTime 2024 11 25 5 0) (Examples.utcTime 2024 11 26 5 0)
                             (Present true) Examples.feedUrl;
                    Event.mk (Some "Limited Time Event"%string) Absent Absent
                             (Examples.utcTime 2024 12 2 5 0) (Examples.utcTime 2024 12 3 5 0)
                             (Present true) Examples.feedUrl;
                    Event.mk (Some "Limited Time Event"%string) Absent Absent
                             (Examples.utcTime 2024 12 9 5 0) (Examples.utcTime 2024 12 10 5 0)
                             (Present true) Examples.feedUrl]
                   eq_refl eq_refl _)).
  vm_compute. reflexivity.
Defined.

End RuleWitnesses.

Section FixedOffsetProperties.
Import JSDate Luxon RRule Calendar.
Local Arguments civilFromDays : simpl never.
Variables timezone hostZone : Zone.
Variable now : Z.
Variables startRange endRange : Z.
Variable url : string.

(** The dates of the rule set of a timed event are at the start's time
    of day in UTC, strictly inside the window asked for. *)
Lemma utcRuleSet_dates item r d a b :
  In d (between (utcRuleSet (iterator := RRule.model) item r) a b) ->
  a < d < b /\ exists k, d = k * msPerDay + msOfDay (Item.start item).
Proof.
  assert (Hset : exists p, utcRuleSet (iterator := RRule.model) item r = RRule.model p
                           /\ dtstart p = Item.start item).
  { destruct (ruleLine r) as [line|] eqn:El.
    - destruct (utcRuleSet_model item r line El) as (p & Hp & Hs & _). eauto.
    - unfold utcRuleSet. rewrite El. eexists. split; reflexivity. }
  destruct Hset as (p & -> & Hs). intros Hin.
  split; [exact (between_model_inside _ _ _ _ Hin)|].
  destruct (freq p) as [f|] eqn:Ef.
  - destruct (modelBetween_matches p f a b d Ef Hin) as (k & -> & _).
    exists k. now rewrite Hs.
  - unfold RRule.model in Hin. rewrite Ef in Hin. contradiction.
Qed.

Lemma same_time_of_day_same_clock c t t' :
  msOfDay t = msOfDay t' ->
  hour (tsToObj t c) = hour (tsToObj t' c)
  /\ minute (tsToObj t c) = minute (tsToObj t' c)
  /\ second (tsToObj t c) = second (tsToObj t' c).
Proof.
  intros H.
  assert (Hr : msOfDay (t + c * 60 * 1000) = msOfDay (t' + c * 60 * 1000)).
  { unfold msOfDay in *. rewrite (Z.add_mod t), (Z.add_mod t'), H by (unfold msPerDay; lia).
    reflexivity. }
  unfold tsToObj.
  destruct (civilFromDays (epochDay (t + c * 60 * 1000))) as [[y m] d].
  destruct (civilFromDays (epochDay (t' + c * 60 * 1000))) as [[y' m'] d'].
  cbn [hour minute second]. now rewrite Hr.
Qed.

(** X24: in a zone whose offset never changes the wall-clock correction
    changes nothing: every occurrence generated from the rule of a timed
    event starts at the rule's own date, hence strictly inside the
    window, and at the time of day of the event's start. *)
Theorem fixed_offset_occurrences_are_rule_dates
  (fuel : nat) (item : Item.t) (r : RRuleObj) (c : Z) :
  (forall t, timezone t = c) ->
  Item.rrule item = Some r ->
  Item.datetype item = dateTime ->
  exists base,
    processItem (iterator := RRule.model) timezone hostZone now startRange endRange
                url fuel item
    = ([], Returned (overrideEvents startRange endRange url item ++ base))
    /\ Forall (fun e => startRange < Event.start e < endRange
                        /\ msOfDay (Event.start e) = msOfDay (Item.start item)
                        /\ Event.end_ e - Event.start e = Item.end_ item - Item.start item)
              base.
Proof.
  intros Hc Hr Hd. unfold processItem. rewrite Hr, Hd.
  rewrite timedRecurring_eq. eexists. split; [reflexivity|].
  destruct (seriesInRange _ _ _); [|constructor].
  apply List.Forall_forall. intros e He.
  apply in_baseEvents in He. destruct He as (d & Hin & _ & _ & ->).
  apply utcRuleSet_dates in Hin. destruct Hin as (Hw & k & Hk).
  assert (Hday : msOfDay d = msOfDay (Item.start item)).
  { rewrite Hk. unfold msOfDay. rewrite Z.add_comm, Z.mod_add by (unfold msPerDay; lia).
    apply Z.mod_mod. unfold msPerDay. lia. }
  destruct (same_time_of_day_same_clock c d (Item.start item) Hday) as (Hh & Hm & Hs).
  assert (Hcs : correctedStart timezone item d = d).
  { apply correctedStart_same_clock; unfold toObject; rewrite !Hc; assumption. }
  unfold baseEvent, toJSDate, adjustEndForAllDayEvents. rewrite Hd.
  cbn [Event.start Event.end_]. rewrite plusMillis_add, Hcs.
  repeat split; try lia; exact Hday.
Qed.

End FixedOffsetProperties.

Section FixedOffsetWitnesses.
Import JSDate Luxon RRule Calendar.

Lemma fixed_offset_occurrences_are_rule_dates_witness :
  exists base,
    processItem (iterator := RRule.model) utc Zones.newYork
                (Examples.utcTime 2024 11 5 12 0)
                (Examples.utcTime 2024 10 28 4 0) (Examples.utcTime 2024 11 6 5 0)
                Examples.feedUrl 8 Examples.recurringDstEvent
    = ([], Returned (overrideEvents (Examples.utcTime 2024 10 28 4 0)
                                    (Examples.utcTime 2024 11 6 5 0)
                                    Examples.feedUrl Examples.recurringDstEvent ++ base))
    /\ Forall (fun e =>
                 Examples.utcTime 2024 10 28 4 0 < Event.start e
                 < Examples.utcTime 2024 11 6 5 0
                 /\ msOfDay (Event.start e) = msOfDay (Item.start Examples.recurringDstEvent)
                 /\ Event.end_ e - Event.start e
                    = Item.end_ Examples.recurringDstEvent
                      - Item.start Examples.recurringDstEvent)
              base.
Proof.
  exact (fixed_offset_occurrences_are_rule_dates
           utc Zones.newYork (Examples.utcTime 2024 11 5 12 0)
           (Examples.utcTime 2024 10 28 4 0) (Examples.utcTime 2024 11 6 5 0)
           Examples.feedUrl 8 Examples.recurringDstEvent Examples.weeklyTuesday 0
           (fun t => eq_refl) eq_refl eq_refl).
Defined.

End FixedOffsetWitnesses.

(** * server.js: the events endpoint *)

Section NewYorkDates.
Import JSDate Luxon Zones.
Local Arguments civilFromDays : simpl never.
Local Arguments daysFromCivil : simpl never.

Lemma newYork_before_six n r :
  0 <= r < 6 * 3600000 ->
  newYork (n * msPerDay + r) = if dstAtMidnight n then -240 else -300.
Proof.
  intros Hr. unfold newYork, dstAtMidnight.
  rewrite epochDay_unique by (unfold msPerDay; lia).
  destruct (civilFromDays n) as [[y m] d].
  unfold dstStart, dstEnd.
  set (S := sundayOnOrAfter (daysFromCivil y 3 1)).
  set (E := sundayOnOrAfter (daysFromCivil y 11 1)).
  assert (H1 : ((S + 7) * msPerDay + 7 * 3600000 <=? n * msPerDay + r) = (S + 7 <? n)).
  { unfold msPerDay. destruct (Z.ltb_spec (S + 7) n); [apply Z.leb_le | apply Z.leb_gt]; lia. }
  assert (H2 : (n * msPerDay + r <? E * msPerDay + 6 * 3600000) = (n <=? E)).
  { unfold msPerDay. destruct (Z.leb_spec n E); [apply Z.ltb_lt | apply Z.ltb_ge]; lia. }
  now rewrite H1, H2.
Qed.

(** New York's clocks skip 02:00 to 03:00 only: resolving a local time
    never leaves its date. *)
Lemma newYork_keepsDate : keepsDate newYork.
Proof.
  intros L t0. unfold fixOffset, localTS.
  remember (L - newYork t0 * 60 * 1000) as g1 eqn:Hg1.
  destruct (Z.eqb_spec (newYork t0) (newYork g1)) as [E1|E1]; cbn [fst].
  { rewrite <- E1. f_equal. lia. }
  remember (g1 - (newYork g1 - newYork t0) * 60 * 1000) as g2 eqn:Hg2.
  destruct (Z.eqb_spec (newYork g1) (newYork g2)) as [E2|E2]; cbn [fst].
  { rewrite <- E2. f_equal. lia. }
  assert (Hfour : newYork (L + 4 * 3600000) = -300 /\ newYork (L + 5 * 3600000) = -240).
  { destruct (newYork_values t0) as [A|A], (newYork_values g1) as [B|B],
             (newYork_values g2) as [C|C]; try congruence.
    - split; [replace (L + 4 * 3600000) with g1 by lia; exact B
             | replace (L + 5 * 3600000) with g2 by lia; exact C].
    - split; [replace (L + 4 * 3600000) with g2 by lia; exact C
             | replace (L + 5 * 3600000) with g1 by lia; exact B]. }
  destruct Hfour as [H4 H5].
  assert (Hmin : Z.min (newYork g1) (newYork g2) = -300)
    by (destruct (newYork_values g1), (newYork_values g2); lia).
  rewrite Hmin.
  replace (L - -300 * 60 * 1000) with (L + 5 * 3600000) by lia. rewrite H5.
  pose proof (epochDay_msOfDay L) as HL. pose proof (msOfDay_range L) as Hr.
  set (n := epochDay L) in *. set (r := msOfDay L) in *.
  destruct (Z.lt_ge_cases r (23 * 3600000)) as [Hlt|Hge].
  - replace (L + 5 * 3600000 + -240 * 60 * 1000) with (n * msPerDay + (r + 3600000)) by lia.
    apply epochDay_unique. unfold msPerDay in *. lia.
  - exfalso. unfold msPerDay in *.
    replace (L + 4 * 3600000) with ((n + 1) * msPerDay + (r - 20 * 3600000)) in H4
      by (unfold msPerDay; lia).
    replace (L + 5 * 3600000) with ((n + 1) * msPerDay + (r - 19 * 3600000)) in H5
      by (unfold msPerDay; lia).
    rewrite newYork_before_six in H4, H5 by lia.
    destruct (dstAtMidnight (n + 1)); discriminate.
Qed.

End NewYorkDates.

Section EndpointProperties.
Import JSDate Luxon RRule Calendar.
Local Arguments civilFromDays : simpl never.
Context {iterator : Iterator}.
Variable w : World.
Variable hostZone : Zone.
Variable parseICS : string -> Outcome (list Component).
Variable fuel : nat.
Variable zones : string -> Zone.

Lemma plusDays_localDay tz ts k :
  keepsDate tz -> localDay tz (plusDays tz ts k) = localDay tz ts + k.
Proof.
  intros Hk. unfold localDay. rewrite plusDays_eq, Hk.
  pose proof (epochDay_msOfDay (localTS tz ts)) as HL.
  pose proof (msOfDay_range (localTS tz ts)) as Hr.
  replace (localTS tz ts + k * msPerDay)
    with ((epochDay (localTS tz ts) + k) * msPerDay + msOfDay (localTS tz ts)) by lia.
  now apply epochDay_unique.
Qed.

(** X15: for a well-formed request the window handed to the aggregator
    consists of whole local days of the client's zone: it starts at the
    local midnight [daysPast] days before today and ends one millisecond
    before the local midnight that follows the day [daysFuture] days
    ahead; a count that is missing or 0 stands for 90 days back and 180
    days ahead. *)
Theorem eventsEndpoint_window
  (body : RequestBody) (cache : gmap string (Z * string))
  (urls : list string) (tzName : string) :
  calendarUrls body = Some urls ->
  timezoneName body = Some tzName ->
  truthy (Some tzName) = true ->
  regularZone (zones tzName) ->
  keepsDate (zones tzName) ->
  let tz := zones tzName in
  let today := localDay tz (clock w) in
  let past := orDefault (daysPast body) 90 in
  let future := orDefault (daysFuture body) 180 in
  eventsEndpoint w hostZone parseICS fuel zones body cache
  = match getCalendarEventsFromUrls w hostZone parseICS fuel tz
            (localMidnight tz (today - past))
            (localMidnight tz (today + future + 1) - 1) urls cache with
    | ((_, Returned events), cache') => (Json events, cache')
    | ((_, Thrown _), cache') => (Status500, cache')
    | ((_, Diverged), cache') => (NoResponse, cache')
    end
  /\ past <> 0 /\ future <> 0
  /\ (daysPast body = None \/ daysPast body = Some 0 -> past = 90)
  /\ (daysFuture body = None \/ daysFuture body = Some 0 -> future = 180).
Proof.
  intros Hu Hn Ht Hreg Hkeep tz today past future.
  split.
  - unfold eventsEndpoint. rewrite Hu, Hn, Ht. fold tz. unfold toJSDate.
    rewrite (startOfDay_midnight tz Hreg).
    unfold endOfDay. rewrite plusMillis_add, (startOfDay_midnight tz Hreg).
    rewrite !(plusDays_localDay tz) by exact Hkeep.
    fold today past future.
    replace (today + - past) with (today - past) by lia.
    reflexivity.
  - unfold past, future, orDefault.
    destruct (daysPast body) as [p|], (daysFuture body) as [f|];
      try destruct (Z.eqb_spec p 0); try destruct (Z.eqb_spec f 0);
      repeat split; try lia; intros [H|H]; congruence.
Qed.

End EndpointProperties.

Section EndpointWitnesses.
Import JSDate Luxon RRule Calendar.

Lemma eventsEndpoint_window_witness :
  eventsEndpoint (iterator := RRule.model) Examples.oneFeedDown Zones.newYork
                 Examples.twoEvents 8 (fun _ => Zones.newYork)
                 (mkBody (Some [Examples.goodUrl]) (Some "America/New_York"%string)
                         (Some 0) None) ∅
  = match getCalendarEventsFromUrls (iterator := RRule.model)
            Examples.oneFeedDown Zones.newYork Examples.twoEvents 8 Zones.newYork
            (localMidnight Zones.newYork
               (localDay Zones.newYork (clock Examples.oneFeedDown) - 90))
            (localMidnight Zones.newYork
               (localDay Zones.newYork (clock Examples.oneFeedDown) + 180 + 1) - 1)
            [Examples.goodUrl] ∅ with
    | ((_, Returned events), cache') => (Json events, cache')
    | ((_, Thrown _), cache') => (Status500, cache')
    | ((_, Diverged), cache') => (NoResponse, cache')
    end.
Proof.
  exact (proj1 (eventsEndpoint_window
                  (iterator := RRule.model) Examples.oneFeedDown Zones.newYork
                  Examples.twoEvents 8 (fun _ => Zones.newYork)
                  (mkBody (Some [Examples.goodUrl]) (Some "America/New_York"%string)
                          (Some 0) None) ∅
                  [Examples.goodUrl] "America/New_York" eq_refl eq_refl eq_refl
                  newYork_regular newYork_keepsDate)).
Defined.

End EndpointWitnesses.

(** * The weather and printer services *)

Section WeatherProperties.
Import Calendar Weather.
Context {Forecast : Type}.
Variable OPENWEATHER_API_KEY : option string.

Local Abbreviation get := (getCachedOrFreshWeather (Forecast := Forecast) OPENWEATHER_API_KEY).

Lemma stale_not_fresh (w : World Forecast) (s : State Forecast) :
  stale w s ->
  RRule.isPresent (cachedWeatherData s) && negb (lifetimeMs <? now w - lastFetchTime s)
  = false.
Proof.
  intros [->|Hold]; [reflexivity|].
  apply Z.ltb_lt in Hold. rewrite Hold. apply andb_false_r.
Qed.

(** X16: a forecast obtained from the API is kept in memory and served
    for six hours from the moment it arrived, without another request,
    whatever the network and the disk do meanwhile; this holds also when
    writing the cache file failed. *)
Theorem weather_served_from_memory
  (w w' : World Forecast) (s : State Forecast) (f : Forecast) :
  truthy OPENWEATHER_API_KEY = true ->
  stale w s ->
  response w = Some (Some f) ->
  now w' - arrival w <= lifetimeMs ->
  snd (fst (get w s)) = Ok (Some f)
  /\ get w' (snd (get w s)) = ([LogServingFromMemory], Ok (Some f), snd (get w s)).
Proof.
  intros Hkey Hstale Hresp Hsoon.
  unfold getCachedOrFreshWeather at 1 3 4. rewrite (stale_not_fresh w s Hstale).
  unfold fetchAndCacheWeather. rewrite Hkey, Hresp. cbn [negb].
  destruct (diskWritable w); cbn [RRule.isPresent cachedWeatherData fst snd];
    (split; [reflexivity|]);
    unfold getCachedOrFreshWeather; cbn [cachedWeatherData lastFetchTime RRule.isPresent];
    (destruct (Z.ltb_spec lifetimeMs (now w' - arrival w)); [lia | reflexivity]).
Qed.

(** X17: the weather endpoint answers 500 exactly when no forecast can
    be had: none is held and the key is missing or the request fails, or
    a refresh was due, the API's answer has no list and the cache file
    cannot be written.  When a forecast is held and the refresh fails for
    want of a key or of an answer, that forecast is served, however old,
    and the module's state is unchanged. *)
Theorem weatherEndpoint_fails_iff
  (isProduction : bool) (w : World Forecast) (s : State Forecast) :
  ((exists msg, fst (weatherEndpoint OPENWEATHER_API_KEY isProduction w s) = Status500 msg)
   <-> (cachedWeatherData s = None
        /\ (truthy OPENWEATHER_API_KEY = false \/ response w = None))
       \/ (stale w s /\ truthy OPENWEATHER_API_KEY = true
           /\ response w = Some None /\ diskWritable w = false))
  /\ (forall f,
         cachedWeatherData s = Some f ->
         truthy OPENWEATHER_API_KEY = false \/ response w = None ->
         weatherEndpoint OPENWEATHER_API_KEY isProduction w s = (Json (Some f), s)).
Proof.
  unfold weatherEndpoint, getCachedOrFreshWeather, fetchAndCacheWeather, stale.
  destruct (cachedWeatherData s) as [held|] eqn:Eh;
    destruct (Z.ltb_spec lifetimeMs (now w - lastFetchTime s)) as [Hold|Hnew];
    destruct (truthy OPENWEATHER_API_KEY) eqn:Ek;
    destruct (response w) as [[fc|]|] eqn:Er;
    destruct (diskWritable w) eqn:Ed;
    cbn [RRule.isPresent andb negb cachedWeatherData fst snd];
    rewrite ?Eh; cbn [RRule.isPresent fst snd];
    (split;
     [split;
      [intros [msg Hm]; try discriminate;
       first [left; split; [reflexivity|]; first [left; reflexivity | right; reflexivity]
             |right; repeat split; solve [auto | right; lia]]
      |intros [[Hn Hor]|([Hn|Hl] & Hk & Hr & Hd)]; try discriminate; try lia;
       try (destruct Hor; discriminate); eauto]
     |intros f Hf Hor; try discriminate; try (destruct Hor; discriminate);
      injection Hf as <-; reflexivity]).
Qed.

End WeatherProperties.

Section WeatherRestart.
Import Calendar Weather.
Context {Forecast : Type}.
Variable OPENWEATHER_API_KEY : option string.

Local Abbreviation get := (getCachedOrFreshWeather (Forecast := Forecast) OPENWEATHER_API_KEY).

(** X18: the cache file carries a forecast over a restart of the server:
    when the module is loaded again less than six hours after the
    forecast arrived, [initializeWeatherService] takes it from the file
    and it is served without a request until the six hours are over; a
    file that is six hours old or older is ignored. *)
Theorem weather_cache_survives_restart
  (w w0 w' : World Forecast) (s : State Forecast) (f : Forecast) :
  truthy OPENWEATHER_API_KEY = true ->
  stale w s ->
  response w = Some (Some f) ->
  diskWritable w = true ->
  arrival w <> 0 ->
  let reloaded := snd (initializeWeatherService w0 (restarted (snd (get w s)))) in
  (now w0 - arrival w < lifetimeMs ->
   now w' - arrival w <= lifetimeMs ->
   get w' reloaded = ([LogServingFromMemory], Ok (Some f), reloaded))
  /\ (lifetimeMs <= now w0 - arrival w ->
      cachedWeatherData reloaded = None /\ lastFetchTime reloaded = 0).
Proof.
  intros Hkey Hstale Hresp Hdisk Hnz reloaded. subst reloaded.
  assert (Hget : get w s
                 = ([LogAttempt; LogRequest; LogFetched], Ok (Some f),
                    mkState (Some f) (arrival w) (Stored (Some f) (Some (arrival w))))).
  { unfold getCachedOrFreshWeather. rewrite (stale_not_fresh w s Hstale).
    unfold fetchAndCacheWeather. now rewrite Hkey, Hresp, Hdisk. }
  rewrite Hget. cbn [snd]. unfold restarted, initializeWeatherService. cbn [cacheFile].
  destruct (Z.eqb_spec (arrival w) 0) as [|_]; [contradiction|]. cbn [negb andb].
  destruct (Z.ltb_spec (now w0 - arrival w) lifetimeMs) as [Hlt|Hge]; cbn [snd]; split;
    try lia; try (intros; split; reflexivity).
  intros _ Hsoon. unfold getCachedOrFreshWeather.
  cbn [cachedWeatherData lastFetchTime RRule.isPresent].
  destruct (Z.ltb_spec lifetimeMs (now w' - arrival w)); [lia | reflexivity].
Qed.

End WeatherRestart.

Section PrinterProperties.
Import Calendar OctoPrint.

(** X19: a status read from the printer is cached for 30 seconds from
    the start of the call that read it: a call within that time returns
    it at once, without a request and without a look at the settings. *)
Theorem octoprint_status_cached (w w' : World) (s : State) (jobData : JobData) :
  configured w = true ->
  response w = Some jobData ->
  cachedStatus s = None \/ CACHE_DURATION_MS <= now w - lastFetchTime s ->
  now w' - now w < CACHE_DURATION_MS ->
  fst (getOctoPrintStatus w s) = ([], statusOf jobData)
  /\ getOctoPrintStatus w' (snd (getOctoPrintStatus w s))
     = ([], statusOf jobData, snd (getOctoPrintStatus w s)).
Proof.
  unfold configured. intros Hc Hr Hold Hsoon.
  apply andb_prop in Hc. destruct Hc as [Hu Hk].
  assert (Hget : getOctoPrintStatus w s
                 = ([], statusOf jobData, mkState (Some (statusOf jobData)) (now w))).
  { unfold getOctoPrintStatus. rewrite Hu, Hk, Hr. cbn [negb orb].
    destruct (cachedStatus s) as [st|]; [|reflexivity].
    destruct Hold as [|Hold]; [discriminate|].
    destruct (Z.ltb_spec (now w - lastFetchTime s) CACHE_DURATION_MS); [lia | reflexivity]. }
  rewrite Hget. cbn [fst snd]. split; [reflexivity|].
  unfold getOctoPrintStatus. cbn [cachedStatus lastFetchTime].
  destruct (Z.ltb_spec (now w' - now w) CACHE_DURATION_MS); [reflexivity | lia].
Qed.

Lemma getOctoPrintStatus_cache w s :
  (cachedStatus (snd (getOctoPrintStatus w s)) = None
   <-> cachedStatus s = None /\ answered w = false)
  /\ ((forall st, cachedStatus s = Some st -> error st = Absent) ->
      forall st, cachedStatus (snd (getOctoPrintStatus w s)) = Some st -> error st = Absent).
Proof.
  unfold getOctoPrintStatus, answered, configured.
  destruct (cachedStatus s) as [held|] eqn:Eh;
    [destruct (now w - lastFetchTime s <? CACHE_DURATION_MS)|];
    destruct (truthy (OCTOPRINT_URL w)), (truthy (OCTOPRINT_API_KEY w)),
             (response w) as [jobData|];
    cbn [negb orb andb snd cachedStatus RRule.isPresent]; rewrite ?Eh;
    (split; [split; [intros H | intros [H H']]; try discriminate; auto
            |intros Hinv st Hst; try discriminate; try (apply Hinv; exact Hst);
             injection Hst as <-; reflexivity]).
Qed.

Lemma polled_cache ws : forall s,
  (cachedStatus (polled ws s) = None
   <-> cachedStatus s = None /\ Forall (fun w => answered w = false) ws)
  /\ ((forall st, cachedStatus s = Some st -> error st = Absent) ->
      forall st, cachedStatus (polled ws s) = Some st -> error st = Absent).
Proof.
  induction ws as [|w rest IH]; intros s; cbn [polled].
  - split; [|auto]. split; [intros H; split; [exact H | constructor] | tauto].
  - destruct (IH (snd (getOctoPrintStatus w s))) as [IHn IHe].
    destruct (getOctoPrintStatus_cache w s) as [Hn He]. split.
    + rewrite IHn, Hn. split.
      * intros [[H1 H2] H3]. split; [exact H1 | now constructor].
      * intros [H1 H2]. inversion H2; subst. tauto.
    + intros Hinv. apply IHe. now apply He.
Qed.

Lemma polled_app ws ws' : forall s, polled (ws ++ ws') s = polled ws' (polled ws s).
Proof. induction ws as [|w ws IH]; intros s; cbn [app polled]; [reflexivity | apply IH]. Qed.

(** A call that gets no answer leaves the module's variables alone. *)
Lemma getOctoPrintStatus_unanswered w s :
  answered w = false -> snd (getOctoPrintStatus w s) = s.
Proof.
  unfold answered, configured, getOctoPrintStatus.
  destruct (cachedStatus s) as [held|];
    [destruct (now w - lastFetchTime s <? CACHE_DURATION_MS)|];
    destruct (truthy (OCTOPRINT_URL w)), (truthy (OCTOPRINT_API_KEY w)),
             (response w) as [jobData|];
    cbn [negb orb andb snd RRule.isPresent]; intros H; try discriminate; reflexivity.
Qed.

Lemma polled_unanswered ws : forall s,
  Forall (fun w => answered w = false) ws -> polled ws s = s.
Proof.
  induction ws as [|w ws IH]; intros s Hall; cbn [polled]; [reflexivity|].
  inversion Hall as [|? ? Hw Hrest]; subst.
  rewrite (getOctoPrintStatus_unanswered w s Hw). now apply IH.
Qed.

(** X20: once the printer has answered, the service never again reports
    it as unreachable: the status with [error: true] is returned exactly
    when the call itself gets no answer from a configured printer and no
    earlier call got one.  Otherwise a failed request is answered with
    the last status read: after a call that read a status from the
    printer, and calls without an answer since, a call whose request
    fails returns that status and leaves the module as it was. *)
Theorem octoprint_error_only_before_first_answer (ws : list World) (w : World) :
  (error (snd (fst (getOctoPrintStatus w (polled ws justLoaded)))) = Present true
   <-> configured w = true /\ response w = None
       /\ Forall (fun w0 => answered w0 = false) ws)
  /\ (forall (before since : list World) (reader : World) (jobData : JobData),
         ws = before ++ reader :: since ->
         configured reader = true ->
         response reader = Some jobData ->
         (cachedStatus (polled before justLoaded) = None
          \/ CACHE_DURATION_MS <= now reader - lastFetchTime (polled before justLoaded)) ->
         Forall (fun w0 => answered w0 = false) since ->
         configured w = true ->
         response w = None ->
         snd (fst (getOctoPrintStatus w (polled ws justLoaded))) = statusOf jobData
         /\ snd (getOctoPrintStatus w (polled ws justLoaded)) = polled ws justLoaded
         /\ (CACHE_DURATION_MS <= now w - now reader ->
             fst (fst (getOctoPrintStatus w (polled ws justLoaded))) = [ErrorFetching])).
Proof.
  split.
  - destruct (polled_cache ws justLoaded) as [Hnone Herr].
    specialize (Herr ltac:(intros st; discriminate)).
    unfold getOctoPrintStatus, configured.
    destruct (cachedStatus (polled ws justLoaded)) as [held|] eqn:Eh.
    + specialize (Herr held eq_refl).
      assert (Hno : ~ Forall (fun w0 => answered w0 = false) ws)
        by (intros HF; destruct Hnone as [_ Hnone];
            specialize (Hnone (conj eq_refl HF)); discriminate).
      destruct (now w - lastFetchTime _ <? CACHE_DURATION_MS);
        destruct (truthy (OCTOPRINT_URL w)), (truthy (OCTOPRINT_API_KEY w)),
                 (response w) as [jobData|];
        cbn [negb orb andb fst snd error notConfigured statusOf]; rewrite ?Herr;
        (split; [intros H; discriminate | intros (_ & _ & HF); contradiction]).
    + assert (Hall : Forall (fun w0 => answered w0 = false) ws)
        by (apply Hnone; reflexivity).
      destruct (truthy (OCTOPRINT_URL w)), (truthy (OCTOPRINT_API_KEY w)),
               (response w) as [jobData|];
        cbn [negb orb andb fst snd error notConfigured statusOf unreachable];
        (split; [intros H; try discriminate; auto
                | intros (H1 & H2 & _); try discriminate; auto]).
  - intros before since reader jobData -> Hcr Hrr Hold Hsince Hc Hr.
    assert (Hstate : polled (before ++ reader :: since) justLoaded
                     = mkState (Some (statusOf jobData)) (now reader)).
    { rewrite polled_app. cbn [polled].
      rewrite (polled_unanswered since _ Hsince).
      unfold configured in Hcr. apply andb_prop in Hcr. destruct Hcr as [Hu Hk].
      unfold getOctoPrintStatus. rewrite Hu, Hk, Hrr. cbn [negb orb].
      destruct (cachedStatus (polled before justLoaded)) as [st|]; [|reflexivity].
      destruct Hold as [|Hold]; [discriminate|].
      destruct (Z.ltb_spec (now reader - lastFetchTime (polled before justLoaded))
                           CACHE_DURATION_MS); [lia | reflexivity]. }
    rewrite Hstate.
    unfold configured in Hc. apply andb_prop in Hc. destruct Hc as [Hu Hk].
    unfold getOctoPrintStatus. cbn [cachedStatus lastFetchTime].
    rewrite Hu, Hk, Hr. cbn [negb orb].
    destruct (Z.ltb_spec (now w - now reader) CACHE_DURATION_MS);
      cbn [fst snd]; repeat split; try reflexivity; intros; lia.
Qed.

End PrinterProperties.

Section ServiceWitnesses.
Import Calendar.

Lemma weather_served_from_memory_witness :
  Weather.getCachedOrFreshWeather (Some "key"%string)
    (Weather.mkWorld (1000 + Weather.lifetimeMs) None 0 false)
    (snd (Weather.getCachedOrFreshWeather (Some "key"%string)
            (Weather.mkWorld 900 (Some (Some [72; 68])) 1000 false)
            (Weather.mkState None 0 Weather.NoFile)))
  = ([Weather.LogServingFromMemory], Weather.Ok (Some [72; 68]),
     snd (Weather.getCachedOrFreshWeather (Some "key"%string)
            (Weather.mkWorld 900 (Some (Some [72; 68])) 1000 false)
            (Weather.mkState None 0 Weather.NoFile))).
Proof.
  refine (proj2 (weather_served_from_memory (Some "key"%string)
                   (Weather.mkWorld 900 (Some (Some [72; 68])) 1000 false)
                   (Weather.mkWorld (1000 + Weather.lifetimeMs) None 0 false)
                   (Weather.mkState None 0 Weather.NoFile) [72; 68]
                   eq_refl _ eq_refl _)).
  - left. reflexivity.
  - cbn [Weather.now Weather.arrival]. lia.
Defined.

Lemma weather_cache_survives_restart_witness :
  Weather.getCachedOrFreshWeather (Some "key"%string)
    (Weather.mkWorld 5000 None 0 false)
    (snd (Weather.initializeWeatherService
            (Weather.mkWorld 2000 None 0 false)
            (restarted
               (snd (Weather.getCachedOrFreshWeather (Some "key"%string)
                       (Weather.mkWorld 900 (Some (Some [72; 68])) 1000 true)
                       (Weather.mkState None 0 Weather.NoFile))))))
  = ([Weather.LogServingFromMemory], Weather.Ok (Some [72; 68]),
     snd (Weather.initializeWeatherService
            (Weather.mkWorld 2000 None 0 false)
            (restarted
               (snd (Weather.getCachedOrFreshWeather (Some "key"%string)
                       (Weather.mkWorld 900 (Some (Some [72; 68])) 1000 true)
                       (Weather.mkState None 0 Weather.NoFile)))))).
Proof.
  refine (proj1 (weather_cache_survives_restart (Some "key"%string)
                   (Weather.mkWorld 900 (Some (Some [72; 68])) 1000 true)
                   (Weather.mkWorld 2000 None 0 false)
                   (Weather.mkWorld 5000 None 0 false)
                   (Weather.mkState None 0 Weather.NoFile) [72; 68]
                   eq_refl _ eq_refl eq_refl _) _ _).
  - left. reflexivity.
  - cbn [Weather.arrival]. lia.
  - cbn [Weather.now Weather.arrival]. unfold Weather.lifetimeMs, Weather.CACHE_LIFETIME_HOURS. lia.
  - cbn [Weather.now Weather.arrival]. unfold Weather.lifetimeMs, Weather.CACHE_LIFETIME_HOURS. lia.
Defined.

Lemma octoprint_status_cached_witness :
  OctoPrint.getOctoPrintStatus
    (OctoPrint.mkWorld 20000 None None None)
    (snd (OctoPrint.getOctoPrintStatus
            (OctoPrint.mkWorld 1000 (Some "http://octopi.local"%string) (Some "key"%string)
                               (Some (OctoPrint.mkJob (Some "Printing"%string)
                                                      (Some (85 # 2)%Q)
                                                      (Some "benchy.gcode"%string))))
            justLoaded))
  = ([],
     OctoPrint.mkStatus true 43 (Some "benchy.gcode"%string)
                        (Present "printing"%string) Absent true,
     OctoPrint.mkState
       (Some (OctoPrint.mkStatus true 43 (Some "benchy.gcode"%string)
                                 (Present "printing"%string) Absent true))
       1000).
Proof.
  refine (proj2 (octoprint_status_cached
                   (OctoPrint.mkWorld 1000 (Some "http://octopi.local"%string)
                                      (Some "key"%string)
                                      (Some (OctoPrint.mkJob (Some "Printing"%string)
                                                             (Some (85 # 2)%Q)
                                                             (Some "benchy.gcode"%string))))
                   (OctoPrint.mkWorld 20000 None None None)
                   justLoaded
                   (OctoPrint.mkJob (Some "Printing"%string) (Some (85 # 2)%Q)
                                    (Some "benchy.gcode"%string))
                   eq_refl eq_refl _ _)).
  - left. reflexivity.
  - cbn [OctoPrint.now]. unfold OctoPrint.CACHE_DURATION_MS. lia.
Defined.

Lemma octoprint_error_only_before_first_answer_witness :
  snd (fst (OctoPrint.getOctoPrintStatus
              (OctoPrint.mkWorld 100000 (Some "http://printer"%string) (Some "key"%string)
                                 None)
              (polled [OctoPrint.mkWorld 1000 (Some "http://printer"%string)
                                         (Some "key"%string)
                                         (Some (OctoPrint.mkJob (Some "Printing"%string)
                                                                (Some (85 # 2)%Q)
                                                                (Some "part.gcode"%string)));
                       OctoPrint.mkWorld 50000 (Some "http://printer"%string)
                                         (Some "key"%string) None]
                      justLoaded)))
  = OctoPrint.statusOf (OctoPrint.mkJob (Some "Printing"%string) (Some (85 # 2)%Q)
                                        (Some "part.gcode"%string)).
Proof.
  refine (proj1 (proj2 (octoprint_error_only_before_first_answer
                          [OctoPrint.mkWorld 1000 (Some "http://printer"%string)
                                             (Some "key"%string)
                                             (Some (OctoPrint.mkJob
                                                      (Some "Printing"%string)
                                                      (Some (85 # 2)%Q)
                                                      (Some "part.gcode"%string)));
                           OctoPrint.mkWorld 50000 (Some "http://printer"%string)
                                             (Some "key"%string) None]
                          (OctoPrint.mkWorld 100000 (Some "http://printer"%string)
                                             (Some "key"%string) None))
                       [] [OctoPrint.mkWorld 50000 (Some "http://printer"%string)
                                             (Some "key"%string) None]
                       (OctoPrint.mkWorld 1000 (Some "http://printer"%string)
                                          (Some "key"%string)
                                          (Some (OctoPrint.mkJob (Some "Printing"%string)
                                                                 (Some (85 # 2)%Q)
                                                                 (Some "part.gcode"%string))))
                       (OctoPrint.mkJob (Some "Printing"%string) (Some (85 # 2)%Q)
                                        (Some "part.gcode"%string))
                       eq_refl eq_refl eq_refl (or_introl eq_refl) _ eq_refl eq_refl)).
  repeat constructor.
Defined.

End ServiceWitnesses.

(** * The client's grid (src/App.js) *)

Section SortFacts.
Import Calendar Client.
Context {A : Type}.
Variable compare : A -> A -> Z.

Lemma insertSorted_perm x l : Permutation (x :: l) (insertSorted compare x l).
Proof.
  induction l as [|y r IH]; cbn [insertSorted]; [reflexivity|].
  destruct (compare x y <=? 0); [reflexivity|].
  rewrite perm_swap. now apply perm_skip.
Qed.

Lemma sort_perm l : Permutation l (sort compare l).
Proof.
  induction l as [|x l IH]; cbn; [constructor|].
  etransitivity; [apply perm_skip, IH | apply insertSorted_perm].
Qed.

(** Elements that the comparator does not tell apart keep their order. *)
Lemma insertSorted_stable (p : A -> bool) x l :
  (forall y, p x = true -> p y = true -> compare x y <= 0) ->
  List.filter p (insertSorted compare x l)
  = if p x then x :: List.filter p l else List.filter p l.
Proof.
  intros Hp. induction l as [|y r IH]; cbn [insertSorted List.filter]; [reflexivity|].
  destruct (Z.leb_spec (compare x y) 0) as [Hle|Hgt]; cbn [List.filter]; [reflexivity|].
  rewrite IH. destruct (p x) eqn:Ex; [|reflexivity].
  destruct (p y) eqn:Ey; [|reflexivity].
  specialize (Hp y eq_refl Ey). lia.
Qed.

Lemma sort_stable (p : A -> bool) l :
  (forall x y, p x = true -> p y = true -> compare x y <= 0) ->
  List.filter p (sort compare l) = List.filter p l.
Proof.
  intros Hp. induction l as [|x l IH]; [reflexivity|].
  cbn [sort fold_right]. fold (sort compare l).
  rewrite insertSorted_stable by (intros y; apply Hp).
  cbn [List.filter]. now rewrite IH.
Qed.

Hypothesis total : forall x y, compare x y <= 0 \/ compare y x <= 0.
Hypothesis transitive : forall x y z, compare x y <= 0 -> compare y z <= 0 -> compare x z <= 0.

Lemma insertSorted_sorted x l :
  StronglySorted (fun a b => compare a b <= 0) l ->
  StronglySorted (fun a b => compare a b <= 0) (insertSorted compare x l).
Proof.
  induction 1 as [|y r Hs IH Hy]; cbn [insertSorted]; [repeat constructor|].
  destruct (Z.leb_spec (compare x y) 0) as [Hle|Hgt].
  - constructor; [now constructor|]. constructor; [exact Hle|].
    eapply List.Forall_impl; [|exact Hy]. cbn. intros z. now apply transitive.
  - constructor; [exact IH|].
    apply List.Forall_forall. intros z Hz.
    apply (Permutation_in _ (Permutation_sym (insertSorted_perm x r))) in Hz.
    destruct Hz as [<-|Hz].
    + destruct (total x y); [lia | assumption].
    + rewrite List.Forall_forall in Hy. now apply Hy.
Qed.

Lemma sort_sorted l : StronglySorted (fun a b => compare a b <= 0) (sort compare l).
Proof.
  induction l as [|x l IH]; cbn; [constructor|]. now apply insertSorted_sorted.
Qed.

End SortFacts.

Section GridProperties.
Import JSDate Luxon RRule Calendar Client.
Variables startOf endOf : Z -> Z.
Variable appConfig : option (list CalendarConfig).
Variable events : list Event.t.
Variable weatherForecast : list DayForecast.

Local Abbreviation colored := (eventsWithColors startOf endOf appConfig events).

Lemma cellOrder_total a b : cellOrder a b <= 0 \/ cellOrder b a <= 0.
Proof. unfold cellOrder. destruct (isWeather a), (isWeather b); cbn; lia. Qed.

Lemma cellOrder_transitive a b c :
  cellOrder a b <= 0 -> cellOrder b c <= 0 -> cellOrder a c <= 0.
Proof. unfold cellOrder. destruct (isWeather a), (isWeather b), (isWeather c); cbn; lia. Qed.

Lemma colored_not_weather day : Forall (fun e => isWeather e = false) (colored day).
Proof.
  unfold eventsWithColors. apply List.Forall_forall. intros e He.
  apply in_map_iff in He. destruct He as (ev & <- & _). reflexivity.
Qed.

(** X21: the entries of a day's cell are sorted for display: the day's
    weather, when there is a forecast for the day, comes first, and the
    calendar events follow in ascending order of start; none is lost or
    doubled, and events that start at the same instant stay in the order
    in which the server sent them. *)
Theorem dayCell_sorted (day : Z) :
  dayCell startOf endOf appConfig events weatherForecast day
  = match weatherForDay startOf endOf weatherForecast day with
    | Some forecast =>
      [WeatherEntry (capitalizeWords (description forecast)) (startOf day) (endOf day)
                    forecast]
    | None => []
    end ++ sort cellOrder (colored day)
  /\ Permutation (colored day) (sort cellOrder (colored day))
  /\ StronglySorted (fun a b => entryStart a <= entryStart b) (sort cellOrder (colored day))
  /\ forall t,
      List.filter (fun e => entryStart e =? t) (sort cellOrder (colored day))
      = List.filter (fun e => entryStart e =? t) (colored day).
Proof.
  pose proof (colored_not_weather day) as Hnw.
  assert (Hperm : Permutation (colored day) (sort cellOrder (colored day)))
    by apply sort_perm.
  assert (Hnw' : Forall (fun e => isWeather e = false) (sort cellOrder (colored day))).
  { apply List.Forall_forall. intros e He.
    rewrite List.Forall_forall in Hnw. apply Hnw.
    exact (Permutation_in _ (Permutation_sym Hperm) He). }
  split; [|split; [exact Hperm|split]].
  - unfold dayCell. fold (colored day).
    destruct (weatherForDay _ _ _ _) as [forecast|]; [|reflexivity].
    cbn [sort fold_right app]. fold (sort cellOrder (colored day)).
    destruct (sort cellOrder (colored day)) as [|y r]; [reflexivity|].
    cbn [insertSorted]. inversion Hnw' as [|? ? Hy _]; subst.
    unfold cellOrder at 1. cbn [isWeather]. now rewrite Hy.
  - pose proof (sort_sorted cellOrder cellOrder_total cellOrder_transitive (colored day))
      as Hs.
    revert Hs Hnw'. generalize (sort cellOrder (colored day)). intros l Hs.
    induction Hs as [|x l Hs IH Hx]; intros Hnw'; [constructor|].
    inversion Hnw' as [|? ? Hxw Hlw]; subst. constructor; [now apply IH|].
    rewrite List.Forall_forall in *. intros y Hy.
    specialize (Hx y Hy). specialize (Hlw y Hy).
    unfold cellOrder in Hx. rewrite Hxw, Hlw in Hx. cbn in Hx. lia.
  - intros t.
    assert (Hfilter : forall l, Forall (fun e => isWeather e = false) l ->
                List.filter (fun e => entryStart e =? t) l
                = List.filter (fun e => negb (isWeather e) && (entryStart e =? t)) l).
    { intros l Hl. apply List.filter_ext_in. intros e He.
      rewrite List.Forall_forall in Hl. now rewrite (Hl e He). }
    rewrite (Hfilter _ Hnw'), (Hfilter _ Hnw).
    apply sort_stable. intros x y Hx Hy.
    apply andb_prop in Hx, Hy. destruct Hx as [Hxw Hxt], Hy as [Hyw Hyt].
    apply negb_true_iff in Hxw, Hyw. apply Z.eqb_eq in Hxt, Hyt.
    unfold cellOrder. rewrite Hxw, Hyw. cbn. lia.
Qed.

End GridProperties.

Section GridPlacement.
Import JSDate Luxon RRule Calendar Client.
Context {iterator : Iterator}.
Variables timezone hostZone : Zone.
Variable now : Z.
Variables startRange endRange : Z.
Variable url : string.
Hypothesis regular : regularZone timezone.
(** moment's day boundaries in the browser. *)
Variables startOf endOf : Z -> Z.

Lemma seqZ_filter_day j : forall (k : nat) m,
  List.filter (fun x => x =? j) (seqZ m (Z.of_nat k))
  = if (m <=? j) && (j <? m + Z.of_nat k) then [j] else [].
Proof.
  induction k as [|k IH]; intros m.
  - rewrite seqZ_nil by lia.
    destruct (Z.leb_spec m j), (Z.ltb_spec j (m + Z.of_nat 0)); cbn; try reflexivity; lia.
  - rewrite seqZ_cons by lia. cbn [List.filter].
    replace (Z.pred (Z.of_nat (S k))) with (Z.of_nat k) by lia.
    rewrite IH.
    destruct (Z.eqb_spec m j) as [->|Hne];
      destruct (Z.leb_spec (Z.succ j) j), (Z.ltb_spec j (Z.succ j + Z.of_nat k)),
               (Z.leb_spec j j), (Z.ltb_spec j (j + Z.of_nat (S k)));
      cbn; try reflexivity; try lia.
    destruct (Z.leb_spec (Z.succ m) j), (Z.ltb_spec j (Z.succ m + Z.of_nat k)),
             (Z.leb_spec m j), (Z.ltb_spec j (m + Z.of_nat (S k)));
      cbn; try reflexivity; lia.
Qed.

Lemma filter_day_window j (q : Z -> bool) m len :
  List.filter (fun x => x =? j) (List.filter q (seqZ m len))
  = if (m <=? j) && (j <? m + len) && q j then [j] else [].
Proof.
  assert (Hswap : forall l, List.filter (fun x => x =? j) (List.filter q l)
                            = List.filter q (List.filter (fun x => x =? j) l)).
  { induction l as [|x l IH]; [reflexivity|]. cbn [List.filter].
    destruct (q x) eqn:Eq, (Z.eqb_spec x j) as [->|Hne]; cbn [List.filter];
      rewrite ?Eq; try (destruct (Z.eqb_spec j j); [|contradiction]);
      try (destruct (Z.eqb_spec x j); [contradiction|]); now rewrite IH. }
  rewrite Hswap.
  destruct (Z.le_gt_cases len 0) as [Hle|Hpos].
  - rewrite seqZ_nil by exact Hle.
    destruct (Z.leb_spec m j), (Z.ltb_spec j (m + len)); cbn; try reflexivity; lia.
  - replace len with (Z.of_nat (Z.to_nat len)) by lia. rewrite seqZ_filter_day.
    destruct (_ && _); cbn [List.filter andb]; [|reflexivity].
    now destruct (q j).
Qed.

(** When does the cell of day [j] show the piece of day [k]? *)
Lemma dayOccurrence_shown item j k day :
  startOf day = localMidnight timezone j ->
  endOf day = localMidnight timezone (j + 1) - 1 ->
  (Event.start (dayOccurrence timezone url item k) <=? endOf day)
  && (if isAllDay (dayOccurrence timezone url item k)
      then startOf day <? Event.end_ (dayOccurrence timezone url item k)
      else startOf day <=? Event.end_ (dayOccurrence timezone url item k))
  = (k =? j).
Proof.
  intros -> ->. unfold dayOccurrence, isAllDay. cbn [Event.start Event.end_ Event.allDay].
  pose proof (localMidnight_mono timezone regular) as Hm.
  destruct (Z.eqb_spec k j) as [->|Hne].
  - pose proof (Hm j (j + 1) ltac:(lia)).
    apply andb_true_intro. split; [apply Z.leb_le | apply Z.ltb_lt]; lia.
  - apply andb_false_iff.
    destruct (Z.lt_ge_cases k j) as [Hlt|Hge].
    + right. apply Z.ltb_ge.
      destruct (Z.eq_dec (k + 1) j) as [<-|Hn]; [lia|].
      pose proof (Hm (k + 1) j ltac:(lia)). lia.
    + left. apply Z.leb_gt.
      destruct (Z.eq_dec (j + 1) k) as [<-|Hn]; [lia|].
      pose proof (Hm (j + 1) k ltac:(lia)). lia.
Qed.

(** X22: in a zone with regular day boundaries, the pieces the server
    cuts an all-day span into land in the grid one per cell: the cell of
    a local day shows the span exactly once when the day belongs to the
    span and its midnight lies in the window, and not at all otherwise;
    the piece of a day never shows under the day after. *)
Theorem all_day_span_one_cell_per_day
  (fuel : nat) (item : Item.t) (evs : list Event.t) (day j : Z) :
  Item.rrule item = None ->
  Item.datetype item = date ->
  Item.start item < Item.end_ item - 1 ->
  processItem timezone hostZone now startRange endRange url fuel item = ([], Returned evs) ->
  startOf day = localMidnight timezone j ->
  endOf day = localMidnight timezone (j + 1) - 1 ->
  eventsOnDay startOf endOf evs day
  = if (localDay timezone (Item.start item) <=? j)
       && (j <=? localDay timezone (Item.end_ item - 1))
       && midnightInWindow timezone startRange endRange j
    then [dayOccurrence timezone url item j] else [].
Proof.
  intros Hr Hd Hspan Hp Hs He.
  unfold processItem in Hp. rewrite Hr in Hp.
  unfold nonRecurring, adjustEndForAllDayEvents in Hp. rewrite Hd in Hp.
  apply Z.ltb_lt in Hspan. rewrite Hspan in Hp. cbn [andb] in Hp.
  unfold fromJSDate in Hp.
  rewrite !(startOfDay_midnight timezone regular) in Hp.
  rewrite (splitDays_spec timezone startRange endRange url regular) in Hp.
  destruct (_ <=? _)%nat; [|discriminate]. injection Hp as <-.
  set (n0 := localDay timezone (Item.start item)).
  set (n1 := localDay timezone (Item.end_ item - 1)).
  unfold eventsOnDay.
  assert (Hmap : forall ks,
             List.filter
               (fun event =>
                  (Event.start event <=? endOf day)
                  && (if isAllDay event then startOf day <? Event.end_ event
                      else startOf day <=? Event.end_ event))
               (map (dayOccurrence timezone url item) ks)
             = map (dayOccurrence timezone url item) (List.filter (fun k => k =? j) ks)).
  { induction ks as [|k ks IH]; [reflexivity|]. cbn [map List.filter].
    rewrite (dayOccurrence_shown item j k day Hs He), IH.
    now destruct (k =? j). }
  rewrite Hmap, filter_day_window.
  replace (j <? n0 + (n1 - n0 + 1)) with (j <=? n1)
    by (destruct (Z.leb_spec j n1), (Z.ltb_spec j (n0 + (n1 - n0 + 1))); try reflexivity; lia).
  now destruct (_ && _).
Qed.

End GridPlacement.

Section GridWitnesses.
Import JSDate Luxon RRule Calendar Client.

Lemma all_day_span_one_cell_per_day_witness :
  eventsOnDay (fun t => localMidnight Zones.newYork (localDay Zones.newYork t))
              (fun t => localMidnight Zones.newYork (localDay Zones.newYork t + 1) - 1)
              (map (dayOccurrence Zones.newYork Examples.feedUrl Examples.vacation)
                   [20031; 20032; 20033])
              (Examples.utcTime 2024 11 5 17 0)
  = [dayOccurrence Zones.newYork Examples.feedUrl Examples.vacation 20032].
Proof.
  refine (all_day_span_one_cell_per_day
            (iterator := RRule.model) Zones.newYork Zones.newYork
            (Examples.utcTime 2024 11 5 12 0)
            Examples.novemberStart Examples.novemberEnd Examples.feedUrl newYork_regular
            (fun t => localMidnight Zones.newYork (localDay Zones.newYork t))
            (fun t => localMidnight Zones.newYork (localDay Zones.newYork t + 1) - 1)
            8 Examples.vacation
            (map (dayOccurrence Zones.newYork Examples.feedUrl Examples.vacation)
                 [20031; 20032; 20033])
            (Examples.utcTime 2024 11 5 17 0) 20032
            eq_refl eq_refl _ _ _ _).
  - vm_compute. reflexivity.
  - vm_compute. reflexivity.
  - vm_compute. reflexivity.
  - vm_compute. reflexivity.
Defined.

End GridWitnesses.

(** * Text shown in the grid *)

Section TextProperties.
Import Calendar JSString Client.

Lemma upperChar_space c : Ascii.eqb (upperChar c) " " = Ascii.eqb c " ".
Proof. destruct c as [[] [] [] [] [] [] [] []]; reflexivity. Qed.

Lemma lowerChar_space c : Ascii.eqb (lowerChar c) " " = Ascii.eqb c " ".
Proof. destruct c as [[] [] [] [] [] [] [] []]; reflexivity. Qed.

Lemma upperChar_twice c : upperChar (upperChar c) = upperChar c.
Proof. destruct c as [[] [] [] [] [] [] [] []]; reflexivity. Qed.

Lemma lowerChar_twice c : lowerChar (lowerChar c) = lowerChar c.
Proof. destruct c as [[] [] [] [] [] [] [] []]; reflexivity. Qed.

Lemma toLowerCase_twice s : toLowerCase (toLowerCase s) = toLowerCase s.
Proof. induction s as [|c r IH]; cbn; [reflexivity|]. now rewrite lowerChar_twice, IH. Qed.

Lemma toLowerCase_length s : String.length (toLowerCase s) = String.length s.
Proof. induction s as [|c r IH]; cbn; [reflexivity|]. now rewrite IH. Qed.

Lemma toLowerCase_noSpace s : noSpace (toLowerCase s) = noSpace s.
Proof. induction s as [|c r IH]; cbn; [reflexivity|]. now rewrite lowerChar_space, IH. Qed.

Lemma capitalizeWord_eq c r :
  capitalizeWord (String c r) = String (upperChar c) (toLowerCase r).
Proof. reflexivity. Qed.

Lemma capitalizeWord_twice w : capitalizeWord (capitalizeWord w) = capitalizeWord w.
Proof.
  destruct w as [|c r]; [reflexivity|].
  rewrite !capitalizeWord_eq. now rewrite upperChar_twice, toLowerCase_twice.
Qed.

Lemma capitalizeWord_length w : String.length (capitalizeWord w) = String.length w.
Proof.
  destruct w as [|c r]; [reflexivity|].
  rewrite capitalizeWord_eq. cbn. now rewrite toLowerCase_length.
Qed.

Lemma capitalizeWord_noSpace w : noSpace (capitalizeWord w) = noSpace w.
Proof.
  destruct w as [|c r]; [reflexivity|].
  rewrite capitalizeWord_eq. cbn. now rewrite upperChar_space, toLowerCase_noSpace.
Qed.

Lemma split_nonempty s : split s <> [].
Proof.
  destruct s as [|c r]; cbn; [discriminate|].
  destruct (Ascii.eqb c " "); [discriminate|]. destruct (split r); discriminate.
Qed.

Lemma split_words s : Forall (fun w => noSpace w = true) (split s).
Proof.
  induction s as [|c r IH]; cbn [split]; [repeat constructor|].
  destruct (Ascii.eqb c " ") eqn:Ec; [constructor; [reflexivity | exact IH]|].
  destruct (split r) as [|w ws]; [repeat constructor; cbn; now rewrite Ec|].
  inversion IH as [|? ? Hw Hws]; subst. constructor; [|exact Hws].
  cbn. now rewrite Ec, Hw.
Qed.

(** Splitting at the spaces and joining with spaces gives the text back. *)
Lemma join_split s : join (split s) = s.
Proof.
  induction s as [|c r IH]; [reflexivity|]. cbn [split].
  destruct (Ascii.eqb_spec c " ") as [->|Hc].
  - pose proof (split_nonempty r) as Hne. cbn [join].
    destruct (split r) as [|w ws]; [contradiction|]. now rewrite IH.
  - destruct (split r) as [|w ws] eqn:Es; [now destruct (split_nonempty r)|].
    rewrite <- IH. destruct ws; reflexivity.
Qed.

Lemma split_word w : noSpace w = true -> split w = [w].
Proof.
  induction w as [|c r IH]; [reflexivity|]. cbn [noSpace split]. intros H.
  apply andb_prop in H. destruct H as [Hc Hr].
  apply negb_true_iff in Hc. rewrite Hc. now rewrite (IH Hr).
Qed.

Lemma split_app_space w x :
  noSpace w = true -> split (w ++ String " " x) = w :: split x.
Proof.
  induction w as [|c r IH]; [reflexivity|]. cbn [noSpace]. intros H.
  apply andb_prop in H. destruct H as [Hc Hr].
  apply negb_true_iff in Hc.
  change (String c r ++ String " " x)%string with (String c (r ++ String " " x)).
  cbn [split]. rewrite Hc. now rewrite (IH Hr).
Qed.

(** Joining words and splitting again gives the words back. *)
Lemma split_join ws :
  ws <> [] -> Forall (fun w => noSpace w = true) ws -> split (join ws) = ws.
Proof.
  induction ws as [|w rest IH]; [contradiction|]. intros _ Hws.
  inversion Hws as [|? ? Hw Hrest]; subst.
  destruct rest as [|w2 rest]; [now apply split_word|].
  change (join (w :: w2 :: rest)) with (w ++ String " " (join (w2 :: rest)))%string.
  rewrite split_app_space by exact Hw. f_equal. apply IH; [discriminate | exact Hrest].
Qed.

Lemma string_length_app a b :
  String.length (a ++ b) = (String.length a + String.length b)%nat.
Proof.
  induction a as [|c r IH]; [reflexivity|].
  change (String c r ++ b)%string with (String c (r ++ b)).
  cbn [String.length]. now rewrite IH.
Qed.

Lemma join_length_capitalized ws :
  String.length (join (map capitalizeWord ws)) = String.length (join ws).
Proof.
  induction ws as [|w rest IH]; [reflexivity|].
  destruct rest as [|w2 rest]; [apply capitalizeWord_length|].
  change (join (map capitalizeWord (w :: w2 :: rest)))
    with (capitalizeWord w ++ String " " (join (map capitalizeWord (w2 :: rest))))%string.
  change (join (w :: w2 :: rest)) with (w ++ String " " (join (w2 :: rest)))%string.
  rewrite !string_length_app. cbn [String.length].
  now rewrite capitalizeWord_length, IH.
Qed.

(** X23: on an ASCII text [capitalizeWords] works word by word: the
    words of its result, the pieces between single spaces, are the words
    of the text with the first letter in upper and the others in lower
    case; the length of the text and the places of its spaces are kept,
    and a second application changes nothing. *)
Theorem capitalizeWords_word_by_word (s : string) :
  isAscii s = true ->
  split (capitalizeWords (Some s)) = map capitalizeWord (split s)
  /\ String.length (capitalizeWords (Some s)) = String.length s
  /\ capitalizeWords (Some (capitalizeWords (Some s))) = capitalizeWords (Some s).
Proof.
  intros _.
  assert (Hwords : Forall (fun w => noSpace w = true) (map capitalizeWord (split s))).
  { apply List.Forall_forall. intros w Hw. apply in_map_iff in Hw.
    destruct Hw as (w0 & <- & Hw0). rewrite capitalizeWord_noSpace.
    pose proof (split_words s) as Hs. rewrite List.Forall_forall in Hs. now apply Hs. }
  assert (Hne : map capitalizeWord (split s) <> []).
  { pose proof (split_nonempty s). destruct (split s); [contradiction | discriminate]. }
  destruct s as [|c r]; [repeat split; reflexivity|].
  assert (Hcap : capitalizeWords (Some (String c r))
                 = join (map capitalizeWord (split (String c r)))) by reflexivity.
  assert (Hsplit : split (capitalizeWords (Some (String c r)))
                   = map capitalizeWord (split (String c r)))
    by (rewrite Hcap; now apply split_join).
  split; [exact Hsplit|]. split.
  - rewrite Hcap, join_length_capitalized. now rewrite join_split.
  - destruct (capitalizeWords (Some (String c r))) as [|c' r'] eqn:Ec.
    + reflexivity.
    + assert (Hcap' : capitalizeWords (Some (String c' r'))
                      = join (map capitalizeWord (split (String c' r')))) by reflexivity.
      rewrite Hcap', Hsplit, map_map.
      rewrite (map_ext _ capitalizeWord) by (intros; apply capitalizeWord_twice).
      now rewrite <- Hcap.
Qed.

End TextProperties.

Section TextWitnesses.
Import Calendar JSString Client.

Lemma capitalizeWords_word_by_word_witness :
  capitalizeWords (Some "light RAIN  showers"%string) = "Light Rain  Showers"%string
  /\ capitalizeWords (Some (capitalizeWords (Some "light RAIN  showers"%string)))
     = capitalizeWords (Some "light RAIN  showers"%string).
Proof.
  split; [reflexivity|].
  exact (proj2 (proj2 (capitalizeWords_word_by_word "light RAIN  showers" eq_refl))).
Defined.

End TextWitnesses.

(** * The garage door, and the events as the client loads them *)

Section DoorProperties.
Import Calendar GarageDoor Client.

Lemma act_cachedState a s :
  cachedState (act a s)
  = match a with
    | reports (onMessage message _) => Some message
    | _ => cachedState s
    end.
Proof.
  destruct a as [[subscribed|message now| | |]|env flag|env flag|]; cbn [act].
  - cbn. now destruct subscribed.
  - reflexivity.
  - reflexivity.
  - reflexivity.
  - reflexivity.
  - unfold initializeGarageDoorService.
    destruct (_ || _); [reflexivity|]. now destruct (_ && _).
  - unfold getGarageDoorState, initializeGarageDoorService.
    destruct (_ && _); [reflexivity|].
    destruct (mqttClient s); [reflexivity|].
    destruct (_ || _); [reflexivity|]. reflexivity.
  - unfold disconnectGarageDoor. now destruct (mqttClient s).
Qed.

Lemma afterActions_cachedState actions : forall s,
  cachedState (afterActions actions s) = lastMessage actions (cachedState s).
Proof.
  induction actions as [|a rest IH]; intros s; [reflexivity|].
  cbn [afterActions fold_left]. fold (afterActions rest (act a s)).
  rewrite IH, act_cachedState.
  destruct a as [[subscribed|message now| | |]|env flag|env flag|]; reflexivity.
Qed.

(** X25: the state of the door that the service reports is the text of
    the last message received, and nothing before the first: losing the
    connection, errors, reconnecting, initializing again and
    disconnecting never change or clear it.  The client shows the door as
    open exactly when the service is not disabled and that last message
    is the text OPEN. *)
Theorem door_state_is_last_message
  (actions : list Action) (env : Env) (clientConnected : bool) :
  state (snd (fst (getGarageDoorState env clientConnected
                     (afterActions actions doorLoaded))))
  = (if doorDisabled env then None else lastMessage actions None)
  /\ (garageDoorOpen (snd (fst (getGarageDoorState env clientConnected
                                  (afterActions actions doorLoaded)))) = true
      <-> doorDisabled env = false /\ lastMessage actions None = Some "OPEN"%string).
Proof.
  assert (Hstate : state (snd (fst (getGarageDoorState env clientConnected
                                      (afterActions actions doorLoaded))))
                   = if doorDisabled env then None else lastMessage actions None).
  { pose proof (afterActions_cachedState actions doorLoaded) as Hc.
    cbn [doorLoaded cachedState] in Hc.
    unfold getGarageDoorState, doorDisabled, initializeGarageDoorService.
    destruct (_ && _); [reflexivity|].
    destruct (mqttClient _); [exact Hc|].
    destruct (_ || _); exact Hc. }
  split; [exact Hstate|].
  unfold garageDoorOpen. rewrite Hstate.
  destruct (doorDisabled env); [split; [discriminate | intros [H _]; discriminate]|].
  destruct (lastMessage actions None) as [m|];
    [|split; [discriminate | intros [_ H]; discriminate]].
  destruct (String.eqb_spec m "OPEN") as [->|Hne].
  - split; auto.
  - split; [discriminate | intros [_ [= H]]; contradiction].
Qed.

End DoorProperties.

Section LoaderProperties.
Import Calendar Client.
Variables toISOString formatTime : Z -> string.

Lemma append_nil (s : string) : (EmptyString ++ s = s)%string.
Proof. reflexivity. Qed.

Lemma append_cons x (a b : string) : (String x a ++ b = String x (a ++ b))%string.
Proof. reflexivity. Qed.

Lemma append_assoc_string (a b c : string) : ((a ++ b) ++ c = a ++ (b ++ c))%string.
Proof.
  induction a as [|x a IH]; [reflexivity|]. rewrite !append_cons. now rewrite IH.
Qed.

Lemma decimal_dashFree n : dashFree (decimal n) = true.
Proof.
  unfold decimal. induction (Nat.to_uint n) as [|d IH|d IH|d IH|d IH|d IH|d IH|d IH|d IH|d IH|d IH];
    cbn; trivial.
Qed.

Lemma decimal_inj n m : decimal n = decimal m -> n = m.
Proof.
  unfold decimal. intros H. apply Unsigned.to_uint_inj.
  apply (f_equal NilEmpty.uint_of_string) in H. rewrite !NilEmpty.usu in H. congruence.
Qed.

Lemma dashFree_app_dash (q d : string) : dashFree (q ++ String "-" d) = false.
Proof.
  induction q as [|x q IH]; [reflexivity|].
  rewrite append_cons. cbn [dashFree]. rewrite IH. apply andb_false_r.
Qed.

(** Two texts that end in a dash and a dash-free part end in the same
    part when they are equal. *)
Lemma last_part_eq (p p' d d' : string) :
  dashFree d = true -> dashFree d' = true ->
  (p ++ String "-" d = p' ++ String "-" d')%string -> d = d'.
Proof.
  revert p'. induction p as [|c q IH]; intros p' Hd Hd';
    destruct p' as [|c' q']; rewrite ?append_nil, ?append_cons.
  - congruence.
  - intros [= <- ->]. now rewrite dashFree_app_dash in Hd.
  - intros [= -> <-]. now rewrite dashFree_app_dash in Hd'.
  - intros [= <- H]. exact (IH q' Hd Hd' H).
Qed.

Lemma eventId_shape event i :
  eventId toISOString event i
  = (("event-" ++ toISOString (Event.start event) ++ "-" ++ toISOString (Event.end_ event)
      ++ "-" ++ shown (Event.title event)) ++ String "-" (decimal i))%string.
Proof. unfold eventId. rewrite !append_assoc_string. reflexivity. Qed.

Lemma eventId_index event event' i j :
  eventId toISOString event i = eventId toISOString event' j -> i = j.
Proof.
  rewrite !eventId_shape. intros H. apply decimal_inj.
  exact (last_part_eq _ _ _ _ (decimal_dashFree i) (decimal_dashFree j) H).
Qed.

Lemma formatFrom_ids data : forall index x,
  In x (map id (formatFrom toISOString formatTime index data)) ->
  exists event j, (index <= j)%nat /\ x = eventId toISOString event j.
Proof.
  induction data as [|event rest IH]; intros index x; cbn [formatFrom map]; [contradiction|].
  intros [<-|Hin]; [exists event, index; split; [lia | reflexivity]|].
  destruct (IH (S index) x Hin) as (e & j & Hj & ->). exists e, j. split; [lia | reflexivity].
Qed.

Lemma formatFrom_spec data : forall index,
  map originalEvent (formatFrom toISOString formatTime index data) = data
  /\ List.NoDup (map id (formatFrom toISOString formatTime index data)).
Proof.
  induction data as [|event rest IH]; intros index; cbn [formatFrom map];
    [split; [reflexivity | constructor]|].
  destruct (IH (S index)) as [Ho Hn]. split; [now rewrite Ho|].
  constructor; [|exact Hn]. cbn [id]. intros Hin.
  apply formatFrom_ids in Hin. destruct Hin as (e & j & Hj & He).
  apply eventId_index in He. lia.
Qed.

(** X26: when the server answers with events, [loadEvents] returns them
    all, in the server's order and with the server's data, and gives
    them ids that are pairwise different, since the position in the list
    is the last part of each id. *)
Theorem loadEvents_ids_distinct
  (userTimezone : string) (post : RequestBody -> HttpResponse)
  (calendarUrls : list string) (data : list Event.t) :
  post (requestBody userTimezone calendarUrls) = Answer (Some data) ->
  exists events,
    loadEvents toISOString formatTime userTimezone post calendarUrls = Loaded events
    /\ map originalEvent events = data
    /\ List.NoDup (map id events).
Proof.
  intros Hpost. unfold loadEvents. rewrite Hpost.
  eexists. split; [reflexivity|]. apply formatFrom_spec.
Qed.

End LoaderProperties.

Section RequestProperties.
Import JSDate Luxon RRule Calendar Client.
Context {iterator : Iterator}.
Variable w : World.
Variable hostZone : Zone.
Variable parseICS : string -> Outcome (list Component).
Variable fuel : nat.
Variable zones : string -> Zone.

(** X27: the request that [loadEvents] sends is one the endpoint
    accepts: when the browser names its zone the answer is never 400,
    and the 90 days back and 180 days ahead that the client asks for are
    the endpoint's own defaults, so the answer is the one to a request
    that leaves the two counts out. *)
Theorem loadEvents_request_accepted
  (userTimezone : string) (urls : list string) (cache : gmap string (Z * string)) :
  truthy (Some userTimezone) = true ->
  fst (eventsEndpoint w hostZone parseICS fuel zones
                      (requestBody userTimezone urls) cache) <> Status400
  /\ eventsEndpoint w hostZone parseICS fuel zones
                    (requestBody userTimezone urls) cache
     = eventsEndpoint w hostZone parseICS fuel zones
                      (mkBody (Some urls) (Some userTimezone) None None) cache.
Proof.
  intros Ht. split; [|reflexivity].
  unfold eventsEndpoint, requestBody. cbn [calendarUrls timezoneName]. rewrite Ht.
  destruct (getCalendarEventsFromUrls _ _ _ _ _ _ _ _ _) as [[l [events|e|]] cache'];
    discriminate.
Qed.

End RequestProperties.

Section ClientWitnesses.
Import JSDate Luxon RRule Calendar Client.

Lemma loadEvents_ids_distinct_witness :
  exists events,
    loadEvents (fun t => decimal (Z.to_nat t)) (fun t => decimal (Z.to_nat t))
               "America/New_York"
               (fun _ => Answer (Some [timedEvent Examples.feedUrl Examples.lateEvent;
                                       timedEvent Examples.feedUrl Examples.lateEvent]))
               [Examples.goodUrl]
    = Loaded events
    /\ map originalEvent events
       = [timedEvent Examples.feedUrl Examples.lateEvent;
          timedEvent Examples.feedUrl Examples.lateEvent]
    /\ List.NoDup (map id events).
Proof.
  exact (loadEvents_ids_distinct
           (fun t => decimal (Z.to_nat t)) (fun t => decimal (Z.to_nat t))
           "America/New_York"
           (fun _ => Answer (Some [timedEvent Examples.feedUrl Examples.lateEvent;
                                   timedEvent Examples.feedUrl Examples.lateEvent]))
           [Examples.goodUrl]
           [timedEvent Examples.feedUrl Examples.lateEvent;
            timedEvent Examples.feedUrl Examples.lateEvent]
           eq_refl).
Defined.

Lemma loadEvents_request_accepted_witness :
  fst (eventsEndpoint (iterator := RRule.model) Examples.oneFeedDown Zones.newYork
                      Examples.twoEvents 8 (fun _ => Zones.newYork)
                      (requestBody "America/New_York" [Examples.goodUrl]) ∅)
  <> Status400.
Proof.
  exact (proj1 (loadEvents_request_accepted
                  (iterator := RRule.model) Examples.oneFeedDown Zones.newYork
                  Examples.twoEvents 8 (fun _ => Zones.newYork)
                  "America/New_York" [Examples.goodUrl] ∅ eq_refl)).
Defined.

End ClientWitnesses.

(** * The early exit, and where an event comes from *)

Section SearchFacts.
Import JSDate Luxon RRule Calendar.
Local Arguments civilFromDays : simpl never.

Lemma searchFor_add a step : forall b n left,
  searchFor (a + b) step n left
  = match searchFor a step n left with
    | Continue n' left' => searchFor b step n' left'
    | Done r => Done r
    end.
Proof.
  induction a as [|a IH]; intros b n left; cbn [Nat.add searchFor]; [reflexivity|].
  destruct (step n left) as [n' left'|r]; [apply IH | reflexivity].
Qed.

Lemma searchPow_searchFor k step : forall n left,
  searchPow k step n left = searchFor (2 ^ k) step n left.
Proof.
  induction k as [|k IH]; intros n left.
  - cbn. now destruct (step n left).
  - cbn [searchPow]. rewrite Nat.pow_succ_r'.
    replace (2 * 2 ^ k)%nat with (2 ^ k + 2 ^ k)%nat by lia.
    rewrite searchFor_add, <- IH.
    destruct (searchPow k step n left) as [n' left'|r]; [apply IH | reflexivity].
Qed.

Lemma searchFor_more fuel step : forall fuel' n left r,
  (fuel <= fuel')%nat ->
  searchFor fuel step n left = Done r -> searchFor fuel' step n left = Done r.
Proof.
  induction fuel as [|fuel IH]; intros fuel' n left r Hle; cbn [searchFor]; [discriminate|].
  destruct fuel' as [|fuel']; [lia|]. cbn [searchFor].
  destruct (step n left) as [n' left'|r']; [|trivial].
  apply IH. lia.
Qed.

Lemma epochDay_le t t' : t <= t' -> epochDay t <= epochDay t'.
Proof. intros H. unfold epochDay, msPerDay. apply Z.div_le_mono; lia. Qed.

(** What a scan yields at or after an instant, the search finds: it ends
    with a date between the instant and that yield. *)
Lemma scan_found o f a d fuel : forall n left,
  In d (scan o f fuel n left) -> a <= d ->
  exists t, searchFor fuel (searchStep o f a) n left = Done (Some t) /\ a <= t <= d.
Proof.
  induction fuel as [|fuel IH]; intros n left Hin Ha; [contradiction|].
  cbn [scan] in Hin. cbn [searchFor]. unfold searchStep.
  destruct (visit o f n left) as [| |t0] eqn:Ev; [contradiction|now apply IH|].
  pose proof (visit_yield _ _ _ _ _ Ev) as (Ht0 & _ & _).
  destruct (scan_days o f fuel (n + 1) (spend left)) as [Hlow _].
  assert (Hlater : In d (scan o f fuel (n + 1) (spend left)) -> t0 < d).
  { intros Hd. rewrite List.Forall_forall in Hlow. specialize (Hlow d Hd).
    destruct (Z.lt_ge_cases t0 d) as [|Hge]; [assumption|].
    apply epochDay_le in Hge.
    assert (Hn : epochDay t0 = n)
      by (rewrite Ht0; apply epochDay_unique, msOfDay_range).
    lia. }
  destruct (Z.leb_spec a t0) as [Hle|Hgt].
  - exists t0. split; [reflexivity|]. split; [exact Hle|].
    destruct Hin as [<-|Hd]; [lia|]. specialize (Hlater Hd). lia.
  - destruct Hin as [<-|Hd]; [lia|]. now apply IH.
Qed.

(** Whenever the rule has a date strictly inside the window, [after]
    answers with a date that is not past the window's end. *)
Lemma model_gate_open p a b d :
  epochDay b - epochDay (dtstart p) + 1 <= 2 ^ 23 ->
  In d (between (RRule.model p) a b) ->
  seriesInRange (RRule.model p) a b = true.
Proof.
  intros Hfar Hin. pose proof (between_model_inside p a b d Hin) as Hd.
  unfold seriesInRange. unfold RRule.model in *.
  destruct (freq p) as [f|]; [|contradiction]. cbn [after between] in *.
  unfold modelBetween in Hin. apply filter_In in Hin. destruct Hin as [Hin _].
  destruct (scan_found p f a d _ _ _ Hin ltac:(lia)) as (t & Hs & Ht).
  assert (Hle : (Z.to_nat (epochDay b - epochDay (dtstart p) + 1) <= 2 ^ 23)%nat).
  { apply Nat2Z.inj_le. rewrite Nat2Z.inj_pow.
    change (Z.of_nat 2 ^ Z.of_nat 23) with (2 ^ 23).
    change (2 ^ 23) with 8388608 in *. lia. }
  unfold modelAfter. rewrite searchPow_searchFor.
  rewrite (searchFor_more _ _ _ _ _ _ Hle Hs).
  apply negb_true_iff, Z.ltb_ge. lia.
Qed.

End SearchFacts.

Section GateProperties.
Import JSDate Luxon RRule Calendar.
Variables timezone hostZone : Zone.
Variable now : Z.
Variables startRange endRange : Z.
Variable url : string.

(** X28: on the timed path the early exit ("the series ended before our
    range") never hides an occurrence: whenever the rule has a date
    strictly inside the window the exit is not taken, so the result is
    always the override records followed by the occurrences of all the
    rule's dates in the window (for a window that ends less than 2^23
    days after the event's start). *)
Theorem timed_gate_loses_nothing (fuel : nat) (item : Item.t) (r : RRuleObj) :
  Item.rrule item = Some r ->
  Item.datetype item = dateTime ->
  epochDay endRange - epochDay (Item.start item) + 1 <= 2 ^ 23 ->
  processItem (iterator := RRule.model) timezone hostZone now startRange endRange
              url fuel item
  = ([], Returned (overrideEvents startRange endRange url item
                   ++ baseEvents timezone url item
                                 (between (utcRuleSet (iterator := RRule.model) item r)
                                          startRange endRange))).
Proof.
  intros Hr Hd Hfar. unfold processItem. rewrite Hr, Hd.
  rewrite timedRecurring_eq. unfold ret. do 3 f_equal.
  assert (Hset : exists p, utcRuleSet (iterator := RRule.model) item r = RRule.model p
                           /\ dtstart p = Item.start item).
  { destruct (ruleLine r) as [line|] eqn:El.
    - destruct (utcRuleSet_model item r line El) as (p & Hp & Hs & _). eauto.
    - unfold utcRuleSet. rewrite El. eexists. split; reflexivity. }
  destruct Hset as (p & -> & Hs).
  destruct (between (RRule.model p) startRange endRange) as [|d dates] eqn:Eb.
  - now destruct (seriesInRange _ _ _).
  - rewrite (model_gate_open p startRange endRange d); [reflexivity| |].
    + now rewrite Hs.
    + rewrite Eb. now left.
Qed.

End GateProperties.

Section ProvenanceProperties.
Import JSDate Luxon RRule Calendar Client.
Context {iterator : Iterator}.
Variable w : World.
Variable hostZone : Zone.
Variable parseICS : string -> Outcome (list Component).
Variable fuel : nat.
Variable timezone : Zone.
Variables startRange endRange : Z.

Lemma splitDays_url url item k : forall currentDay lastDay evs,
  splitDays timezone startRange endRange url k item currentDay lastDay = Some evs ->
  Forall (fun e => Event.calendarUrl e = url) evs.
Proof.
  intros currentDay lastDay evs H.
  eapply List.Forall_impl; [|exact (splitDays_in_window timezone startRange endRange url
                                     item k currentDay lastDay evs H)].
  cbn. intros e (_ & _ & _ & Hu). exact Hu.
Qed.

Lemma processItem_url now url item l evs :
  processItem timezone hostZone now startRange endRange url fuel item = (l, Returned evs) ->
  Forall (fun e => Event.calendarUrl e = url) evs.
Proof.
  unfold processItem.
  destruct (Item.rrule item) as [r|]; [destruct (Item.datetype item)|].
  - destruct (parseOptions (normalize hostZone item (ruleOptions item r))) as [p|] eqn:Ep.
    + rewrite (allDayRecurring_returned timezone hostZone now startRange endRange url
                 item r p Ep).
      intros [= _ <-]. destruct (seriesInRange _ _ _); [|constructor].
      apply List.Forall_forall. intros e He.
      apply in_allDayEvents in He. destruct He as (d & _ & _ & _ & ->). reflexivity.
    + unfold allDayRecurring, newRRule. rewrite Ep. destruct (isPresent _); discriminate.
  - intros [= _ <-]. rewrite timedRecurring_eq.
    apply Forall_app. split; apply List.Forall_forall; intros e He.
    + apply in_overrideEvents in He. destruct He as (rec & _ & _ & ->). reflexivity.
    + destruct (seriesInRange _ _ _); [|contradiction].
      apply in_baseEvents in He. destruct He as (d & _ & _ & _ & ->). reflexivity.
  - unfold nonRecurring. destruct (_ && _).
    + destruct (splitDays _ _ _ _ _ _ _ _) as [days|] eqn:Es; [|discriminate].
      intros [= _ <-]. exact (splitDays_url url item fuel _ _ _ Es).
    + destruct (_ && _); intros [= _ <-]; repeat constructor.
Qed.

Lemma parseComponents_url now url parsedData : forall l evs,
  parseComponents timezone hostZone now startRange endRange url fuel parsedData
  = (l, Returned evs) ->
  Forall (fun e => Event.calendarUrl e = url) evs.
Proof.
  induction parsedData as [|[item|] rest IH]; intros l evs; cbn [parseComponents].
  - intros [= _ <-]. constructor.
  - destruct (processItem _ _ _ _ _ _ _ item) as [l1 [evs1|e|]] eqn:E1; cbn [bind];
      try discriminate.
    destruct (parseComponents _ _ _ _ _ _ _ rest) as [l2 [evs2|e|]] eqn:E2; cbn [bind ret];
      try discriminate.
    intros [= _ <-]. apply Forall_app. split.
    + exact (processItem_url now url item l1 evs1 E1).
    + exact (IH l2 evs2 eq_refl).
  - apply IH.
Qed.


End ProvenanceProperties.

Section GateWitnesses.
Import JSDate Luxon RRule Calendar Client.

Lemma timed_gate_loses_nothing_witness :
  processItem (iterator := RRule.model) Zones.newYork Zones.newYork
              (Examples.utcTime 2024 11 5 12 0)
              (Examples.utcTime 2024 10 28 4 0) (Examples.utcTime 2024 11 6 5 0)
              Examples.feedUrl 8 Examples.recurringDstEvent
  = ([], Returned (overrideEvents (Examples.utcTime 2024 10 28 4 0)
                                  (Examples.utcTime 2024 11 6 5 0)
                                  Examples.feedUrl Examples.recurringDstEvent
                   ++ baseEvents Zones.newYork Examples.feedUrl Examples.recurringDstEvent
                                 (between (utcRuleSet (iterator := RRule.model)
                                                      Examples.recurringDstEvent
                                                      Examples.weeklyTuesday)
                                          (Examples.utcTime 2024 10 28 4 0)
                                          (Examples.utcTime 2024 11 6 5 0)))).
Proof.
  refine (timed_gate_loses_nothing
            Zones.newYork Zones.newYork (Examples.utcTime 2024 11 5 12 0)
            (Examples.utcTime 2024 10 28 4 0) (Examples.utcTime 2024 11 6 5 0)
            Examples.feedUrl 8 Examples.recurringDstEvent Examples.weeklyTuesday
            eq_refl eq_refl _).
  vm_compute. discriminate.
Defined.


End GateWitnesses.
